(** * TruthLens backend: versioning and engagement aggregation

    A shallow embedding of [server/storage.ts] (class [DatabaseStorage]),
    [server/api/versions.ts] and the tables of [shared/schema.ts], and the
    properties of the design document checked against it.

    Modelling conventions.
    - A table is the list of its rows in insertion order together with the
      next value of its [serial] id.  A [select] without [ORDER BY] returns
      rows in that order; an [update] keeps a row in its place.
    - Integer columns and the numbers of the code are integers ([Z]).  The
      database refuses a value outside the range of an [integer]; the model
      does not, and a statement that depends on a value staying in range
      says so ([int4], [room]).  The one division of the code
      ([totalTime / newBounces]) is taken exactly, in [Q], and rounded with
      [Math.round]; the code takes it in doubles, which are modelled as well
      ([JS.double], [Storage.newAvgTime]) and give the same result for a
      total below [2 ^ 52].
    - Timestamps are milliseconds ([Z]).  A recording call reads three
      clocks ([Clock]): the database's for the log row, the server's for
      [today], and one of the two for [updatedAt]; a time where a clock is
      expected stands for a call that reads that time throughout.  The other
      calls get the time as [now].  The server's calendar day is taken in
      UTC.
    - Text is a string of bytes.  [LIKE] and [ILIKE] take a byte for a
      character and fold the letters A-Z, as the database does on ASCII
      text; statements about the search are made for ASCII text.
    - Every [await]ed database statement is one atomic step.  An [async]
      function is a tree of such steps ([prog]); it can be run to completion
      ([run]) or one step at a time, interleaved with other calls
      ([run_schedule]).
    - Of the constraints of the schema, the foreign keys towards [articles]
      (with their [ON DELETE] actions) and towards [topics] are modelled; the
      [users] table is outside the model.  An insert that a foreign key
      refuses writes no row but has drawn its serial id.

    The recording routes of [server/api/analytics.ts], the fetch and delete
    routes of [server/api/topics.ts] and the limiter of
    [server/middleware/rate-limiter.ts] are embedded as well. *)

From Stdlib Require Import ZArith QArith Qround Qpower List String Ascii Bool.
From Stdlib Require Import Lia Lqa Permutation Sorting.Sorted.
Import ListNotations.
Open Scope Z_scope.

Set Implicit Arguments.

(** ** JavaScript values and operators used by the code *)

Module JS.

(** Truthiness of a number that may be [null]/[undefined]:
    [if (x)] holds for every number except [0]. *)
Definition truthy (x : option Z) : bool :=
  match x with
  | Some n => negb (n =? 0)
  | None => false
  end.

(** Truthiness of an optional string: [if (s)] fails on [undefined] and on
    the empty string. *)
Definition truthy_str (s : option string) : bool :=
  match s with
  | Some EmptyString => false
  | Some _ => true
  | None => false
  end.

(** [x || d] on numbers. *)
Definition or_num (x : option Z) (d : Z) : Z :=
  match x with
  | Some n => if n =? 0 then d else n
  | None => d
  end.

(** [Math.round]: the nearest integer, halves going up. *)
Definition Math_round (x : Q) : Z := Qfloor (x + (1 # 2))%Q.

(** A number is an IEEE 754 double, and [*], [+] and [/] give the double
    nearest to the exact result.  [double x] is the double nearest to the
    rational [x]: 53 significant bits, a tie going to the even significand.
    The exponent is not limited; the numbers of the code are far from
    overflow and from the subnormal numbers. *)
Definition round_half_even (x : Q) : Z :=
  let f := Qfloor x in
  match (x - inject_Z f ?= 1 # 2)%Q with
  | Lt => f
  | Gt => f + 1
  | Eq => if Z.even f then f else f + 1
  end.

(** The exponent [e] of a positive number: [2 ^ e <= x < 2 ^ (e + 1)]. *)
Definition exponent (x : Q) : Z :=
  let e := Z.log2 (Qnum x) - Z.log2 (Zpos (Qden x)) in
  if Qle_bool (2 ^ e) x then e else e - 1.

Definition double (x : Q) : Q :=
  match (x ?= 0)%Q with
  | Eq => 0%Q
  | Gt => let ulp := (2 ^ (exponent x - 52))%Q in
          (inject_Z (round_half_even (x / ulp)) * ulp)%Q
  | Lt => let ulp := (2 ^ (exponent (- x) - 52))%Q in
          (- (inject_Z (round_half_even (- x / ulp)) * ulp))%Q
  end.

Definition mul (x y : Q) : Q := double (x * y).
Definition add (x y : Q) : Q := double (x + y).
Definition div (x y : Q) : Q := double (x / y).

(** The values a JSON request body can hold in one field.  [Num] is a
    number that is an integer; a number with a fraction is not among the
    values ([Other] is a boolean, an array or an object): what becomes of
    it depends on the schema generator in use. *)
Inductive value :=
| Undefined
| Null
| Str (s : string)
| Num (n : Z)
| Other.

End JS.

(** ** Rows of the tables ([shared/schema.ts]) *)

Module Topic.
Record t := mk
  { id : Z; name : string; description : option string; slug : string;
    createdAt : Z; updatedAt : Z }.
End Topic.

Module Article.
Record t := mk
  { id : Z; title : string; slug : string; description : option string;
    content : string; topicId : option Z; authorId : option Z;
    status : string; publishedAt : option Z; createdAt : Z; updatedAt : Z }.
End Article.

Module Reference.
Record t := mk
  { id : Z; articleId : Z; title : string; url : option string;
    description : option string; createdAt : Z; updatedAt : Z }.
End Reference.

Module ArticleVersion.
Record t := mk
  { id : Z; articleId : Z; title : string; description : option string;
    content : string; versionNumber : Z; createdById : option Z;
    createdAt : Z }.
End ArticleVersion.

Module ArticleView.
Record t := mk
  { id : Z; articleId : Z; userId : option Z; ip : option string;
    userAgent : option string; referrer : option string; viewedAt : Z }.
End ArticleView.

Module ArticleBounce.
Record t := mk
  { id : Z; articleId : Z; userId : option Z; ip : option string;
    userAgent : option string; referrer : option string;
    timeOnPage : option Z; bouncedAt : Z }.
End ArticleBounce.

Module SocialShare.
Record t := mk
  { id : Z; articleId : Z; userId : option Z; platform : string;
    sharedAt : Z }.
End SocialShare.

Module DailyArticleStat.
Record t := mk
  { id : Z; articleId : Z; date : Z; views : Z; shares : Z; bounces : Z;
    averageTimeOnPage : Z; updatedAt : Z }.
End DailyArticleStat.

(** The insert types ([InsertArticleVersion], ...): the row without the
    columns the database fills in. *)

Module InsertArticleVersion.
Record t := mk
  { articleId : Z; title : string; description : option string;
    content : string; versionNumber : Z; createdById : option Z }.
End InsertArticleVersion.

Module InsertArticleView.
Record t := mk
  { articleId : Z; userId : option Z; ip : option string;
    userAgent : option string; referrer : option string }.
End InsertArticleView.

Module InsertArticleBounce.
Record t := mk
  { articleId : Z; userId : option Z; ip : option string;
    userAgent : option string; referrer : option string;
    timeOnPage : option Z }.
End InsertArticleBounce.

Module InsertSocialShare.
Record t := mk { articleId : Z; userId : option Z; platform : string }.
End InsertSocialShare.

Module InsertReference.
Record t := mk
  { articleId : Z; title : string; url : option string;
    description : option string }.
End InsertReference.

(** [Partial<InsertReference>]: a field that is absent is left alone; [url]
    and [description] can also be set to [null]. *)
Module ReferencePatch.
Record t := mk
  { articleId : option Z; title : option string; url : option (option string);
    description : option (option string) }.
End ReferencePatch.

(** ** The database *)

Record Table (A : Type) := mkTable { rows : list A; nextId : Z }.

Record DB := mkDB
  { topics : Table Topic.t;
    articles : Table Article.t;
    references : Table Reference.t;
    articleVersions : Table ArticleVersion.t;
    articleViews : Table ArticleView.t;
    articleBounces : Table ArticleBounce.t;
    socialShares : Table SocialShare.t;
    dailyArticleStats : Table DailyArticleStat.t }.

Definition set_topics (db : DB) (x : Table Topic.t) : DB :=
  mkDB x (articles db) (references db) (articleVersions db) (articleViews db)
       (articleBounces db) (socialShares db) (dailyArticleStats db).

Definition set_articles (db : DB) (x : Table Article.t) : DB :=
  mkDB (topics db) x (references db) (articleVersions db) (articleViews db)
       (articleBounces db) (socialShares db) (dailyArticleStats db).

Definition set_references (db : DB) (x : Table Reference.t) : DB :=
  mkDB (topics db) (articles db) x (articleVersions db) (articleViews db)
       (articleBounces db) (socialShares db) (dailyArticleStats db).

Definition set_articleVersions (db : DB) (x : Table ArticleVersion.t) : DB :=
  mkDB (topics db) (articles db) (references db) x (articleViews db)
       (articleBounces db) (socialShares db) (dailyArticleStats db).

Definition set_articleViews (db : DB) (x : Table ArticleView.t) : DB :=
  mkDB (topics db) (articles db) (references db) (articleVersions db) x
       (articleBounces db) (socialShares db) (dailyArticleStats db).

Definition set_articleBounces (db : DB) (x : Table ArticleBounce.t) : DB :=
  mkDB (topics db) (articles db) (references db) (articleVersions db)
       (articleViews db) x (socialShares db) (dailyArticleStats db).

Definition set_socialShares (db : DB) (x : Table SocialShare.t) : DB :=
  mkDB (topics db) (articles db) (references db) (articleVersions db)
       (articleViews db) (articleBounces db) x (dailyArticleStats db).

Definition set_dailyArticleStats (db : DB) (x : Table DailyArticleStat.t) : DB :=
  mkDB (topics db) (articles db) (references db) (articleVersions db)
       (articleViews db) (articleBounces db) (socialShares db) x.

(** [INSERT ... RETURNING]: the row gets the next serial id and goes last. *)
Definition insert_row {A} (mkrow : Z -> A) (t : Table A) : Table A * A :=
  let r := mkrow (nextId t) in
  (mkTable (rows t ++ [r]) (nextId t + 1), r).

(** An [INSERT] that is refused once its row is formed (a foreign key that
    does not hold) has drawn its serial id all the same: a sequence is not
    rolled back. *)
Definition skip_id {A} (t : Table A) : Table A :=
  mkTable (rows t) (nextId t + 1).

(** [UPDATE ... SET ... WHERE p]. *)
Definition update_rows {A} (p : A -> bool) (f : A -> A) (t : Table A) : Table A :=
  mkTable (map (fun r => if p r then f r else r) (rows t)) (nextId t).

(** [DELETE ... WHERE p]. *)
Definition delete_rows {A} (p : A -> bool) (t : Table A) : Table A :=
  mkTable (filter (fun r => negb (p r)) (rows t)) (nextId t).

(** [ORDER BY]: a stable insertion sort; [le x y] says that [x] may come
    before [y].  Rows that tie keep their table order (SQL leaves the order
    of ties open). *)
Fixpoint insert_by {A} (le : A -> A -> bool) (x : A) (l : list A) : list A :=
  match l with
  | [] => [x]
  | y :: l' => if le x y then x :: l else y :: insert_by le x l'
  end.

Definition orderBy {A} (le : A -> A -> bool) (l : list A) : list A :=
  fold_right (insert_by le) [] l.

Definition asc {A} (key : A -> Z) (x y : A) : bool := key x <=? key y.
Definition desc {A} (key : A -> Z) (x y : A) : bool := key y <=? key x.

(** The range of an [integer] column and of a [serial] id. *)
Definition int4 (n : Z) : Prop := -2147483648 <= n <= 2147483647.

Definition article_exists (db : DB) (articleId : Z) : bool :=
  existsb (fun a => Article.id a =? articleId) (rows (articles db)).

(** ** Errors and asynchronous programs *)

Inductive Error :=
| ForeignKeyViolation
| InvalidNumber
| ZodError.

(** One database statement: it runs atomically and either fails or
    returns a value.  A statement that fails leaves every row as it was. *)
Definition Statement (A : Type) : Type := DB -> DB * (Error + A).

(** An [async] function body: a result, a thrown error, or an [await] of a
    statement followed by the rest of the body. *)
Inductive prog (R : Type) : Type :=
| Ret (r : R)
| Throw (e : Error)
| Await (A : Type) (q : Statement A) (k : Error + A -> prog R).

Arguments Ret {R} r.
Arguments Throw {R} e.
Arguments Await {R A} q k.

Definition await {A} (q : Statement A) : prog A :=
  Await q (fun r => match r with inl e => Throw e | inr a => Ret a end).

Fixpoint bind {R S} (p : prog R) (f : R -> prog S) : prog S :=
  match p with
  | Ret r => f r
  | Throw e => Throw e
  | Await q k => Await q (fun r => bind (k r) f)
  end.

(** [try { p } catch (e) { h e }]. *)
Fixpoint try_catch {R} (p : prog R) (h : Error -> prog R) : prog R :=
  match p with
  | Ret r => Ret r
  | Throw e => h e
  | Await q k => Await q (fun r => try_catch (k r) h)
  end.

Notation "x <- p ;; k" := (bind p (fun x => k))
  (at level 61, p at next level, right associativity).

(** Running a call to completion, with no other call in between. *)
Fixpoint run {R} (p : prog R) (db : DB) : DB * (Error + R) :=
  match p with
  | Ret r => (db, inr r)
  | Throw e => (db, inl e)
  | Await q k => let (db', r) := q db in run (k r) db'
  end.

(** One scheduling step of a call: its next statement. *)
Definition step {R} (p : prog R) (db : DB) : DB * prog R :=
  match p with
  | Await q k => let (db', r) := q db in (db', k r)
  | _ => (db, p)
  end.

Definition finished {R} (p : prog R) : bool :=
  match p with
  | Await _ _ => false
  | _ => true
  end.

(** Calls in flight, and a schedule: which call takes the next step. *)
Fixpoint step_nth {R} (i : nat) (pool : list (prog R)) (db : DB)
  : DB * list (prog R) :=
  match pool, i with
  | [], _ => (db, [])
  | p :: ps, O => let (db', p') := step p db in (db', p' :: ps)
  | p :: ps, S j => let (db', ps') := step_nth j ps db in (db', p :: ps')
  end.

Fixpoint run_schedule {R} (sched : list nat) (pool : list (prog R)) (db : DB)
  : DB * list (prog R) :=
  match sched with
  | [] => (db, pool)
  | i :: sched' =>
      let (db', pool') := step_nth i pool db in run_schedule sched' pool' db'
  end.

(** ** SQL pattern matching *)

Module Sql.

(** [LIKE]: [%] stands for any run of characters, [_] for any one
    character, and a backslash takes the next character literally.  A
    pattern that ends in a lone backslash is rejected by the database; the
    patterns built by the code end in [%], so they never do.  A character is
    taken to be one byte of the string, which it is in ASCII text; the
    database matches [_] against one character, of however many bytes. *)
Fixpoint like (p : list ascii) : list ascii -> bool :=
  match p with
  | [] => fun s => match s with [] => true | _ :: _ => false end
  | c :: p' =>
      if Ascii.eqb c "%" then
        fix star (s : list ascii) : bool :=
          like p' s || match s with [] => false | _ :: s' => star s' end
      else if Ascii.eqb c "_" then
        fun s => match s with [] => false | _ :: s' => like p' s' end
      else if Ascii.eqb c "\" then
        match p' with
        | [] => fun _ => false
        | d :: p'' =>
            fun s => match s with
                     | [] => false
                     | e :: s' => Ascii.eqb d e && like p'' s'
                     end
        end
      else
        fun s => match s with
                 | [] => false
                 | e :: s' => Ascii.eqb c e && like p' s'
                 end
  end.

(** Case folding of the letters A-Z, the letters of ASCII text that have a
    lower case.  How the database folds other letters depends on its
    locale and is left out. *)
Definition lower (c : ascii) : ascii :=
  let n := nat_of_ascii c in
  if ((65 <=? n) && (n <=? 90))%nat then ascii_of_nat (n + 32) else c.

(** [text ILIKE pattern]; [NULL ILIKE pattern] is not true. *)
Definition ilike (text : option string) (pattern : string) : bool :=
  match text with
  | None => false
  | Some s =>
      like (map lower (list_ascii_of_string pattern))
           (map lower (list_ascii_of_string s))
  end.

(** The [where] slot of a query builder: a later [.where(...)] takes the
    place of an earlier one. *)
Definition where_ {A} (q : option (A -> bool)) (p : A -> bool)
  : option (A -> bool) := Some p.

Definition select_where {A} (q : option (A -> bool)) (l : list A) : list A :=
  match q with
  | Some p => filter p l
  | None => l
  end.

End Sql.

(** ** The clocks of a recording call *)

(** A recording call takes the time three times.  The database stamps the
    log row with [defaultNow()] when it inserts it; the server then takes
    [new Date()] for [today]; and the daily row is written with a later
    reading: the server's [new Date()] in the update, the database's
    [defaultNow()] in the insert. *)
Record Clock := mkClock { atInsert : Z; atToday : Z; atWrite : Z }.

(** A call that reads the same time throughout; a time stands for such a
    call. *)
Definition instant (t : Z) : Clock := mkClock t t t.

Coercion instant : Z >-> Clock.

(** ** [server/storage.ts] *)

Module Storage.

Definition startOfDay (t : Z) : Z := t - t mod 86400000.

Definition eq_opt (x : option Z) (y : Z) : bool :=
  match x with
  | Some n => n =? y
  | None => false
  end.

(** *** Articles *)

Definition getArticle (id : Z) : prog (option Article.t) :=
  await (fun db =>
    (db, inr (find (fun a => Article.id a =? id) (rows (articles db))))).

Record ArticlesOptions := mkOptions
  { topicId : option Z; status : option string; authorId : option Z;
    search : option string; limit : option nat; offset : option nat }.

Record ArticlesPage := mkPage { page_articles : list Article.t; total : Z }.

(** The list [conditions] of [getArticles]. *)
Definition conditions (o : ArticlesOptions) : list (Article.t -> bool) :=
  (match topicId o with
   | Some t => if JS.truthy (topicId o)
               then [fun a => eq_opt (Article.topicId a) t] else []
   | None => []
   end)
  ++ (match status o with
      | Some s => if JS.truthy_str (status o)
                  then [fun a => String.eqb (Article.status a) s] else []
      | None => []
      end)
  ++ (match authorId o with
      | Some u => if JS.truthy (authorId o)
                  then [fun a => eq_opt (Article.authorId a) u] else []
      | None => []
      end)
  ++ (match search o with
      | Some s =>
          if JS.truthy_str (search o) then
            let searchPattern := ("%" ++ s ++ "%")%string in
            [fun a => Sql.ilike (Some (Article.title a)) searchPattern
                      || Sql.ilike (Article.description a) searchPattern
                      || Sql.ilike (Some (Article.content a)) searchPattern]
          else []
      | None => []
      end).

(** [conditions.reduce((acc, c) => and(acc, c))], or no clause at all. *)
Definition whereClause (o : ArticlesOptions) : option (Article.t -> bool) :=
  match conditions o with
  | [] => None
  | c :: cs => Some (fold_left (fun acc c' a => acc a && c' a) cs c)
  end.

Definition getArticles (o : ArticlesOptions) : prog ArticlesPage :=
  let limit := match limit o with Some n => n | None => 10%nat end in
  let offset := match offset o with Some n => n | None => 0%nat end in
  totalResult <- await (fun db =>
    (db, inr (Z.of_nat
                (List.length (Sql.select_where (whereClause o)
                                          (rows (articles db)))))));;
  articlesResult <- await (fun db =>
    (db, inr (firstn limit (skipn offset
                (orderBy (desc Article.updatedAt)
                   (Sql.select_where (whereClause o)
                                     (rows (articles db))))))));;
  Ret (mkPage articlesResult (JS.or_num (Some totalResult) 0)).

Record ArticlePatch := mkPatch
  { patch_title : string; patch_description : option string;
    patch_content : string }.

(** [updateArticle(id, { title, description, content })], the one shape of
    patch the version routes pass. *)
Definition updateArticle (now : Z) (id : Z) (articleData : ArticlePatch)
  : prog (option Article.t) :=
  let set a :=
    Article.mk (Article.id a) (patch_title articleData) (Article.slug a)
               (patch_description articleData) (patch_content articleData)
               (Article.topicId a) (Article.authorId a) (Article.status a)
               (Article.publishedAt a) (Article.createdAt a) now in
  await (fun db =>
    let t := update_rows (fun a => Article.id a =? id) set (articles db) in
    (set_articles db t,
     inr (find (fun a => Article.id a =? id) (rows t)))).

(** *** Deletions, with the [ON DELETE] actions of the schema *)

Definition deleteTopic (id : Z) : prog bool :=
  _ <- await (fun db =>
    let clear a :=
      Article.mk (Article.id a) (Article.title a) (Article.slug a)
                 (Article.description a) (Article.content a) None
                 (Article.authorId a) (Article.status a)
                 (Article.publishedAt a) (Article.createdAt a)
                 (Article.updatedAt a) in
    if existsb (fun t => Topic.id t =? id) (rows (topics db)) then
      (set_articles
         (set_topics db (delete_rows (fun t => Topic.id t =? id) (topics db)))
         (update_rows (fun a => eq_opt (Article.topicId a) id) clear
                      (articles db)),
       inr tt)
    else (db, inr tt));;
  Ret true.

Definition deleteArticle (id : Z) : prog bool :=
  _ <- await (fun db =>
    if article_exists db id then
      (mkDB (topics db)
            (delete_rows (fun a => Article.id a =? id) (articles db))
            (delete_rows (fun r => Reference.articleId r =? id) (references db))
            (delete_rows (fun r => ArticleVersion.articleId r =? id)
                         (articleVersions db))
            (delete_rows (fun r => ArticleView.articleId r =? id)
                         (articleViews db))
            (delete_rows (fun r => ArticleBounce.articleId r =? id)
                         (articleBounces db))
            (delete_rows (fun r => SocialShare.articleId r =? id)
                         (socialShares db))
            (delete_rows (fun r => DailyArticleStat.articleId r =? id)
                         (dailyArticleStats db)),
       inr tt)
    else (db, inr tt));;
  Ret true.

Definition deleteReference (id : Z) : prog bool :=
  _ <- await (fun db =>
    (set_references db
       (delete_rows (fun r => Reference.id r =? id) (references db)),
     inr tt));;
  Ret true.

(** *** Versions *)

Definition getArticleVersions (articleId : Z) : prog (list ArticleVersion.t) :=
  await (fun db =>
    (db, inr (orderBy (desc ArticleVersion.versionNumber)
                (filter (fun v => ArticleVersion.articleId v =? articleId)
                        (rows (articleVersions db)))))).

Definition getArticleVersion (id : Z) : prog (option ArticleVersion.t) :=
  await (fun db =>
    (db, inr (find (fun v => ArticleVersion.id v =? id)
                   (rows (articleVersions db))))).

Definition createArticleVersion (now : Z) (versionData : InsertArticleVersion.t)
  : prog ArticleVersion.t :=
  await (fun db =>
    if article_exists db (InsertArticleVersion.articleId versionData) then
      let (t, version) :=
        insert_row
          (fun id =>
             ArticleVersion.mk id
               (InsertArticleVersion.articleId versionData)
               (InsertArticleVersion.title versionData)
               (InsertArticleVersion.description versionData)
               (InsertArticleVersion.content versionData)
               (InsertArticleVersion.versionNumber versionData)
               (InsertArticleVersion.createdById versionData)
               now)
          (articleVersions db) in
      (set_articleVersions db t, inr version)
    else (set_articleVersions db (skip_id (articleVersions db)),
          inl ForeignKeyViolation)).

(** *** Analytics *)

(** The [select] of the daily row of an article, first match. *)
Definition find_stat (articleId today : Z) (db : DB)
  : option DailyArticleStat.t :=
  find (fun s => (DailyArticleStat.articleId s =? articleId)
                 && (DailyArticleStat.date s =? today))
       (rows (dailyArticleStats db)).

(** The [insert] of a fresh daily row. *)
Definition insert_stat (now articleId today views shares bounces avg : Z)
  : Statement unit :=
  fun db =>
    if article_exists db articleId then
      let (t, _) :=
        insert_row
          (fun id => DailyArticleStat.mk id articleId today views shares
                                         bounces avg now)
          (dailyArticleStats db) in
      (set_dailyArticleStats db t, inr tt)
    else (set_dailyArticleStats db (skip_id (dailyArticleStats db)),
          inl ForeignKeyViolation).

(** The [update ... where id = existingStat.id] of a daily row. *)
Definition update_stat (id : Z) (set : DailyArticleStat.t -> DailyArticleStat.t)
  : Statement unit :=
  fun db =>
    (set_dailyArticleStats db
       (update_rows (fun s => DailyArticleStat.id s =? id) set
                    (dailyArticleStats db)),
     inr tt).

Definition recordArticleView (clock : Clock) (viewData : InsertArticleView.t)
  : prog ArticleView.t :=
  view <- await (fun db =>
    if article_exists db (InsertArticleView.articleId viewData) then
      let (t, view) :=
        insert_row
          (fun id => ArticleView.mk id
                       (InsertArticleView.articleId viewData)
                       (InsertArticleView.userId viewData)
                       (InsertArticleView.ip viewData)
                       (InsertArticleView.userAgent viewData)
                       (InsertArticleView.referrer viewData)
                       (atInsert clock))
          (articleViews db) in
      (set_articleViews db t, inr view)
    else (set_articleViews db (skip_id (articleViews db)),
          inl ForeignKeyViolation));;
  let today := startOfDay (atToday clock) in
  existingStat <- await (fun db =>
    (db, inr (find_stat (InsertArticleView.articleId viewData) today db)));;
  match existingStat with
  | Some existingStat =>
      _ <- await (update_stat (DailyArticleStat.id existingStat) (fun s =>
             DailyArticleStat.mk
               (DailyArticleStat.id s) (DailyArticleStat.articleId s)
               (DailyArticleStat.date s)
               (DailyArticleStat.views existingStat + 1)
               (DailyArticleStat.shares s) (DailyArticleStat.bounces s)
               (DailyArticleStat.averageTimeOnPage s) (atWrite clock)));;
      Ret view
  | None =>
      _ <- await (insert_stat (atWrite clock)
                              (InsertArticleView.articleId viewData)
                              today 1 0 0 0);;
      Ret view
  end.

(** [Math.round(totalTime / newBounces)], of the exact quotient; with a
    zero divisor the quotient is not a finite number and no integer column
    accepts it.  The code computes [totalTime] and the quotient in doubles
    ([newAvgTime] below); the result is the same while [totalTime] stays
    below [2 ^ 52], and what is stated about the value of the average is
    stated for that range. *)
Definition round_div (totalTime newBounces : Z) : option Z :=
  if newBounces =? 0 then None
  else Some (JS.Math_round (inject_Z totalTime / inject_Z newBounces)).

(** [newAvgTime] as the code computes it, on a daily row with the given
    average and bounces and for the given sample: the product, the sums and
    the quotient are each rounded to a double. *)
Definition newAvgTime (averageTimeOnPage bounces timeOnPage : Z) : Z :=
  let newBounces := JS.add (inject_Z bounces) 1 in
  let totalTime :=
    JS.add (JS.mul (inject_Z averageTimeOnPage) (inject_Z bounces))
           (inject_Z timeOnPage) in
  JS.Math_round (JS.div totalTime newBounces).

Definition recordArticleBounce
           (clock : Clock) (bounceData : InsertArticleBounce.t)
  : prog ArticleBounce.t :=
  bounce <- await (fun db =>
    if article_exists db (InsertArticleBounce.articleId bounceData) then
      let (t, bounce) :=
        insert_row
          (fun id => ArticleBounce.mk id
                       (InsertArticleBounce.articleId bounceData)
                       (InsertArticleBounce.userId bounceData)
                       (InsertArticleBounce.ip bounceData)
                       (InsertArticleBounce.userAgent bounceData)
                       (InsertArticleBounce.referrer bounceData)
                       (InsertArticleBounce.timeOnPage bounceData)
                       (atInsert clock))
          (articleBounces db) in
      (set_articleBounces db t, inr bounce)
    else (set_articleBounces db (skip_id (articleBounces db)),
          inl ForeignKeyViolation));;
  let today := startOfDay (atToday clock) in
  existingStat <- await (fun db =>
    (db, inr (find_stat (InsertArticleBounce.articleId bounceData) today db)));;
  match existingStat with
  | Some existingStat =>
      let newBounces := DailyArticleStat.bounces existingStat + 1 in
      let newAvgTime :=
        if JS.truthy (InsertArticleBounce.timeOnPage bounceData) then
          let totalTime :=
            DailyArticleStat.averageTimeOnPage existingStat
            * DailyArticleStat.bounces existingStat
            + JS.or_num (InsertArticleBounce.timeOnPage bounceData) 0 in
          round_div totalTime newBounces
        else Some (DailyArticleStat.averageTimeOnPage existingStat) in
      match newAvgTime with
      | Some newAvgTime =>
          _ <- await (update_stat (DailyArticleStat.id existingStat) (fun s =>
                 DailyArticleStat.mk
                   (DailyArticleStat.id s) (DailyArticleStat.articleId s)
                   (DailyArticleStat.date s) (DailyArticleStat.views s)
                   (DailyArticleStat.shares s) newBounces newAvgTime
                   (atWrite clock)));;
          Ret bounce
      | None =>
          _ <- await (fun db => (db, @inl Error unit InvalidNumber));;
          Ret bounce
      end
  | None =>
      _ <- await (insert_stat (atWrite clock)
                    (InsertArticleBounce.articleId bounceData)
                    today 0 0 1
                    (JS.or_num (InsertArticleBounce.timeOnPage bounceData) 0));;
      Ret bounce
  end.

(** One entry of [topArticles]. *)
Record TopArticle := mkTop { top_id : Z; top_title : string; top_views : Z }.

Record Overview := mkOverview
  { totalViews : Z; totalShares : Z; totalArticles : Z;
    topArticles : list TopArticle }.

(** The fourth query of [getOverviewStats]: the view log joined with the
    articles, grouped by article (ids are the primary key), counted, the
    highest counts first, five rows at most. *)
Definition topArticlesQuery (db : DB) : list TopArticle :=
  let groups :=
    flat_map
      (fun a =>
         let n :=
           Z.of_nat
             (List.length
                (filter (fun v => ArticleView.articleId v =? Article.id a)
                        (rows (articleViews db)))) in
         if 0 <? n then [mkTop (Article.id a) (Article.title a) n] else [])
      (rows (articles db)) in
  firstn 5 (orderBy (desc top_views) groups).

Definition getOverviewStats (startDate endDate : option Z) : prog Overview :=
  let viewsQuery : option (ArticleView.t -> bool) := None in
  let viewsQuery :=
    match startDate with
    | Some d => Sql.where_ viewsQuery (fun v => d <=? ArticleView.viewedAt v)
    | None => viewsQuery
    end in
  let viewsQuery :=
    match endDate with
    | Some d => Sql.where_ viewsQuery (fun v => ArticleView.viewedAt v <=? d)
    | None => viewsQuery
    end in
  viewsResult <- await (fun db =>
    (db, inr (Z.of_nat (List.length
                (Sql.select_where viewsQuery (rows (articleViews db)))))));;
  let sharesQuery : option (SocialShare.t -> bool) := None in
  let sharesQuery :=
    match startDate with
    | Some d => Sql.where_ sharesQuery (fun s => d <=? SocialShare.sharedAt s)
    | None => sharesQuery
    end in
  let sharesQuery :=
    match endDate with
    | Some d => Sql.where_ sharesQuery (fun s => SocialShare.sharedAt s <=? d)
    | None => sharesQuery
    end in
  sharesResult <- await (fun db =>
    (db, inr (Z.of_nat (List.length
                (Sql.select_where sharesQuery (rows (socialShares db)))))));;
  articlesResult <- await (fun db =>
    (db, inr (Z.of_nat (List.length
                (filter (fun a => String.eqb (Article.status a) "published")
                        (rows (articles db)))))));;
  topArticlesResult <- await (fun db => (db, inr (topArticlesQuery db)));;
  Ret (mkOverview (JS.or_num (Some viewsResult) 0)
                  (JS.or_num (Some sharesResult) 0)
                  (JS.or_num (Some articlesResult) 0)
                  topArticlesResult).

(** *** Topics *)

Definition getTopic (id : Z) : prog (option Topic.t) :=
  await (fun db =>
    (db, inr (find (fun t => Topic.id t =? id) (rows (topics db))))).

(** *** References *)

Definition getReferences (articleId : Z) : prog (list Reference.t) :=
  await (fun db =>
    (db, inr (orderBy (asc Reference.createdAt)
                (filter (fun r => Reference.articleId r =? articleId)
                        (rows (references db)))))).

Definition createReference (now : Z) (referenceData : InsertReference.t)
  : prog Reference.t :=
  await (fun db =>
    if article_exists db (InsertReference.articleId referenceData) then
      let (t, reference) :=
        insert_row
          (fun id =>
             Reference.mk id
               (InsertReference.articleId referenceData)
               (InsertReference.title referenceData)
               (InsertReference.url referenceData)
               (InsertReference.description referenceData)
               now now)
          (references db) in
      (set_references db t, inr reference)
    else (set_references db (skip_id (references db)),
          inl ForeignKeyViolation)).

Definition or_else {A} (x : option A) (d : A) : A :=
  match x with
  | Some v => v
  | None => d
  end.

(** [update(references).set({ ...referenceData, updatedAt: new Date() })
    .where(eq(references.id, id)).returning()], first row returned.  The
    foreign key is checked for the rows that are written. *)
Definition updateReference (now : Z) (id : Z) (referenceData : ReferencePatch.t)
  : prog (option Reference.t) :=
  let set r :=
    Reference.mk (Reference.id r)
      (or_else (ReferencePatch.articleId referenceData) (Reference.articleId r))
      (or_else (ReferencePatch.title referenceData) (Reference.title r))
      (or_else (ReferencePatch.url referenceData) (Reference.url r))
      (or_else (ReferencePatch.description referenceData)
               (Reference.description r))
      (Reference.createdAt r) now in
  await (fun db =>
    let hit := existsb (fun r => Reference.id r =? id) (rows (references db)) in
    let fk_ok :=
      match ReferencePatch.articleId referenceData with
      | Some a => article_exists db a
      | None => true
      end in
    if hit && negb fk_ok then (db, inl ForeignKeyViolation)
    else
      let t := update_rows (fun r => Reference.id r =? id) set (references db) in
      (set_references db t,
       inr (find (fun r => Reference.id r =? id) (rows t)))).

(** *** Shares *)

Definition recordSocialShare (clock : Clock) (shareData : InsertSocialShare.t)
  : prog SocialShare.t :=
  share <- await (fun db =>
    if article_exists db (InsertSocialShare.articleId shareData) then
      let (t, share) :=
        insert_row
          (fun id => SocialShare.mk id
                       (InsertSocialShare.articleId shareData)
                       (InsertSocialShare.userId shareData)
                       (InsertSocialShare.platform shareData)
                       (atInsert clock))
          (socialShares db) in
      (set_socialShares db t, inr share)
    else (set_socialShares db (skip_id (socialShares db)),
          inl ForeignKeyViolation));;
  let today := startOfDay (atToday clock) in
  existingStat <- await (fun db =>
    (db, inr (find_stat (InsertSocialShare.articleId shareData) today db)));;
  match existingStat with
  | Some existingStat =>
      _ <- await (update_stat (DailyArticleStat.id existingStat) (fun s =>
             DailyArticleStat.mk
               (DailyArticleStat.id s) (DailyArticleStat.articleId s)
               (DailyArticleStat.date s) (DailyArticleStat.views s)
               (DailyArticleStat.shares existingStat + 1)
               (DailyArticleStat.bounces s)
               (DailyArticleStat.averageTimeOnPage s) (atWrite clock)));;
      Ret share
  | None =>
      _ <- await (insert_stat (atWrite clock)
                              (InsertSocialShare.articleId shareData)
                              today 0 1 0 0);;
      Ret share
  end.

End Storage.

(** ** [server/api/versions.ts] *)

Module Versions.

(** The fields of a request body the version schema looks at. *)
Record VersionBody := mkBody
  { body_title : JS.value; body_description : JS.value;
    body_content : JS.value }.

(** A request once past the [isAuthenticated]/[isAdmin] middleware:
    the two route parameters after [parseInt], the body, and [req.user?.id]. *)
Record Request := mkReq
  { articleId : Z; versionId : Z; body : VersionBody; user : option Z }.

Inductive Json :=
| Message (message : string)
| Invalid (message : string)
| VersionList (versions : list ArticleVersion.t)
| Version (version : ArticleVersion.t)
| Restored (updatedArticle : option Article.t) (restoredFromVersion : Z).

Record Response := mkRes { status : Z; json : Json }.

(** [insertArticleVersionSchema.parse({...req.body, articleId,
    versionNumber, createdById})]: [title] and [content] must be strings,
    [description] a string, [null] or absent. *)
Definition parse (b : VersionBody) (articleId versionNumber : Z)
                 (createdById : option Z) : Error + InsertArticleVersion.t :=
  match body_title b, body_content b with
  | JS.Str title, JS.Str content =>
      match body_description b with
      | JS.Str d =>
          inr (InsertArticleVersion.mk articleId title (Some d) content
                                       versionNumber createdById)
      | JS.Null | JS.Undefined =>
          inr (InsertArticleVersion.mk articleId title None content
                                       versionNumber createdById)
      | _ => inl ZodError
      end
  | _, _ => inl ZodError
  end.

(** [versions[0]?.versionNumber || 0] *)
Definition latestVersion (versions : list ArticleVersion.t) : Z :=
  JS.or_num (option_map ArticleVersion.versionNumber (hd_error versions)) 0.

(** [GET /:articleId/versions] *)
Definition get_versions (req : Request) : prog Response :=
  try_catch
    (article <- Storage.getArticle (articleId req);;
     match article with
     | None => Ret (mkRes 404 (Message "Article not found"))
     | Some _ =>
         versions <- Storage.getArticleVersions (articleId req);;
         Ret (mkRes 200 (VersionList versions))
     end)
    (fun _ => Ret (mkRes 500 (Message "Failed to fetch article versions"))).

(** [POST /:articleId/versions] *)
Definition post_versions (now : Z) (req : Request) : prog Response :=
  try_catch
    (article <- Storage.getArticle (articleId req);;
     match article with
     | None => Ret (mkRes 404 (Message "Article not found"))
     | Some _ =>
         versions <- Storage.getArticleVersions (articleId req);;
         let latestVersion := latestVersion versions in
         match parse (body req) (articleId req) (latestVersion + 1)
                     (user req) with
         | inl e => Throw e
         | inr versionData =>
             newVersion <- Storage.createArticleVersion now versionData;;
             Ret (mkRes 201 (Version newVersion))
         end
     end)
    (fun error =>
       match error with
       | ZodError => Ret (mkRes 400 (Invalid "Invalid version data"))
       | _ => Ret (mkRes 500 (Message "Failed to create article version"))
       end).

(** [GET /:articleId/versions/:versionId] *)
Definition get_version (req : Request) : prog Response :=
  try_catch
    (article <- Storage.getArticle (articleId req);;
     match article with
     | None => Ret (mkRes 404 (Message "Article not found"))
     | Some _ =>
         version <- Storage.getArticleVersion (versionId req);;
         match version with
         | None =>
             Ret (mkRes 404 (Message "Version not found for this article"))
         | Some version =>
             if negb (ArticleVersion.articleId version =? articleId req) then
               Ret (mkRes 404 (Message "Version not found for this article"))
             else Ret (mkRes 200 (Version version))
         end
     end)
    (fun _ => Ret (mkRes 500 (Message "Failed to fetch article version"))).

(** [POST /:articleId/restore/:versionId] *)
Definition post_restore (now : Z) (req : Request) : prog Response :=
  try_catch
    (article <- Storage.getArticle (articleId req);;
     match article with
     | None => Ret (mkRes 404 (Message "Article not found"))
     | Some _ =>
         version <- Storage.getArticleVersion (versionId req);;
         match version with
         | None =>
             Ret (mkRes 404 (Message "Version not found for this article"))
         | Some version =>
             if negb (ArticleVersion.articleId version =? articleId req) then
               Ret (mkRes 404 (Message "Version not found for this article"))
             else
               updatedArticle <-
                 Storage.updateArticle now (articleId req)
                   (Storage.mkPatch (ArticleVersion.title version)
                                    (ArticleVersion.description version)
                                    (ArticleVersion.content version));;
               versions <- Storage.getArticleVersions (articleId req);;
               let latestVersion := latestVersion versions in
               _ <- Storage.createArticleVersion now
                      (InsertArticleVersion.mk
                         (articleId req)
                         (ArticleVersion.title version)
                         (ArticleVersion.description version)
                         (ArticleVersion.content version)
                         (latestVersion + 1)
                         (user req));;
               Ret (mkRes 200
                      (Restored updatedArticle
                                (ArticleVersion.versionNumber version)))
         end
     end)
    (fun _ => Ret (mkRes 500 (Message "Failed to restore article version"))).

End Versions.

(** ** The analytics routes ([server/api/analytics.ts]): recording *)

Module Analytics.

(** What the recording routes read of a request: three body fields,
    [req.user?.id], [req.ip] and the two headers. *)
Record Request := mkReq
  { body_articleId : JS.value; body_timeOnPage : JS.value;
    body_platform : JS.value; user : option Z; ip : option string;
    userAgent : option string; referer : option string }.

Inductive Json :=
| Message (message : string)
| Invalid (message : string)
| View (view : ArticleView.t)
| Bounce (bounce : ArticleBounce.t)
| Share (share : SocialShare.t).

Record Response := mkRes { status : Z; json : Json }.

(** [insertArticleViewSchema.parse]: [articleId] must be a number; the
    other fields come from the request, not from the body.  A number
    outside the range of an [integer] is refused either by the schema or by
    the database, depending on the schema generator in use; here it passes
    the schema, and the statements about the routes are made for numbers
    in range. *)
Definition parse_view (req : Request) : Error + InsertArticleView.t :=
  match body_articleId req with
  | JS.Num articleId =>
      inr (InsertArticleView.mk articleId (user req) (ip req)
                                (userAgent req) (referer req))
  | _ => inl ZodError
  end.

(** [insertArticleBounceSchema.parse]: as for a view, with [timeOnPage] a
    number, [null] or absent. *)
Definition parse_bounce (req : Request) : Error + InsertArticleBounce.t :=
  match body_articleId req with
  | JS.Num articleId =>
      match body_timeOnPage req with
      | JS.Num t =>
          inr (InsertArticleBounce.mk articleId (user req) (ip req)
                                      (userAgent req) (referer req) (Some t))
      | JS.Null | JS.Undefined =>
          inr (InsertArticleBounce.mk articleId (user req) (ip req)
                                      (userAgent req) (referer req) None)
      | _ => inl ZodError
      end
  | _ => inl ZodError
  end.

(** [insertSocialShareSchema.parse]: [articleId] a number and [platform]
    a string. *)
Definition parse_share (articleId platform : JS.value) (userId : option Z)
  : Error + InsertSocialShare.t :=
  match articleId, platform with
  | JS.Num a, JS.Str p => inr (InsertSocialShare.mk a userId p)
  | _, _ => inl ZodError
  end.

Definition on_error (invalid failed : string) (error : Error)
  : prog Response :=
  match error with
  | ZodError => Ret (mkRes 400 (Invalid invalid))
  | _ => Ret (mkRes 500 (Message failed))
  end.

(** [POST /view] *)
Definition post_view (clock : Clock) (req : Request) : prog Response :=
  try_catch
    (match parse_view req with
     | inl e => Throw e
     | inr viewData =>
         view <- Storage.recordArticleView clock viewData;;
         Ret (mkRes 201 (View view))
     end)
    (on_error "Invalid view data" "Failed to record view").

(** [POST /bounce] *)
Definition post_bounce (clock : Clock) (req : Request) : prog Response :=
  try_catch
    (match parse_bounce req with
     | inl e => Throw e
     | inr bounceData =>
         bounce <- Storage.recordArticleBounce clock bounceData;;
         Ret (mkRes 201 (Bounce bounce))
     end)
    (on_error "Invalid bounce data" "Failed to record bounce").

(** [POST /share] *)
Definition post_share (clock : Clock) (req : Request) : prog Response :=
  try_catch
    (match parse_share (body_articleId req) (body_platform req) (user req) with
     | inl e => Throw e
     | inr shareData =>
         share <- Storage.recordSocialShare clock shareData;;
         Ret (mkRes 201 (Share share))
     end)
    (on_error "Invalid share data" "Failed to record share").

(** [POST /bookmark]: a share on the platform "bookmark". *)
Definition post_bookmark (clock : Clock) (req : Request) : prog Response :=
  try_catch
    (match parse_share (body_articleId req) (JS.Str "bookmark") (user req) with
     | inl e => Throw e
     | inr bookmarkData =>
         bookmark <- Storage.recordSocialShare clock bookmarkData;;
         Ret (mkRes 201 (Share bookmark))
     end)
    (on_error "Invalid bookmark data" "Failed to record bookmark").

End Analytics.

(** ** The topic routes ([server/api/topics.ts]): fetch and delete *)

Module Topics.

Inductive Json :=
| Message (message : string)
| TopicJson (topic : Topic.t).

Record Response := mkRes { status : Z; json : Json }.

(** [GET /:id] *)
Definition get_topic (id : Z) : prog Response :=
  try_catch
    (topic <- Storage.getTopic id;;
     match topic with
     | None => Ret (mkRes 404 (Message "Topic not found"))
     | Some topic => Ret (mkRes 200 (TopicJson topic))
     end)
    (fun _ => Ret (mkRes 500 (Message "Failed to fetch topic"))).

(** [DELETE /:id] *)
Definition delete_topic (id : Z) : prog Response :=
  try_catch
    (topic <- Storage.getTopic id;;
     match topic with
     | None => Ret (mkRes 404 (Message "Topic not found"))
     | Some _ =>
         _ <- Storage.deleteTopic id;;
         Ret (mkRes 200 (Message "Topic deleted successfully"))
     end)
    (fun _ => Ret (mkRes 500 (Message "Failed to delete topic"))).

End Topics.

(** ** The rate limiter ([server/middleware/rate-limiter.ts]) *)

Module RateLimiter.

Record Entry := mkEntry { count : Z; resetTime : Z }.

(** The [Map] of the limiter: keys in insertion order. *)
Definition Requests : Type := list (string * Entry).

Fixpoint get (key : string) (m : Requests) : option Entry :=
  match m with
  | [] => None
  | (k, d) :: m' => if String.eqb k key then Some d else get key m'
  end.

(** [Map.set]: an existing key keeps its place. *)
Fixpoint set (key : string) (d : Entry) (m : Requests) : Requests :=
  match m with
  | [] => [(key, d)]
  | (k, d') :: m' =>
      if String.eqb k key then (k, d) :: m' else (k, d') :: set key d m'
  end.

Record t := mk { requests : Requests; maxRequests : Z; timeWindow : Z }.

(** [new RateLimiter(maxRequests, timeWindowInSeconds)] *)
Definition new (maxRequests timeWindowInSeconds : Z) : t :=
  mk [] maxRequests (timeWindowInSeconds * 1000).

(** [cleanup()], run at the time [now]. *)
Definition cleanup (now : Z) (rl : t) : t :=
  mk (filter (fun kd => negb (resetTime (snd kd) <? now)) (requests rl))
     (maxRequests rl) (timeWindow rl).

(** What the middleware reads of a request. *)
Record Request := mkReq
  { ip : option string; remoteAddress : option string; path : string }.

Inductive Outcome :=
| Next
| TooManyRequests (retryAfter : Z).

(** [Math.ceil] *)
Definition Math_ceil (x : Q) : Z := Qceiling x.

(** [`${ip}:${req.path}`] with
    [ip = req.ip || req.socket.remoteAddress || 'unknown'] *)
Definition key_of (req : Request) : string :=
  let ip :=
    if JS.truthy_str (ip req) then Storage.or_else (ip req) "unknown"%string
    else if JS.truthy_str (remoteAddress req)
         then Storage.or_else (remoteAddress req) "unknown"%string
         else "unknown"%string in
  (ip ++ ":" ++ path req)%string.

(** One request through [middleware(customMaxRequests, customTimeWindow)],
    at the time [now]. *)
Definition middleware (customMaxRequests customTimeWindow : option Z)
                      (rl : t) (req : Request) (now : Z) : t * Outcome :=
  let maxRequests_ :=
    if JS.truthy customMaxRequests then JS.or_num customMaxRequests 0
    else maxRequests rl in
  let timeWindow_ :=
    if JS.truthy customTimeWindow then JS.or_num customTimeWindow 0 * 1000
    else timeWindow rl in
  let key := key_of req in
  let requestData :=
    match get key (requests rl) with
    | Some d => d
    | None => mkEntry 0 (now + timeWindow_)
    end in
  let requestData :=
    if resetTime requestData <? now then mkEntry 0 (now + timeWindow_)
    else requestData in
  let requestData := mkEntry (count requestData + 1) (resetTime requestData) in
  let rl' := mk (set key requestData (requests rl)) (maxRequests rl)
                (timeWindow rl) in
  if maxRequests_ <? count requestData then
    (rl', TooManyRequests
            (Math_ceil (inject_Z (resetTime requestData - now) / 1000)))
  else (rl', Next).

(** The limit and the window a middleware works with. *)
Definition limit_of (customMaxRequests : option Z) (rl : t) : Z :=
  if JS.truthy customMaxRequests then JS.or_num customMaxRequests 0
  else maxRequests rl.

Definition window_of (customTimeWindow : option Z) (rl : t) : Z :=
  if JS.truthy customTimeWindow then JS.or_num customTimeWindow 0 * 1000
  else timeWindow rl.

(** Requests through one middleware, one after the other, each with the
    time it arrives at. *)
Fixpoint serve (customMaxRequests customTimeWindow : option Z)
               (rl : t) (arrivals : list (Request * Z))
  : t * list Outcome :=
  match arrivals with
  | [] => (rl, [])
  | (req, now) :: arrivals' =>
      let (rl1, o) := middleware customMaxRequests customTimeWindow rl req now in
      let (rl2, os) := serve customMaxRequests customTimeWindow rl1 arrivals' in
      (rl2, o :: os)
  end.

End RateLimiter.

(** ** Sample data *)

Module Sample.

Definition emptyTable (A : Type) : Table A := mkTable [] 1.

Definition emptyDB : DB :=
  mkDB (emptyTable _) (emptyTable _) (emptyTable _) (emptyTable _)
       (emptyTable _) (emptyTable _) (emptyTable _) (emptyTable _).

Definition article (id : Z) (title status : string) (updatedAt : Z)
  : Article.t :=
  Article.mk id title title None "text" None None status None 0 updatedAt.

(** One article, nothing else. *)
Definition oneArticle : DB :=
  set_articles emptyDB (mkTable [article 1 "First" "published" 0] 2).

Definition view (articleId : Z) : InsertArticleView.t :=
  InsertArticleView.mk articleId None None None None.

Definition bounce (articleId : Z) (timeOnPage : option Z)
  : InsertArticleBounce.t :=
  InsertArticleBounce.mk articleId None None None None timeOnPage.

Definition viewAt (id articleId viewedAt : Z) : ArticleView.t :=
  ArticleView.mk id articleId None None None None viewedAt.

(** Two articles; the first was viewed twice early on, the second once
    later. *)
Definition viewedDB : DB :=
  set_articleViews
    (set_articles emptyDB
       (mkTable [article 1 "A" "published" 0; article 2 "B" "published" 0] 3))
    (mkTable [viewAt 1 1 10; viewAt 2 1 20; viewAt 3 2 100] 4).

Definition version (id articleId versionNumber : Z) (content : string)
  : ArticleVersion.t :=
  ArticleVersion.mk id articleId "title" None content versionNumber None 0.

(** Two articles with their first versions. *)
Definition versionedDB : DB :=
  set_articleVersions
    (set_articles emptyDB
       (mkTable [article 1 "A" "published" 0; article 2 "B" "draft" 0] 3))
    (mkTable [version 1 1 1 "one"; version 2 2 1 "other"] 3).

Definition versionBody : Versions.VersionBody :=
  Versions.mkBody (JS.Str "t") JS.Undefined (JS.Str "c").

Definition request (articleId versionId : Z) : Versions.Request :=
  Versions.mkReq articleId versionId versionBody (Some 7).

(** The three articles of the search scenario. *)
Definition searchDB : DB :=
  set_articles emptyDB
    (mkTable [article 1 "Salah Importance" "published" 100;
              article 2 "Quran Study" "draft" 200;
              article 3 "Salah History" "published" 300] 4).

Definition searchOptions (search status : string) : Storage.ArticlesOptions :=
  Storage.mkOptions None (Some status) None (Some search) None None.

(** One article whose daily row of day 0 has counted views, shares and
    bounces. *)
Definition countedDB : DB :=
  set_dailyArticleStats oneArticle
    (mkTable [DailyArticleStat.mk 1 1 0 5 2 3 40 500] 2).

(** One topic with one article, and an article without topic. *)
Definition topicDB : DB :=
  set_articles
    (set_topics emptyDB (mkTable [Topic.mk 4 "Fiqh" None "fiqh" 0 0] 5))
    (mkTable [Article.mk 1 "A" "a" None "text" (Some 4) None "published"
                         None 0 0;
              article 2 "B" "draft" 0] 3).

End Sample.

(** Bounces recorded one after the other, each call run to completion. *)
Fixpoint record_bounces (calls : list (Z * InsertArticleBounce.t)) (db : DB)
  : DB :=
  match calls with
  | [] => db
  | (now, b) :: calls' =>
      record_bounces calls' (fst (run (Storage.recordArticleBounce now b) db))
  end.

(** Views recorded one after the other, each call run to completion. *)
Fixpoint record_views (calls : list (Z * InsertArticleView.t)) (db : DB)
  : DB :=
  match calls with
  | [] => db
  | (now, v) :: calls' =>
      record_views calls' (fst (run (Storage.recordArticleView now v) db))
  end.

(** ** Notions of the design document *)

(** The versions of an article, in table order. *)
Definition versionsOf (db : DB) (articleId : Z) : list ArticleVersion.t :=
  filter (fun v => ArticleVersion.articleId v =? articleId)
         (rows (articleVersions db)).

(** The highest number of a list, if it has one. *)
Definition highest (l : list Z) : option Z :=
  match l with
  | [] => None
  | x :: l' => Some (fold_right Z.max x l')
  end.

(** "latest + 1", and 1 for an article without versions. *)
Definition nextVersionNumber (db : DB) (articleId : Z) : Z :=
  match highest (map ArticleVersion.versionNumber (versionsOf db articleId)) with
  | Some h => h + 1
  | None => 1
  end.

(** The version numbers of an article, "fetched ordered by versionNumber". *)
Definition versionNumbers (db : DB) (articleId : Z) : list Z :=
  map ArticleVersion.versionNumber
      (orderBy (asc ArticleVersion.versionNumber) (versionsOf db articleId)).

(** "A strictly increasing sequence starting at 1". *)
Definition increasing_from_1 (l : list Z) : Prop :=
  StronglySorted Z.lt l /\ (l = [] \/ hd_error l = Some 1).

(** The operations on the version history, and their effect when each one
    runs to completion before the next starts. *)
Inductive VersionOp :=
| CreateVersion (now : Z) (req : Versions.Request)
| RestoreVersion (now : Z) (req : Versions.Request).

Definition version_call (op : VersionOp) : prog Versions.Response :=
  match op with
  | CreateVersion now req => Versions.post_versions now req
  | RestoreVersion now req => Versions.post_restore now req
  end.

Definition apply_ops (ops : list VersionOp) (db : DB) : DB :=
  fold_left (fun db op => fst (run (version_call op) db)) ops db.

(** The daily rows of one article and day. *)
Definition statsFor (db : DB) (articleId today : Z) : list DailyArticleStat.t :=
  filter (fun s => (DailyArticleStat.articleId s =? articleId)
                   && (DailyArticleStat.date s =? today))
         (rows (dailyArticleStats db)).

(** Case-insensitive substring search, as the document words it. *)
Fixpoint prefix_of (p s : list ascii) : bool :=
  match p, s with
  | [], _ => true
  | _ :: _, [] => false
  | c :: p', d :: s' => Ascii.eqb c d && prefix_of p' s'
  end.

Fixpoint infix_of (p s : list ascii) : bool :=
  prefix_of p s || match s with [] => false | _ :: s' => infix_of p s' end.

Definition contains_ci (text : option string) (search : string) : bool :=
  match text with
  | None => false
  | Some t =>
      infix_of (map Sql.lower (list_ascii_of_string search))
               (map Sql.lower (list_ascii_of_string t))
  end.

(** A search string without the three characters [LIKE] reads specially. *)
Definition plainl (p : list ascii) : bool :=
  forallb (fun c => negb (Ascii.eqb c "%" || Ascii.eqb c "_" || Ascii.eqb c "\"))
          p.

Definition plain (search : string) : bool :=
  plainl (list_ascii_of_string search).

(** Text in ASCII. There a character is a byte and the letters that have a
    lower case are A-Z, which is what [Sql.like] and [Sql.lower] take
    for granted. *)
Definition ascii_only (s : string) : bool :=
  forallb (fun c => (nat_of_ascii c <? 128)%nat) (list_ascii_of_string s).

Definition ascii_text (text : option string) : bool :=
  match text with
  | Some s => ascii_only s
  | None => true
  end.

Definition ascii_article (a : Article.t) : bool :=
  ascii_only (Article.title a) && ascii_text (Article.description a)
  && ascii_only (Article.content a).

(** A search, if the options ask for one, is a search with an ASCII string
    among articles in ASCII. *)
Definition searchable (o : Storage.ArticlesOptions) (db : DB) : Prop :=
  match Storage.search o with
  | Some s =>
      ascii_only s = true
      /\ forallb ascii_article (rows (articles db)) = true
  | None => True
  end.

(** The filter of [getArticles] as a predicate on one article: every
    option that is given and truthy must hold. *)
Definition matches (o : Storage.ArticlesOptions) (a : Article.t) : bool :=
  (match Storage.topicId o with
   | Some t => if JS.truthy (Storage.topicId o)
               then Storage.eq_opt (Article.topicId a) t else true
   | None => true
   end)
  && (match Storage.status o with
      | Some s => if JS.truthy_str (Storage.status o)
                  then String.eqb (Article.status a) s else true
      | None => true
      end)
  && (match Storage.authorId o with
      | Some u => if JS.truthy (Storage.authorId o)
                  then Storage.eq_opt (Article.authorId a) u else true
      | None => true
      end)
  && (match Storage.search o with
      | Some s =>
          if JS.truthy_str (Storage.search o) then
            let pattern := ("%" ++ s ++ "%")%string in
            Sql.ilike (Some (Article.title a)) pattern
            || Sql.ilike (Article.description a) pattern
            || Sql.ilike (Some (Article.content a)) pattern
          else true
      | None => true
      end).

(** The ranking the document asks of [getOverviewStats]: as
    [Storage.topArticlesQuery], over the views inside the date range. *)
Definition in_range (startDate endDate : option Z) (t : Z) : bool :=
  match startDate with Some d => d <=? t | None => true end
  && match endDate with Some d => t <=? d | None => true end.

Definition topArticles_in_range (startDate endDate : option Z) (db : DB)
  : list Storage.TopArticle :=
  Storage.topArticlesQuery
    (set_articleViews db
       (mkTable
          (filter (fun v => in_range startDate endDate (ArticleView.viewedAt v))
                  (rows (articleViews db)))
          (nextId (articleViews db)))).


(** A body that passes the version schema. *)
Definition body_valid (b : Versions.VersionBody) : bool :=
  match Versions.parse b 0 0 None with
  | inr _ => true
  | inl _ => false
  end.

(** A call that has returned or thrown. *)
Definition settled {R} (r : Error + R) : prog R :=
  match r with
  | inl e => Throw e
  | inr x => Ret x
  end.

(** ** The engagement log and its daily aggregate *)

Inductive Event :=
| ViewEvent (clock : Clock) (viewData : InsertArticleView.t)
| BounceEvent (clock : Clock) (bounceData : InsertArticleBounce.t)
| ShareEvent (clock : Clock) (shareData : InsertSocialShare.t).

(** The database after one recording call has run to completion. *)
Definition record_event (db : DB) (e : Event) : DB :=
  match e with
  | ViewEvent clock viewData =>
      fst (run (Storage.recordArticleView clock viewData) db)
  | BounceEvent clock bounceData =>
      fst (run (Storage.recordArticleBounce clock bounceData) db)
  | ShareEvent clock shareData =>
      fst (run (Storage.recordSocialShare clock shareData) db)
  end.

Definition record_events (es : list Event) (db : DB) : DB :=
  fold_left record_event es db.

(** The views, shares and bounces of an article that the three logs hold
    for one day. *)
Definition logged (db : DB) (articleId day : Z) : Z * Z * Z :=
  (Z.of_nat
     (List.length
        (filter (fun v => (ArticleView.articleId v =? articleId)
                          && (Storage.startOfDay (ArticleView.viewedAt v) =? day))
                (rows (articleViews db)))),
   Z.of_nat
     (List.length
        (filter (fun s => (SocialShare.articleId s =? articleId)
                          && (Storage.startOfDay (SocialShare.sharedAt s) =? day))
                (rows (socialShares db)))),
   Z.of_nat
     (List.length
        (filter (fun b => (ArticleBounce.articleId b =? articleId)
                          && (Storage.startOfDay (ArticleBounce.bouncedAt b) =? day))
                (rows (articleBounces db))))).

(** The views, shares and bounces a daily row says. *)
Definition counters (s : DailyArticleStat.t) : Z * Z * Z :=
  (DailyArticleStat.views s, DailyArticleStat.shares s,
   DailyArticleStat.bounces s).

(** The daily rows agree with the logs: an article-day has at most one
    row; its counters are the numbers of logged events, and without a row
    nothing is logged.  The rows carry distinct ids below the next serial
    id. *)
Definition aggregate_consistent (db : DB) : Prop :=
  NoDup (map DailyArticleStat.id (rows (dailyArticleStats db)))
  /\ (forall s, In s (rows (dailyArticleStats db)) ->
                DailyArticleStat.id s < nextId (dailyArticleStats db))
  /\ forall a d,
       match statsFor db a d with
       | [] => logged db a d = (0, 0, 0)
       | [s] => counters s = logged db a d
       | _ :: _ :: _ => False
       end.

Definition add3 (x y : Z * Z * Z) : Z * Z * Z :=
  (fst (fst x) + fst (fst y), snd (fst x) + snd (fst y), snd x + snd y).

(** One event of the kind [u] (a view is [(1, 0, 0)], a share [(0, 1, 0)],
    a bounce [(0, 0, 1)]) of the article [a0] on the day [d0] has been
    logged and counted between [db] and [db']. *)
Definition recorded (u : Z * Z * Z) (a0 d0 : Z) (db db' : DB) : Prop :=
  (forall a d,
     logged db' a d
     = add3 (logged db a d)
            (if (a =? a0) && (d =? d0) then u else (0, 0, 0)))
  /\ match Storage.find_stat a0 d0 db with
     | None =>
         exists r,
           rows (dailyArticleStats db') = rows (dailyArticleStats db) ++ [r]
           /\ nextId (dailyArticleStats db') = nextId (dailyArticleStats db) + 1
           /\ DailyArticleStat.id r = nextId (dailyArticleStats db)
           /\ DailyArticleStat.articleId r = a0
           /\ DailyArticleStat.date r = d0
           /\ counters r = u
     | Some s0 =>
         nextId (dailyArticleStats db') = nextId (dailyArticleStats db)
         /\ exists upd,
              rows (dailyArticleStats db')
              = map (fun r => if DailyArticleStat.id r =? DailyArticleStat.id s0
                              then upd r else r)
                    (rows (dailyArticleStats db))
              /\ (forall r,
                    DailyArticleStat.id (upd r) = DailyArticleStat.id r
                    /\ DailyArticleStat.articleId (upd r)
                       = DailyArticleStat.articleId r
                    /\ DailyArticleStat.date (upd r) = DailyArticleStat.date r)
              /\ counters (upd s0) = add3 (counters s0) u
     end.

Definition clock_of (e : Event) : Clock :=
  match e with
  | ViewEvent clock _ | BounceEvent clock _ | ShareEvent clock _ => clock
  end.

(** The database stamps the log row on the day the server takes for
    [today]. *)
Definition one_day (clock : Clock) : Prop :=
  Storage.startOfDay (atInsert clock) = Storage.startOfDay (atToday clock).

(** The sample of a bounce, if the event is one and carries one, is in the
    range of an [integer]. *)
Definition sample_in_range (e : Event) : Prop :=
  match e with
  | BounceEvent _ b =>
      forall n, InsertArticleBounce.timeOnPage b = Some n -> int4 n
  | _ => True
  end.

(** Room for [n] more events in the range of an [integer]: the serial ids
    of the logs and of the daily rows can be drawn [n] more times, and each
    log can take [n] more rows before its count leaves the range. *)
Definition room (n : Z) (db : DB) : Prop :=
  nextId (articleViews db) + n <= 2147483648
  /\ nextId (articleBounces db) + n <= 2147483648
  /\ nextId (socialShares db) + n <= 2147483648
  /\ nextId (dailyArticleStats db) + n <= 2147483648
  /\ Z.of_nat (List.length (rows (articleViews db))) + n <= 2147483647
  /\ Z.of_nat (List.length (rows (articleBounces db))) + n <= 2147483647
  /\ Z.of_nat (List.length (rows (socialShares db))) + n <= 2147483647.

(** Version numbers without gaps: 1, 2, ..., n. *)
Definition consecutive (l : list Z) : Prop :=
  l = map Z.of_nat (seq 1 (List.length l)).

(** * Properties *)

(** ** Lists and tables *)

Lemma find_map_update {A} (p q : A -> bool) (f : A -> A) (l : list A) (s : A) :
  (forall r, p (f r) = p r) ->
  find p l = Some s -> q s = true ->
  find p (map (fun r => if q r then f r else r) l) = Some (f s).
Proof.
  intros Hp. induction l as [|a l IH]; simpl; intros Hf Hq; [discriminate|].
  destruct (p a) eqn:Ea.
  - injection Hf as ->. rewrite Hq, Hp, Ea. reflexivity.
  - assert (p (if q a then f a else a) = false) as ->
      by (destruct (q a); rewrite ?Hp; exact Ea).
    auto.
Qed.

Lemma find_snoc {A} (p : A -> bool) (l : list A) (x : A) :
  find p l = None -> find p (l ++ [x]) = if p x then Some x else None.
Proof.
  induction l as [|a l IH]; simpl; intros H; [reflexivity|].
  destruct (p a); [discriminate|auto].
Qed.

Lemma run_await {A R} (q : Statement A) (k : A -> prog R) (db : DB) :
  run (x <- await q ;; k x) db =
  match q db with
  | (db', inr a) => run (k a) db'
  | (db', inl e) => (db', inl e)
  end.
Proof. simpl. destruct (q db) as [db' [e|a]]; reflexivity. Qed.

Lemma run_bind {R S} (p : prog R) (f : R -> prog S) (db : DB) :
  run (bind p f) db =
  match run p db with
  | (db', inr r) => run (f r) db'
  | (db', inl e) => (db', inl e)
  end.
Proof.
  revert db. induction p as [r|e|A q k IH]; intros db; simpl; try reflexivity.
  destruct (q db) as [db' r]. apply IH.
Qed.

Lemma run_try_catch {R} (p : prog R) (h : Error -> prog R) (db : DB) :
  run (try_catch p h) db =
  match run p db with
  | (db', inr r) => (db', inr r)
  | (db', inl e) => run (h e) db'
  end.
Proof.
  revert db. induction p as [r|e|A q k IH]; intros db; simpl; try reflexivity.
  destruct (q db) as [db' r]. apply IH.
Qed.

(** ** Doubles *)

Unset Implicit Arguments.









Lemma pow2_mono (n m : Z) : n <= m -> (2 ^ n <= 2 ^ m)%Q.
Proof. intros H. apply Qpower_le_compat_l; [exact H|]. discriminate. Qed.

Lemma exponent_unique (x : Q) (e e' : Z) :
  (2 ^ e <= x)%Q -> (x < 2 ^ (e + 1))%Q ->
  (2 ^ e' <= x)%Q -> (x < 2 ^ (e' + 1))%Q -> e = e'.
Proof.
  intros H1 H2 H3 H4.
  assert (2 ^ e < 2 ^ (e' + 1))%Q as A by lra.
  assert (2 ^ e' < 2 ^ (e + 1))%Q as B by lra.
  apply Qpower_lt_compat_l_inv in A; [|reflexivity].
  apply Qpower_lt_compat_l_inv in B; [|reflexivity].
  lia.
Qed.












(** Beyond that range the doubles of the code round: here the product is
    above [2 ^ 53], and the code stores an average one below the exact
    quotient rounded. *)
Lemma newAvgTime_rounds_large_totals :
  Storage.newAvgTime 1543570516 8073297 1902832277 = 1543570560
  /\ JS.Math_round (inject_Z (1543570516 * 8073297 + 1902832277)
                    / inject_Z (8073297 + 1)) = 1543570561.
Proof. split; vm_compute; reflexivity. Qed.

Set Implicit Arguments.

(** ** The daily aggregate *)

Lemma find_stat_inserted (db : DB) (a today : Z) (r : DailyArticleStat.t)
      (n : Z) :
  Storage.find_stat a today db = None ->
  DailyArticleStat.articleId r = a -> DailyArticleStat.date r = today ->
  Storage.find_stat a today
    (set_dailyArticleStats db
       (mkTable (rows (dailyArticleStats db) ++ [r]) n)) = Some r.
Proof.
  unfold Storage.find_stat. intros H Ha Hd. simpl.
  rewrite find_snoc by exact H. rewrite Ha, Hd, !Z.eqb_refl. reflexivity.
Qed.

(** C9, as the code has it. [recordArticleView], for an article that
    exists and while the serial ids and the counter stay in the range of an
    [integer]: when the article has no daily row for today, one is inserted
    with views 1 and shares, bounces and average time 0; when it has one
    (and no second one), that row gets its views raised by one and a new
    [updatedAt], its other columns are kept, and rows with another id are
    left alone. *)
Theorem recordArticleView_daily_row
        (clock : Clock) (viewData : InsertArticleView.t) (db : DB) :
  let a := InsertArticleView.articleId viewData in
  let today := Storage.startOfDay (atToday clock) in
  article_exists db a = true ->
  int4 (nextId (articleViews db)) ->
  match Storage.find_stat a today db with
  | None => int4 (nextId (dailyArticleStats db))
  | Some s => statsFor db a today = [s] /\ int4 (DailyArticleStat.views s + 1)
  end ->
  exists db' view,
    run (Storage.recordArticleView clock viewData) db = (db', inr view)
    /\ match Storage.find_stat a today db with
       | None =>
           let row :=
             DailyArticleStat.mk (nextId (dailyArticleStats db)) a today
                                 1 0 0 0 (atWrite clock) in
           rows (dailyArticleStats db') = rows (dailyArticleStats db) ++ [row]
           /\ Storage.find_stat a today db' = Some row
       | Some s =>
           rows (dailyArticleStats db') =
             map (fun r =>
                    if DailyArticleStat.id r =? DailyArticleStat.id s then
                      DailyArticleStat.mk
                        (DailyArticleStat.id r) (DailyArticleStat.articleId r)
                        (DailyArticleStat.date r)
                        (DailyArticleStat.views s + 1)
                        (DailyArticleStat.shares r)
                        (DailyArticleStat.bounces r)
                        (DailyArticleStat.averageTimeOnPage r)
                        (atWrite clock)
                    else r)
                 (rows (dailyArticleStats db))
           /\ Storage.find_stat a today db' =
                Some (DailyArticleStat.mk
                        (DailyArticleStat.id s) (DailyArticleStat.articleId s)
                        (DailyArticleStat.date s)
                        (DailyArticleStat.views s + 1)
                        (DailyArticleStat.shares s)
                        (DailyArticleStat.bounces s)
                        (DailyArticleStat.averageTimeOnPage s)
                        (atWrite clock))
       end.
Proof.
  intros a today Hex _ _.
  unfold Storage.recordArticleView. rewrite run_await.
  fold a. rewrite Hex. cbn [insert_row]. fold today.
  rewrite run_await.
  change (Storage.find_stat a today (set_articleViews db _))
    with (Storage.find_stat a today db).
  destruct (Storage.find_stat a today db) as [s|] eqn:Hs.
  - rewrite run_await. cbn [Storage.update_stat run].
    eexists _, _. split; [reflexivity|]. split; [reflexivity|].
    unfold Storage.find_stat in *. cbn.
    apply (find_map_update _ (fun r => DailyArticleStat.id r =? DailyArticleStat.id s)
             (fun r => DailyArticleStat.mk _ _ _ _ _ _ _ _) _ (s := s)).
    + reflexivity.
    + exact Hs.
    + apply Z.eqb_refl.
  - rewrite run_await. unfold Storage.insert_stat.
    change (article_exists (set_articleViews db _) a) with (article_exists db a).
    rewrite Hex. cbn [insert_row run].
    eexists _, _. split; [reflexivity|]. split; [reflexivity|].
    apply (find_stat_inserted (set_articleViews db _)); [exact Hs| reflexivity ..].
Qed.

Lemma recordArticleView_daily_row_witness :
  (exists db',
     fst (run (Storage.recordArticleView 90000000 (Sample.view 1))
              Sample.oneArticle) = db'
     /\ Storage.find_stat 1 86400000 db' =
          Some (DailyArticleStat.mk 1 1 86400000 1 0 0 0 90000000))
  /\ (exists db',
        fst (run (Storage.recordArticleView (mkClock 1000 2000 3000)
                    (Sample.view 1)) Sample.countedDB) = db'
        /\ rows (dailyArticleStats db') =
             [DailyArticleStat.mk 1 1 0 6 2 3 40 3000]).
Proof.
  split.
  - destruct (recordArticleView_daily_row 90000000 (Sample.view 1)
                Sample.oneArticle eq_refl)
      as (db' & view & Hrun & Hrow).
    + unfold int4. simpl. lia.
    + unfold int4. simpl. lia.
    + exists db'. rewrite Hrun. split; [reflexivity|]. exact (proj2 Hrow).
  - destruct (recordArticleView_daily_row (mkClock 1000 2000 3000)
                (Sample.view 1) Sample.countedDB eq_refl)
      as (db' & view & Hrun & Hrow).
    + unfold int4. simpl. lia.
    + simpl. split; [reflexivity|]. unfold int4. simpl. lia.
    + exists db'. rewrite Hrun. split; [reflexivity|]. exact (proj1 Hrow).
Defined.

(** C9, a call for an article that does not exist. The insert of the view
    is refused, the call throws, and no daily row is inserted: the article
    had no daily row for today and has none afterwards. *)
Lemma recordArticleView_unknown_article :
  Storage.find_stat 9 0 Sample.oneArticle = None
  /\ exists db',
       run (Storage.recordArticleView 1000 (Sample.view 9)) Sample.oneArticle
       = (db', inl ForeignKeyViolation)
       /\ rows (dailyArticleStats db') = []
       /\ rows (articleViews db') = []
       /\ Storage.find_stat 9 0 db' = None.
Proof.
  split; [reflexivity|]. eexists. split; [reflexivity|].
  repeat split.
Qed.

(** With a non-zero divisor the rounded quotient is a number. *)
Lemma round_div_defined (totalTime newBounces : Z) :
  newBounces <> 0 ->
  Storage.round_div totalTime newBounces =
    Some (JS.Math_round (inject_Z totalTime / inject_Z newBounces)).
Proof.
  intros H. unfold Storage.round_div.
  destruct (Z.eqb_spec newBounces 0); [contradiction|reflexivity].
Qed.




(** ** Views recorded one after the other, and views that race *)

Lemma find_hd_filter {A} (p : A -> bool) (l : list A) :
  find p l = hd_error (filter p l).
Proof.
  induction l as [|a l IH]; simpl; [reflexivity|].
  destruct (p a); [reflexivity|exact IH].
Qed.

Lemma filter_map_stable {A} (p : A -> bool) (f : A -> A) (l : list A) :
  (forall r, p (f r) = p r) ->
  filter p (map f l) = map f (filter p l).
Proof.
  intros Hp. induction l as [|a l IH]; simpl; [reflexivity|].
  rewrite Hp. destruct (p a); simpl; congruence.
Qed.

Lemma find_stat_statsFor (db : DB) (a today : Z) :
  Storage.find_stat a today db = hd_error (statsFor db a today).
Proof. apply find_hd_filter. Qed.

(** What one completed [recordArticleView] leaves behind. *)
Lemma recordArticleView_run
      (clock : Clock) (viewData : InsertArticleView.t) (db : DB) :
  let a := InsertArticleView.articleId viewData in
  let today := Storage.startOfDay (atToday clock) in
  article_exists db a = true ->
  exists db' view,
    run (Storage.recordArticleView clock viewData) db = (db', inr view)
    /\ articles db' = articles db
    /\ rows (dailyArticleStats db') =
         match Storage.find_stat a today db with
         | None =>
             rows (dailyArticleStats db)
             ++ [DailyArticleStat.mk (nextId (dailyArticleStats db)) a today
                                     1 0 0 0 (atWrite clock)]
         | Some s =>
             map (fun r =>
                    if DailyArticleStat.id r =? DailyArticleStat.id s then
                      DailyArticleStat.mk
                        (DailyArticleStat.id r) (DailyArticleStat.articleId r)
                        (DailyArticleStat.date r)
                        (DailyArticleStat.views s + 1)
                        (DailyArticleStat.shares r)
                        (DailyArticleStat.bounces r)
                        (DailyArticleStat.averageTimeOnPage r)
                        (atWrite clock)
                    else r)
                 (rows (dailyArticleStats db))
         end.
Proof.
  intros a today Hex.
  unfold Storage.recordArticleView. rewrite run_await.
  fold a. rewrite Hex. cbn [insert_row]. fold today.
  rewrite run_await.
  change (Storage.find_stat a today (set_articleViews db _))
    with (Storage.find_stat a today db).
  destruct (Storage.find_stat a today db) as [s|] eqn:Hs.
  - rewrite run_await. cbn [Storage.update_stat run].
    eexists _, _. repeat split.
  - rewrite run_await. unfold Storage.insert_stat.
    change (article_exists (set_articleViews db _) a) with (article_exists db a).
    rewrite Hex. cbn [insert_row run].
    eexists _, _. repeat split.
Qed.

Lemma article_exists_articles (db db' : DB) (a : Z) :
  articles db' = articles db -> article_exists db' a = article_exists db a.
Proof. unfold article_exists. intros ->. reflexivity. Qed.

Lemma view_on_fresh_day (now : Z) (v : InsertArticleView.t) (db : DB) :
  let a := InsertArticleView.articleId v in
  let today := Storage.startOfDay now in
  let db' := fst (run (Storage.recordArticleView now v) db) in
  article_exists db a = true ->
  statsFor db a today = [] ->
  article_exists db' a = true
  /\ exists s, statsFor db' a today = [s] /\ DailyArticleStat.views s = 1.
Proof.
  intros a today db' Hex Hnone.
  destruct (recordArticleView_run now v db Hex) as (d & view & Hrun & Hart & Hrows).
  subst db'. rewrite Hrun. cbn [fst].
  cbn [instant atToday atWrite] in Hrows. fold a today in Hrows.
  rewrite find_stat_statsFor, Hnone in Hrows. cbn [hd_error] in Hrows.
  split; [rewrite (@article_exists_articles db d a Hart); exact Hex|].
  unfold statsFor in *. rewrite Hrows, filter_app, Hnone. cbn.
  rewrite !Z.eqb_refl. cbn. eauto.
Qed.

Lemma view_on_counted_day (now : Z) (v : InsertArticleView.t) (db : DB)
      (s : DailyArticleStat.t) :
  let a := InsertArticleView.articleId v in
  let today := Storage.startOfDay now in
  let db' := fst (run (Storage.recordArticleView now v) db) in
  article_exists db a = true ->
  statsFor db a today = [s] ->
  article_exists db' a = true
  /\ exists s', statsFor db' a today = [s']
                /\ DailyArticleStat.views s' = DailyArticleStat.views s + 1.
Proof.
  intros a today db' Hex Hone.
  destruct (recordArticleView_run now v db Hex) as (d & view & Hrun & Hart & Hrows).
  subst db'. rewrite Hrun. cbn [fst].
  cbn [instant atToday atWrite] in Hrows. fold a today in Hrows.
  rewrite find_stat_statsFor, Hone in Hrows. cbn [hd_error] in Hrows.
  split; [rewrite (@article_exists_articles db d a Hart); exact Hex|].
  unfold statsFor in *. rewrite Hrows.
  rewrite filter_map_stable.
  - rewrite Hone. cbn. rewrite Z.eqb_refl. eauto.
  - intros r. destruct (DailyArticleStat.id r =? DailyArticleStat.id s); reflexivity.
Qed.

Lemma views_accumulate (a today : Z) (calls : list (Z * InsertArticleView.t)) :
  (forall c, In c calls ->
             InsertArticleView.articleId (snd c) = a
             /\ Storage.startOfDay (fst c) = today) ->
  forall (db : DB) (s : DailyArticleStat.t),
    article_exists db a = true ->
    statsFor db a today = [s] ->
    exists s', statsFor (record_views calls db) a today = [s']
               /\ DailyArticleStat.views s'
                  = DailyArticleStat.views s + Z.of_nat (List.length calls).
Proof.
  induction calls as [|[now v] calls IH]; intros Hall db s Hex Hone.
  - exists s. split; [exact Hone|]. simpl. lia.
  - destruct (Hall (now, v) (or_introl eq_refl)) as [Ha Hd]. cbn in Ha, Hd.
    subst a today.
    destruct (view_on_counted_day now v db Hex Hone) as (Hex' & s1 & Hs1 & Hv1).
    destruct (IH (fun c Hc => Hall c (or_intror Hc)) _ s1 Hex' Hs1)
      as (s' & Hs' & Hv').
    exists s'. split; [exact Hs'|].
    rewrite Hv', Hv1. cbn [List.length]. lia.
Qed.

(** C6, for calls that do not overlap. Any number of [recordArticleView]
    calls for one existing article on one day, each completing before the
    next starts, beginning with the day's first view: the article has
    exactly one daily row for that day, and its views is the number of
    calls. *)
Theorem sequential_views_counted
        (a today : Z) (calls : list (Z * InsertArticleView.t)) (db : DB) :
  article_exists db a = true ->
  statsFor db a today = [] ->
  calls <> [] ->
  (forall c, In c calls ->
             InsertArticleView.articleId (snd c) = a
             /\ Storage.startOfDay (fst c) = today) ->
  exists s, statsFor (record_views calls db) a today = [s]
            /\ DailyArticleStat.views s = Z.of_nat (List.length calls).
Proof.
  intros Hex Hnone Hne Hall.
  destruct calls as [|[now v] calls]; [contradiction|].
  destruct (Hall (now, v) (or_introl eq_refl)) as [Ha Hd]. cbn in Ha, Hd.
  subst a today.
  destruct (view_on_fresh_day now v db Hex Hnone) as (Hex' & s1 & Hs1 & Hv1).
  destruct (views_accumulate calls (fun c Hc => Hall c (or_intror Hc))
              _ Hex' Hs1) as (s' & Hs' & Hv').
  exists s'. split; [exact Hs'|].
  rewrite Hv', Hv1. cbn [List.length]. lia.
Qed.

Lemma sequential_views_counted_witness :
  exists s,
    statsFor (record_views (repeat (1000, Sample.view 1) 100)
                           Sample.oneArticle) 1 0 = [s]
    /\ DailyArticleStat.views s = 100.
Proof.
  apply (@sequential_views_counted 1 0 (repeat (1000, Sample.view 1) 100)
           Sample.oneArticle).
  - reflexivity.
  - reflexivity.
  - discriminate.
  - intros c Hc. apply repeat_spec in Hc. subst c. split; reflexivity.
Defined.

(** C6, calls that overlap. Three [recordArticleView] calls for one
    article are in flight; the first completes, the other two then read the
    daily row before either writes it. All three calls return, the view
    log has three rows, and the daily row says 2. *)
Lemma concurrent_views_lose_an_update :
  let call := Storage.recordArticleView 1000 (Sample.view 1) in
  let end_ :=
    run_schedule [0; 0; 0; 1; 2; 1; 2; 1; 2]%nat [call; call; call]
                 Sample.oneArticle in
  forallb (@finished _) (snd end_) = true
  /\ List.length (rows (articleViews (fst end_))) = 3%nat
  /\ map DailyArticleStat.views (statsFor (fst end_) 1 0) = [2]
  /\ ~ (exists s, In s (rows (dailyArticleStats (fst end_)))
                  /\ DailyArticleStat.views s = 3).
Proof.
  split; [vm_compute; reflexivity|].
  split; [vm_compute; reflexivity|].
  split; [vm_compute; reflexivity|].
  intros (s & Hin & Hv). vm_compute in Hin.
  destruct Hin as [<-|[]]. discriminate Hv.
Qed.

Lemma run_step {R} (p : prog R) (db : DB) :
  run p db = run (snd (step p db)) (fst (step p db)).
Proof.
  destruct p as [r|e|A q k]; simpl; try reflexivity.
  destruct (q db) as [db' r]. reflexivity.
Qed.

(** Running a call to completion is one of its schedules: the one where
    no other call takes a step in between. *)
Lemma run_schedule_alone {R} (p : prog R) (db : DB) :
  exists n,
    run_schedule (repeat 0%nat n) [p] db
    = (fst (run p db), [settled (snd (run p db))]).
Proof.
  revert db. induction p as [r|e|A q k IH]; intros db.
  - exists 0%nat. reflexivity.
  - exists 0%nat. reflexivity.
  - destruct (q db) as [db' r] eqn:Eq.
    destruct (IH r db') as [n Hn].
    exists (S n). simpl. rewrite Eq. exact Hn.
Qed.

(** ** Overview statistics *)

Lemma getOverviewStats_topArticles (startDate endDate : option Z) (db : DB) :
  exists o,
    run (Storage.getOverviewStats startDate endDate) db = (db, inr o)
    /\ Storage.topArticles o = Storage.topArticlesQuery db.
Proof.
  unfold Storage.getOverviewStats. rewrite !run_await. simpl.
  eexists. split; reflexivity.
Qed.

(** C2. With the range [50, 150], article 1 viewed at 10 and 20 and
    article 2 viewed at 100: [getOverviewStats] ranks article 1 first with
    2 views, counting the whole view log, where the ranking over the views
    inside the range has article 2 alone, with 1 view. *)
Theorem getOverviewStats_topArticles_whole_log :
  exists o,
    run (Storage.getOverviewStats (Some 50) (Some 150)) Sample.viewedDB
      = (Sample.viewedDB, inr o)
    /\ Storage.topArticles o
       = [Storage.mkTop 1 "A" 2; Storage.mkTop 2 "B" 1]
    /\ topArticles_in_range (Some 50) (Some 150) Sample.viewedDB
       = [Storage.mkTop 2 "B" 1].
Proof.
  eexists. split; [vm_compute; reflexivity|].
  split; vm_compute; reflexivity.
Qed.

(** ** Deletions *)

Lemma filter_none {A} (p : A -> bool) (l : list A) :
  existsb p l = false -> filter (fun r => negb (p r)) l = l.
Proof.
  induction l as [|a l IH]; simpl; [reflexivity|].
  destruct (p a); simpl; [discriminate|]. intros H. rewrite IH by exact H.
  reflexivity.
Qed.

(** C10. [deleteArticle], [deleteTopic] and [deleteReference] return
    [true] for every id; for an id without a row they leave the database as
    it is and still return [true]. *)
Theorem delete_returns_true (id : Z) (db : DB) :
  (snd (run (Storage.deleteArticle id) db) = inr true
   /\ snd (run (Storage.deleteTopic id) db) = inr true
   /\ snd (run (Storage.deleteReference id) db) = inr true)
  /\ (existsb (fun a => Article.id a =? id) (rows (articles db)) = false ->
      run (Storage.deleteArticle id) db = (db, inr true))
  /\ (existsb (fun t => Topic.id t =? id) (rows (topics db)) = false ->
      run (Storage.deleteTopic id) db = (db, inr true))
  /\ (existsb (fun r => Reference.id r =? id) (rows (references db)) = false ->
      run (Storage.deleteReference id) db = (db, inr true)).
Proof.
  split; [|split; [|split]].
  - unfold Storage.deleteArticle, Storage.deleteTopic, Storage.deleteReference.
    rewrite !run_await.
    destruct (article_exists db id), (existsb _ (rows (topics db)));
      repeat split.
  - intros H. unfold Storage.deleteArticle. rewrite run_await.
    unfold article_exists. rewrite H. reflexivity.
  - intros H. unfold Storage.deleteTopic. rewrite run_await.
    rewrite H. reflexivity.
  - intros H. unfold Storage.deleteReference. rewrite run_await.
    unfold delete_rows. rewrite filter_none by exact H.
    destruct db as [? ? [rs n] ? ? ? ? ?]. reflexivity.
Qed.

Lemma delete_returns_true_witness :
  run (Storage.deleteArticle 5) Sample.oneArticle = (Sample.oneArticle, inr true)
  /\ run (Storage.deleteTopic 5) Sample.oneArticle = (Sample.oneArticle, inr true)
  /\ run (Storage.deleteReference 5) Sample.oneArticle
     = (Sample.oneArticle, inr true).
Proof.
  destruct (delete_returns_true 5 Sample.oneArticle) as (_ & Ha & Ht & Hr).
  split; [apply Ha; reflexivity|].
  split; [apply Ht; reflexivity|apply Hr; reflexivity].
Defined.

(** ** [ORDER BY] *)

Section OrderBy.

Variable A : Type.
Variable le : A -> A -> bool.
Hypothesis le_total : forall x y, le x y = false -> le y x = true.
Hypothesis le_trans : forall x y z, le x y = true -> le y z = true -> le x z = true.

Let R (x y : A) : Prop := le x y = true.

Lemma insert_by_perm (x : A) (l : list A) :
  Permutation (insert_by le x l) (x :: l).
Proof.
  induction l as [|y l IH]; simpl; [apply Permutation_refl|].
  destruct (le x y); [apply Permutation_refl|].
  eapply perm_trans; [apply perm_skip, IH|apply perm_swap].
Qed.

Lemma orderBy_perm (l : list A) : Permutation (orderBy le l) l.
Proof.
  induction l as [|x l IH]; simpl; [constructor|].
  eapply perm_trans; [apply insert_by_perm|apply perm_skip, IH].
Qed.

Lemma insert_by_sorted (x : A) (l : list A) :
  StronglySorted R l -> StronglySorted R (insert_by le x l).
Proof.
  induction l as [|y l IH]; simpl; intros Hs.
  - constructor; constructor.
  - inversion Hs as [|? ? Hl Hy]; subst.
    destruct (le x y) eqn:Exy.
    + constructor; [exact Hs|]. constructor; [exact Exy|].
      eapply Forall_impl; [|exact Hy]. intros z Hz. exact (le_trans Exy Hz).
    + constructor; [apply IH; exact Hl|].
      eapply Permutation_Forall; [apply Permutation_sym, insert_by_perm|].
      constructor; [apply le_total; exact Exy|exact Hy].
Qed.

Lemma orderBy_sorted (l : list A) : StronglySorted R (orderBy le l).
Proof.
  induction l as [|x l IH]; simpl; [constructor|].
  apply insert_by_sorted, IH.
Qed.

Lemma insert_by_snoc (x v : A) (m : list A) :
  le x v = true -> insert_by le x (m ++ [v]) = insert_by le x m ++ [v].
Proof.
  intros Hxv. induction m as [|y m IH]; simpl.
  - rewrite Hxv. reflexivity.
  - destruct (le x y); [reflexivity|]. rewrite IH. reflexivity.
Qed.

Lemma orderBy_snoc (l : list A) (v : A) :
  (forall x, In x l -> le x v = true) ->
  orderBy le (l ++ [v]) = orderBy le l ++ [v].
Proof.
  induction l as [|x l IH]; simpl; intros Hall; [reflexivity|].
  rewrite IH by (intros y Hy; apply Hall; right; exact Hy).
  apply insert_by_snoc. apply Hall. left. reflexivity.
Qed.

End OrderBy.

Lemma StronglySorted_weaken {A} (R S : A -> A -> Prop) (l : list A) :
  (forall x y, R x y -> S x y) -> StronglySorted R l -> StronglySorted S l.
Proof.
  intros HRS. induction 1 as [|a l Hl IH Ha]; constructor; [exact IH|].
  eapply Forall_impl; [|exact Ha]. intros y. apply HRS.
Qed.

Lemma orderBy_desc_sorted {A} (key : A -> Z) (l : list A) :
  StronglySorted (fun x y => key y <= key x) (orderBy (desc key) l).
Proof.
  apply StronglySorted_weaken with (R := fun x y => desc key x y = true).
  - unfold desc. intros x y H. lia.
  - apply orderBy_sorted; unfold desc; intros; lia.
Qed.

(** The first row of a descending order has the highest key. *)
Lemma orderBy_desc_head {A} (key : A -> Z) (l : list A) :
  match orderBy (desc key) l with
  | [] => l = []
  | v :: _ => In v l /\ forall x, In x l -> key x <= key v
  end.
Proof.
  pose proof (orderBy_perm (desc key) l) as Hp.
  pose proof (orderBy_desc_sorted key l) as Hs.
  destruct (orderBy (desc key) l) as [|v rest].
  - apply Permutation_nil. exact Hp.
  - split.
    + eapply Permutation_in; [exact Hp|left; reflexivity].
    + intros x Hx. apply Permutation_sym in Hp.
      apply (Permutation_in _ Hp) in Hx. destruct Hx as [<-|Hx]; [lia|].
      apply StronglySorted_inv in Hs. destruct Hs as [_ Hf].
      rewrite Forall_forall in Hf. apply Hf. exact Hx.
Qed.

(** ** Version numbers *)

Lemma highest_spec (l : list Z) :
  match highest l with
  | None => l = []
  | Some h => In h l /\ forall x, In x l -> x <= h
  end.
Proof.
  destruct l as [|x l]; simpl; [reflexivity|].
  induction l as [|y l IH]; simpl.
  - split; [left; reflexivity|]. intros z [<-|[]]. lia.
  - destruct IH as [Hin Hmax]. split.
    + destruct (Z.max_spec y (fold_right Z.max x l)) as [[_ ->]|[_ ->]].
      * destruct Hin as [Hin|Hin]; [left; exact Hin|right; right; exact Hin].
      * right. left. reflexivity.
    + intros z Hz.
      assert (z = y \/ In z (x :: l)) as [->|Hz'].
      { destruct Hz as [Hz|[Hz|Hz]];
          [right; left; exact Hz|left; symmetry; exact Hz|right; right; exact Hz]. }
      * lia.
      * specialize (Hmax z Hz'). lia.
Qed.

(** [versions[0]?.versionNumber || 0], read off the descending order, is
    the highest version number, and 0 for an article without versions. *)
Lemma latestVersion_highest (l : list ArticleVersion.t) :
  Versions.latestVersion (orderBy (desc ArticleVersion.versionNumber) l) =
  match highest (map ArticleVersion.versionNumber l) with
  | Some h => h
  | None => 0
  end.
Proof.
  pose proof (orderBy_desc_head ArticleVersion.versionNumber l) as Hd.
  pose proof (highest_spec (map ArticleVersion.versionNumber l)) as Hh.
  unfold Versions.latestVersion.
  destruct (orderBy (desc ArticleVersion.versionNumber) l) as [|v rest].
  - subst l. reflexivity.
  - destruct Hd as [Hin Hmax]. cbn [hd_error option_map JS.or_num].
    destruct (highest (map ArticleVersion.versionNumber l)) as [h|].
    + destruct Hh as [Hh Hle].
      apply in_map_iff in Hh. destruct Hh as (w & <- & Hw).
      specialize (Hmax w Hw).
      specialize (Hle _ (in_map ArticleVersion.versionNumber _ _ Hin)).
      destruct (Z.eqb_spec (ArticleVersion.versionNumber v) 0); lia.
    + destruct l; [contradiction|discriminate].
Qed.

Lemma latestVersion_next (db : DB) (a : Z) :
  Versions.latestVersion
    (orderBy (desc ArticleVersion.versionNumber) (versionsOf db a)) + 1
  = nextVersionNumber db a.
Proof.
  unfold nextVersionNumber. rewrite latestVersion_highest.
  destruct (highest _); reflexivity.
Qed.

(** ** The version routes *)

Unset Implicit Arguments.

Ltac storage_call :=
  unfold Storage.getArticle, Storage.getArticleVersion,
         Storage.getArticleVersions, Storage.updateArticle,
         Storage.createArticleVersion;
  rewrite run_await; cbn beta iota.

Lemma find_existsb {A} (p : A -> bool) (l : list A) (x : A) :
  find p l = Some x -> existsb p l = true.
Proof.
  intros H. apply find_some in H. apply existsb_exists. exists x. exact H.
Qed.

Lemma find_app_some {A} (p : A -> bool) (l m : list A) (x : A) :
  find p l = Some x -> find p (l ++ m) = Some x.
Proof.
  induction l as [|a l IH]; simpl; [discriminate|].
  destruct (p a); auto.
Qed.

Lemma existsb_map_stable {A} (p : A -> bool) (f : A -> A) (l : list A) :
  (forall r, p (f r) = p r) -> existsb p (map f l) = existsb p l.
Proof.
  intros Hp. induction l as [|a l IH]; simpl; [reflexivity|].
  rewrite Hp, IH. reflexivity.
Qed.

Lemma parse_valid (b : Versions.VersionBody) (a n : Z) (u : option Z) :
  body_valid b = true ->
  exists vd, Versions.parse b a n u = inr vd
             /\ InsertArticleVersion.articleId vd = a
             /\ InsertArticleVersion.versionNumber vd = n
             /\ InsertArticleVersion.createdById vd = u.
Proof.
  unfold body_valid, Versions.parse.
  destruct (Versions.body_title b), (Versions.body_content b);
    try discriminate.
  destruct (Versions.body_description b); try discriminate;
    intros _; eexists; repeat split.
Qed.

(** C4. [POST /:articleId/versions] on an existing article with a body
    that passes the schema answers 201 with a new version, appended to the
    version table, whose number is the highest version number of the
    article plus 1, and 1 when the article has no version. *)
Theorem post_versions_numbers_next
        (now : Z) (req : Versions.Request) (db : DB) (art : Article.t) :
  let a := Versions.articleId req in
  find (fun x => Article.id x =? a) (rows (articles db)) = Some art ->
  body_valid (Versions.body req) = true ->
  exists v,
    run (Versions.post_versions now req) db
      = (set_articleVersions db
           (mkTable (rows (articleVersions db) ++ [v])
                    (nextId (articleVersions db) + 1)),
         inr (Versions.mkRes 201 (Versions.Version v)))
    /\ ArticleVersion.articleId v = a
    /\ ArticleVersion.versionNumber v =
         match highest (map ArticleVersion.versionNumber (versionsOf db a)) with
         | Some h => h + 1
         | None => 1
         end.
Proof.
  intros a Hart Hbody.
  unfold Versions.post_versions. rewrite run_try_catch.
  storage_call. fold a. rewrite Hart.
  storage_call.
  change (filter _ (rows (articleVersions db))) with (versionsOf db a).
  rewrite latestVersion_next.
  destruct (parse_valid (Versions.body req) a (nextVersionNumber db a)
              (Versions.user req) Hbody)
    as (vd & -> & Ha & Hn & _).
  storage_call. rewrite Ha.
  unfold article_exists. rewrite (find_existsb _ _ _ Hart).
  cbn. eexists. split; [reflexivity|]. cbn. split; [reflexivity|exact Hn].
Qed.

Lemma post_versions_numbers_next_witness :
  exists v,
    snd (run (Versions.post_versions 50 (Sample.request 1 0))
             Sample.versionedDB)
      = inr (Versions.mkRes 201 (Versions.Version v))
    /\ ArticleVersion.versionNumber v = 2.
Proof.
  destruct (post_versions_numbers_next 50 (Sample.request 1 0)
              Sample.versionedDB (Sample.article 1 "A" "published" 0)
              eq_refl eq_refl) as (v & Hrun & _ & Hn).
  exists v. rewrite Hrun. split; [reflexivity|exact Hn].
Defined.

(** C8. For an article that exists, a version id that resolves to no
    version and a version id that resolves to a version of another article
    get the same answer from the single-version fetch and from the restore:
    404 with the message "Version not found for this article", and the
    database is left as it was. *)
Theorem version_not_found_same_signal
        (now : Z) (req1 req2 : Versions.Request) (db : DB)
        (art : Article.t) (other : ArticleVersion.t) :
  let a := Versions.articleId req1 in
  let notFound :=
    Versions.mkRes 404 (Versions.Message "Version not found for this article") in
  Versions.articleId req2 = a ->
  find (fun x => Article.id x =? a) (rows (articles db)) = Some art ->
  find (fun v => ArticleVersion.id v =? Versions.versionId req1)
       (rows (articleVersions db)) = None ->
  find (fun v => ArticleVersion.id v =? Versions.versionId req2)
       (rows (articleVersions db)) = Some other ->
  ArticleVersion.articleId other <> a ->
  run (Versions.get_version req1) db = (db, inr notFound)
  /\ run (Versions.get_version req2) db = (db, inr notFound)
  /\ run (Versions.post_restore now req1) db = (db, inr notFound)
  /\ run (Versions.post_restore now req2) db = (db, inr notFound).
Proof.
  intros a notFound Ha Hart Hnone Hother Hneq.
  assert ((ArticleVersion.articleId other =? a) = false) as Hb
    by (apply Z.eqb_neq; exact Hneq).
  repeat split.
  - unfold Versions.get_version. rewrite run_try_catch.
    storage_call. fold a. rewrite Hart. storage_call. rewrite Hnone.
    reflexivity.
  - unfold Versions.get_version. rewrite run_try_catch.
    storage_call. rewrite Ha, Hart. storage_call. rewrite Hother, Hb.
    reflexivity.
  - unfold Versions.post_restore. rewrite run_try_catch.
    storage_call. fold a. rewrite Hart. storage_call. rewrite Hnone.
    reflexivity.
  - unfold Versions.post_restore. rewrite run_try_catch.
    storage_call. rewrite Ha, Hart. storage_call. rewrite Hother, Hb.
    reflexivity.
Qed.

Lemma version_not_found_same_signal_witness :
  run (Versions.get_version (Sample.request 1 9)) Sample.versionedDB
  = run (Versions.get_version (Sample.request 1 2)) Sample.versionedDB
  /\ run (Versions.post_restore 50 (Sample.request 1 9)) Sample.versionedDB
     = run (Versions.post_restore 50 (Sample.request 1 2)) Sample.versionedDB.
Proof.
  destruct (version_not_found_same_signal 50
              (Sample.request 1 9) (Sample.request 1 2) Sample.versionedDB
              (Sample.article 1 "A" "published" 0)
              (Sample.version 2 2 1 "other")
              eq_refl eq_refl eq_refl eq_refl)
    as (H1 & H2 & H3 & H4).
  - discriminate.
  - rewrite H1, H2, H3, H4. split; reflexivity.
Defined.

(** C3. The restore of an article to one of its own versions: the
    article's title, description and content become the version's; one
    version is appended whose fields are the target's and whose number is
    the article's highest version number plus 1, above the target's; the
    target row is still what the fetch by id returns; the article has one
    version more. *)
Theorem post_restore_moves_forward
        (now : Z) (req : Versions.Request) (db : DB)
        (art : Article.t) (target : ArticleVersion.t) :
  let a := Versions.articleId req in
  find (fun x => Article.id x =? a) (rows (articles db)) = Some art ->
  find (fun v => ArticleVersion.id v =? Versions.versionId req)
       (rows (articleVersions db)) = Some target ->
  ArticleVersion.articleId target = a ->
  exists db' updated new,
    run (Versions.post_restore now req) db
      = (db', inr (Versions.mkRes 200
                     (Versions.Restored (Some updated)
                        (ArticleVersion.versionNumber target))))
    /\ find (fun x => Article.id x =? a) (rows (articles db')) = Some updated
    /\ Article.title updated = ArticleVersion.title target
    /\ Article.description updated = ArticleVersion.description target
    /\ Article.content updated = ArticleVersion.content target
    /\ rows (articleVersions db') = rows (articleVersions db) ++ [new]
    /\ ArticleVersion.articleId new = a
    /\ ArticleVersion.title new = ArticleVersion.title target
    /\ ArticleVersion.description new = ArticleVersion.description target
    /\ ArticleVersion.content new = ArticleVersion.content target
    /\ highest (map ArticleVersion.versionNumber (versionsOf db a))
       = Some (ArticleVersion.versionNumber new - 1)
    /\ ArticleVersion.versionNumber target < ArticleVersion.versionNumber new
    /\ find (fun v => ArticleVersion.id v =? Versions.versionId req)
            (rows (articleVersions db')) = Some target
    /\ In target (rows (articleVersions db'))
    /\ List.length (versionsOf db' a) = S (List.length (versionsOf db a)).
Proof.
  intros a Hart Htarget Hown.
  assert ((ArticleVersion.articleId target =? a) = true) as Hb
    by (apply Z.eqb_eq; exact Hown).
  assert (In target (versionsOf db a)) as Hin.
  { apply find_some in Htarget. apply filter_In. split; [apply Htarget|exact Hb]. }
  pose proof (highest_spec (map ArticleVersion.versionNumber (versionsOf db a)))
    as Hh.
  pose proof (latestVersion_next db a) as Hnext. unfold nextVersionNumber in Hnext.
  destruct (highest (map ArticleVersion.versionNumber (versionsOf db a)))
    as [h|] eqn:Eh.
  2: { apply (in_map ArticleVersion.versionNumber) in Hin.
       rewrite Hh in Hin. contradiction. }
  destruct Hh as [_ Hmax].
  specialize (Hmax _ (in_map ArticleVersion.versionNumber _ _ Hin)).
  unfold Versions.post_restore. rewrite run_try_catch.
  storage_call. fold a. rewrite Hart. storage_call. rewrite Htarget, Hb.
  cbn [negb]. storage_call. storage_call.
  change (filter _ (rows (articleVersions (set_articles db _))))
    with (versionsOf db a).
  rewrite Hnext.
  storage_call. cbn [InsertArticleVersion.articleId].
  unfold article_exists. cbn [articles set_articles update_rows rows].
  rewrite existsb_map_stable
    by (intros r; destruct (Article.id r =? a) eqn:E; cbn; rewrite ?E;
        reflexivity).
  rewrite (find_existsb _ _ _ Hart). cbn [insert_row].
  cbn.
  rewrite (find_map_update (fun x => Article.id x =? a)
             (fun x => Article.id x =? a)
             (fun x => Article.mk
                (Article.id x) (ArticleVersion.title target) (Article.slug x)
                (ArticleVersion.description target)
                (ArticleVersion.content target)
                (Article.topicId x) (Article.authorId x) (Article.status x)
                (Article.publishedAt x) (Article.createdAt x) now)
             (rows (articles db)) (s := art) (fun _ => eq_refl) Hart
             (proj2 (find_some _ _ Hart))).
  cbn [run bind].
  eexists _, _, _. split; [reflexivity|].
  cbn. repeat split.
  - apply (find_map_update (fun x => Article.id x =? a)
             (fun x => Article.id x =? a)
             (fun x => Article.mk _ _ _ _ _ _ _ _ _ _ _) _ (s := art));
      [reflexivity|exact Hart|].
    apply find_some in Hart. apply Hart.
  - cbn. f_equal. lia.
  - cbn. lia.
  - apply find_app_some. exact Htarget.
  - apply in_or_app. left. apply find_some in Htarget. apply Htarget.
  - unfold versionsOf. cbn. rewrite filter_app, length_app. cbn.
    rewrite Z.eqb_refl. cbn. lia.
Qed.

Lemma post_restore_moves_forward_witness :
  exists db',
    fst (run (Versions.post_restore 50 (Sample.request 1 1))
             Sample.versionedDB) = db'
    /\ versionNumbers db' 1 = [1; 2].
Proof.
  destruct (post_restore_moves_forward 50 (Sample.request 1 1)
              Sample.versionedDB (Sample.article 1 "A" "published" 0)
              (Sample.version 1 1 1 "one") eq_refl eq_refl eq_refl)
    as (db' & updated & new & Hrun & _).
  exists db'. rewrite Hrun. cbn [fst]. split; [reflexivity|].
  apply (f_equal fst) in Hrun. cbn [fst] in Hrun. subst db'.
  vm_compute. reflexivity.
Defined.

(** ** The version sequence *)

Lemma parse_fields (b : Versions.VersionBody) (a n : Z) (u : option Z)
      (vd : InsertArticleVersion.t) :
  Versions.parse b a n u = inr vd ->
  InsertArticleVersion.articleId vd = a
  /\ InsertArticleVersion.versionNumber vd = n.
Proof.
  unfold Versions.parse.
  destruct (Versions.body_title b), (Versions.body_content b);
    try discriminate.
  destruct (Versions.body_description b); try discriminate;
    intros H; injection H as <-; split; reflexivity.
Qed.

(** A version call leaves the version table alone or appends one version,
    numbered next for its article. *)
Lemma version_call_effect (op : VersionOp) (db : DB) :
  let db' := fst (run (version_call op) db) in
  articleVersions db' = articleVersions db
  \/ exists v,
       rows (articleVersions db') = rows (articleVersions db) ++ [v]
       /\ ArticleVersion.versionNumber v
          = nextVersionNumber db (ArticleVersion.articleId v).
Proof.
  destruct op as [now req|now req]; cbn [version_call].
  - unfold Versions.post_versions. rewrite run_try_catch. storage_call.
    destruct (find _ (rows (articles db))) eqn:Hart; [|left; reflexivity].
    storage_call.
    change (filter _ (rows (articleVersions db)))
      with (versionsOf db (Versions.articleId req)).
    rewrite latestVersion_next.
    destruct (Versions.parse _ _ _ _) as [e|vd] eqn:Ep.
    + destruct e; left; reflexivity.
    + apply parse_fields in Ep. destruct Ep as [Ha Hn].
      storage_call.
      assert (article_exists db (InsertArticleVersion.articleId vd) = true)
        as -> by (rewrite Ha; unfold article_exists;
                  exact (find_existsb _ _ _ Hart)).
      right. cbn. eexists. split; [reflexivity|]. cbn. rewrite Hn, Ha.
      reflexivity.
  - unfold Versions.post_restore. rewrite run_try_catch. storage_call.
    destruct (find _ (rows (articles db))) eqn:Hart; [|left; reflexivity].
    storage_call.
    destruct (find _ (rows (articleVersions db))) as [target|];
      [|left; reflexivity].
    destruct (negb _); [left; reflexivity|].
    storage_call. storage_call.
    change (filter _ (rows (articleVersions (set_articles db _))))
      with (versionsOf db (Versions.articleId req)).
    rewrite latestVersion_next.
    storage_call. cbn [InsertArticleVersion.articleId].
    unfold article_exists. cbn [articles set_articles update_rows rows].
    rewrite existsb_map_stable
      by (intros r; destruct (Article.id r =? Versions.articleId req) eqn:E;
          cbn; rewrite ?E; reflexivity).
    rewrite (find_existsb _ _ _ Hart).
    right. cbn. eexists. split; [reflexivity|]. reflexivity.
Qed.

Lemma increasing_snoc (l : list Z) (n : Z) :
  increasing_from_1 l ->
  (forall x, In x l -> x < n) ->
  (l = [] -> n = 1) ->
  increasing_from_1 (l ++ [n]).
Proof.
  intros [Hs Hhd] Hlt Hfirst. split.
  - clear Hhd Hfirst. induction Hs as [|x l Hl IH Hx]; simpl.
    + constructor; constructor.
    + constructor.
      * apply IH. intros y Hy. apply Hlt. right. exact Hy.
      * apply Forall_app. split; [exact Hx|].
        constructor; [|constructor]. apply Hlt. left. reflexivity.
  - right. destruct l as [|x l]; simpl.
    + rewrite Hfirst by reflexivity. reflexivity.
    + destruct Hhd as [Hnil|Hone]; [discriminate|exact Hone].
Qed.

Lemma append_keeps_increasing (db db' : DB) (a : Z) (v : ArticleVersion.t) :
  increasing_from_1 (versionNumbers db a) ->
  rows (articleVersions db') = rows (articleVersions db) ++ [v] ->
  ArticleVersion.versionNumber v
    = nextVersionNumber db (ArticleVersion.articleId v) ->
  increasing_from_1 (versionNumbers db' a).
Proof.
  intros Hinc Hrows Hn.
  unfold versionNumbers, versionsOf in *. rewrite Hrows, filter_app. cbn.
  destruct (Z.eqb_spec (ArticleVersion.articleId v) a) as [Ha|Ha].
  2: { rewrite app_nil_r. exact Hinc. }
  rewrite Ha in Hn. unfold nextVersionNumber, versionsOf in Hn.
  set (l := filter _ (rows (articleVersions db))) in *.
  pose proof (highest_spec (map ArticleVersion.versionNumber l)) as Hh.
  assert (forall x, In x l ->
            ArticleVersion.versionNumber x < ArticleVersion.versionNumber v)
    as Hlt.
  { intros x Hx. destruct (highest _) as [h|].
    - destruct Hh as [_ Hmax].
      specialize (Hmax _ (in_map ArticleVersion.versionNumber _ _ Hx)). lia.
    - apply (in_map ArticleVersion.versionNumber) in Hx.
      rewrite Hh in Hx. contradiction. }
  rewrite orderBy_snoc
    by (intros x Hx; unfold asc; specialize (Hlt x Hx); lia).
  rewrite map_app. cbn. apply increasing_snoc.
  - exact Hinc.
  - intros n Hin. apply in_map_iff in Hin. destruct Hin as (x & <- & Hx).
    apply Hlt. eapply Permutation_in; [apply orderBy_perm|exact Hx].
  - intros Hnil.
    assert (l = []) as Hl.
    { apply map_eq_nil in Hnil. apply Permutation_nil.
      rewrite <- Hnil. apply orderBy_perm. }
    rewrite Hl in Hn. exact Hn.
Qed.

(** C5, for operations that do not overlap. Version creations and
    restores, on any articles, each run to completion before the next
    starts, keep the version numbers of every article, read in ascending
    order, strictly increasing and starting at 1. *)
Theorem sequential_versions_increasing
        (ops : list VersionOp) (db : DB) (a : Z) :
  increasing_from_1 (versionNumbers db a) ->
  increasing_from_1 (versionNumbers (apply_ops ops db) a).
Proof.
  unfold apply_ops. revert db.
  induction ops as [|op ops IH]; intros db Hinc; simpl; [exact Hinc|].
  apply IH.
  destruct (version_call_effect op db) as [Hsame|(v & Hrows & Hn)].
  - unfold versionNumbers, versionsOf in *. rewrite Hsame. exact Hinc.
  - exact (append_keeps_increasing db _ a v Hinc Hrows Hn).
Qed.

Lemma sequential_versions_increasing_witness :
  increasing_from_1
    (versionNumbers
       (apply_ops [CreateVersion 50 (Sample.request 1 0);
                   RestoreVersion 60 (Sample.request 1 1);
                   CreateVersion 70 (Sample.request 2 0)]
                  Sample.versionedDB) 1)
  /\ versionNumbers
       (apply_ops [CreateVersion 50 (Sample.request 1 0);
                   RestoreVersion 60 (Sample.request 1 1);
                   CreateVersion 70 (Sample.request 2 0)]
                  Sample.versionedDB) 1 = [1; 2; 3].
Proof.
  split; [|vm_compute; reflexivity].
  apply sequential_versions_increasing.
  split; [|right; reflexivity].
  vm_compute. repeat constructor.
Defined.

(** C5, operations that overlap. Two version creations for one article
    are in flight on a history that is in order; each reads the version
    list before the other writes. Both are answered, and the article ends
    with the numbers 1, 2, 2. *)
Lemma racing_versions_repeat_a_number :
  let end_ :=
    run_schedule [0; 1; 0; 1; 0; 1]%nat
                 [Versions.post_versions 50 (Sample.request 1 0);
                  Versions.post_versions 60 (Sample.request 1 0)]
                 Sample.versionedDB in
  increasing_from_1 (versionNumbers Sample.versionedDB 1)
  /\ forallb (@finished _) (snd end_) = true
  /\ versionNumbers (fst end_) 1 = [1; 2; 2]
  /\ ~ increasing_from_1 (versionNumbers (fst end_) 1).
Proof.
  assert (versionNumbers
            (fst (run_schedule [0; 1; 0; 1; 0; 1]%nat
                    [Versions.post_versions 50 (Sample.request 1 0);
                     Versions.post_versions 60 (Sample.request 1 0)]
                    Sample.versionedDB)) 1 = [1; 2; 2]) as Hnum
    by (vm_compute; reflexivity).
  cbv zeta. rewrite Hnum.
  split; [split; [vm_compute; repeat constructor|right; reflexivity]|].
  split; [vm_compute; reflexivity|].
  split; [reflexivity|].
  intros [Hs _].
  apply StronglySorted_inv in Hs. destruct Hs as [Hs _].
  apply StronglySorted_inv in Hs. destruct Hs as [_ Hf].
  apply Forall_inv in Hf. lia.
Qed.

(** ** Listing and search *)

Lemma like_percent (s : list ascii) : Sql.like ["%"%char] s = true.
Proof. induction s as [|c s IH]; [reflexivity|exact IH]. Qed.

Lemma like_literal (p s : list ascii) :
  plainl p = true ->
  Sql.like (p ++ ["%"%char]) s = prefix_of p s.
Proof.
  revert s. induction p as [|c p IH]; intros s Hp.
  - simpl app. rewrite like_percent. reflexivity.
  - simpl in Hp. apply andb_prop in Hp. destruct Hp as [Hc Hp].
    apply negb_true_iff in Hc. apply orb_false_iff in Hc.
    destruct Hc as [Hc H3]. apply orb_false_iff in Hc. destruct Hc as [H1 H2].
    simpl. rewrite H1, H2, H3.
    destruct s as [|d s]; [reflexivity|]. rewrite IH by exact Hp. reflexivity.
Qed.

Lemma like_infix (p s : list ascii) :
  plainl p = true ->
  Sql.like ("%"%char :: p ++ ["%"%char]) s = infix_of p s.
Proof.
  intros Hp. induction s as [|d s IH].
  - simpl. rewrite like_literal by exact Hp. destruct p; reflexivity.
  - change (Sql.like ("%"%char :: p ++ ["%"%char]) (d :: s))
      with (Sql.like (p ++ ["%"%char]) (d :: s)
            || Sql.like ("%"%char :: p ++ ["%"%char]) s).
    rewrite IH, like_literal by exact Hp. reflexivity.
Qed.

Lemma lower_special (c : ascii) :
  (Ascii.eqb (Sql.lower c) "%" || Ascii.eqb (Sql.lower c) "_"
   || Ascii.eqb (Sql.lower c) "\")
  = (Ascii.eqb c "%" || Ascii.eqb c "_" || Ascii.eqb c "\").
Proof.
  destruct c as [[] [] [] [] [] [] [] []]; reflexivity.
Qed.

Lemma plainl_lower (p : list ascii) :
  plainl (map Sql.lower p) = plainl p.
Proof.
  induction p as [|c p IH]; simpl; [reflexivity|].
  rewrite lower_special, IH. reflexivity.
Qed.

Lemma list_ascii_app (s t : string) :
  list_ascii_of_string (s ++ t) = list_ascii_of_string s ++ list_ascii_of_string t.
Proof.
  induction s as [|c s IH]; simpl; [reflexivity|]. rewrite IH. reflexivity.
Qed.

(** For a search string without [%], [_] and backslash, the pattern the
    code builds matches exactly the texts that contain the string, letter
    case aside. *)
Lemma ilike_contains (text : option string) (search : string) :
  plain search = true ->
  Sql.ilike text ("%" ++ search ++ "%") = contains_ci text search.
Proof.
  intros Hp. destruct text as [t|]; [|reflexivity].
  unfold Sql.ilike, contains_ci.
  change (list_ascii_of_string ("%" ++ search ++ "%"))
    with ("%"%char :: list_ascii_of_string (search ++ "%")).
  rewrite list_ascii_app, map_cons, map_app.
  apply like_infix. rewrite plainl_lower. exact Hp.
Qed.

Lemma select_where_matches (o : Storage.ArticlesOptions) (l : list Article.t) :
  Sql.select_where (Storage.whereClause o) l = filter (matches o) l.
Proof.
  unfold Storage.whereClause, Storage.conditions, matches.
  destruct (Storage.topicId o) as [t|], (Storage.authorId o) as [u|],
    (Storage.status o) as [st|], (Storage.search o) as [se|];
    try destruct (JS.truthy (Some t));
    try destruct (JS.truthy (Some u));
    try destruct (JS.truthy_str (Some st));
    try destruct (JS.truthy_str (Some se));
    cbn [app fold_left Sql.select_where];
    first [ apply filter_ext; intros a;
            rewrite ?andb_true_r, ?andb_true_l; reflexivity
          | induction l as [|x l IHl]; simpl in *; congruence ].
Qed.

Lemma or_num_self (n : Z) : JS.or_num (Some n) 0 = n.
Proof. simpl. destruct (Z.eqb_spec n 0); congruence. Qed.

(** C7, as the code has it, for text in ASCII. [getArticles] keeps the
    articles that pass every option that is given and truthy (a non-zero
    topic or author id, a non-empty status, a non-empty search string
    matched with [ILIKE %search%] against title, description and content),
    orders them by [updatedAt], latest first, cuts the page with offset and
    limit (10 and 0 by default), and counts all the articles that pass as
    the total. A search string without [%], [_] and backslash matches by
    case-insensitive substring. Searching "salah" among the published
    articles of the three-article scenario gives total 2 and "Salah History"
    before "Salah Importance". *)
Theorem getArticles_page :
  (forall (o : Storage.ArticlesOptions) (db : DB),
     let limit := match Storage.limit o with Some n => n | None => 10%nat end in
     let offset := match Storage.offset o with Some n => n | None => 0%nat end in
     let found := filter (matches o) (rows (articles db)) in
     searchable o db ->
     exists sorted,
       run (Storage.getArticles o) db
         = (db, inr (Storage.mkPage (firstn limit (skipn offset sorted))
                                    (Z.of_nat (List.length found))))
       /\ Permutation sorted found
       /\ StronglySorted
            (fun x y => Article.updatedAt y <= Article.updatedAt x) sorted)
  /\ (forall (text : option string) (search : string),
        plain search = true ->
        ascii_only search = true ->
        ascii_text text = true ->
        Sql.ilike text ("%" ++ search ++ "%") = contains_ci text search)
  /\ searchable (Sample.searchOptions "salah" "published") Sample.searchDB
  /\ run (Storage.getArticles (Sample.searchOptions "salah" "published"))
         Sample.searchDB
     = (Sample.searchDB,
        inr (Storage.mkPage
               [Sample.article 3 "Salah History" "published" 300;
                Sample.article 1 "Salah Importance" "published" 100] 2)).
Proof.
  split; [|split;
            [intros text search Hp _ _; exact (ilike_contains text search Hp)
            |split; [split; reflexivity|vm_compute; reflexivity]]].
  intros o db limit offset found _.
  exists (orderBy (desc Article.updatedAt) found).
  split; [|split].
  - unfold Storage.getArticles. rewrite !run_await.
    rewrite !select_where_matches, or_num_self. reflexivity.
  - apply orderBy_perm.
  - apply orderBy_desc_sorted.
Qed.

Lemma getArticles_page_witness :
  plain "salah" = true
  /\ Sql.ilike (Some "Salah Importance"%string) ("%" ++ "salah" ++ "%")
     = contains_ci (Some "Salah Importance"%string) "salah"
  /\ contains_ci (Some "Salah Importance"%string) "salah" = true
  /\ exists sorted,
       run (Storage.getArticles (Sample.searchOptions "salah" "published"))
           Sample.searchDB
       = (Sample.searchDB, inr (Storage.mkPage sorted 2))
       /\ Permutation sorted
            [Sample.article 1 "Salah Importance" "published" 100;
             Sample.article 3 "Salah History" "published" 300].
Proof.
  split; [reflexivity|]. split; [|split; [reflexivity|]].
  - exact (proj1 (proj2 getArticles_page) (Some "Salah Importance"%string)
                 "salah"%string eq_refl eq_refl eq_refl).
  - destruct (proj1 getArticles_page
                (Sample.searchOptions "salah" "published") Sample.searchDB
                (conj eq_refl eq_refl))
      as (sorted & Hrun & Hperm & _).
    exists sorted. split; [|exact Hperm].
    rewrite Hrun.
    assert (List.length sorted = 2%nat) as Hlen
      by (apply Permutation_length in Hperm; exact Hperm).
    destruct sorted as [|x [|y [|z sorted]]]; try discriminate Hlen.
    reflexivity.
Defined.

(** C7, a search string with a wildcard. The search "s_lah" among the
    published articles returns both Salah articles, though no title,
    description or content contains "s_lah" in any letter case. *)
Lemma getArticles_wildcard_search :
  run (Storage.getArticles (Sample.searchOptions "s_lah" "published"))
      Sample.searchDB
  = (Sample.searchDB,
     inr (Storage.mkPage
            [Sample.article 3 "Salah History" "published" 300;
             Sample.article 1 "Salah Importance" "published" 100] 2))
  /\ forallb (fun a => negb (contains_ci (Some (Article.title a)) "s_lah"
                             || contains_ci (Article.description a) "s_lah"
                             || contains_ci (Some (Article.content a)) "s_lah"))
             (rows (articles Sample.searchDB)) = true.
Proof. split; vm_compute; reflexivity. Qed.

(** ** The rate limiter *)

Section RateLimiterFacts.

Import RateLimiter.

Lemma get_set_same (key : string) (d : Entry) (m : Requests) :
  get key (set key d m) = Some d.
Proof.
  induction m as [|[k d'] m IH]; simpl.
  - rewrite String.eqb_refl. reflexivity.
  - destruct (String.eqb k key) eqn:E; simpl; rewrite E; [reflexivity|exact IH].
Qed.

Lemma get_set_other (key key' : string) (d : Entry) (m : Requests) :
  key' <> key -> get key' (set key d m) = get key' m.
Proof.
  intros Hne. induction m as [|[k d'] m IH]; simpl.
  - destruct (String.eqb_spec key key'); [congruence|reflexivity].
  - destruct (String.eqb_spec k key) as [->|Hk]; simpl.
    + destruct (String.eqb_spec key key'); [congruence|reflexivity].
    + destruct (String.eqb k key'); [reflexivity|exact IH].
Qed.

Lemma keys_set (key : string) (d : Entry) (m : Requests) :
  forall k, In k (map fst (set key d m)) <-> k = key \/ In k (map fst m).
Proof.
  induction m as [|[k0 d0] m IH]; simpl; intros k.
  - intuition congruence.
  - destruct (String.eqb_spec k0 key) as [->|Hk]; simpl.
    + intuition congruence.
    + rewrite IH. intuition congruence.
Qed.

Lemma set_NoDup (key : string) (d : Entry) (m : Requests) :
  NoDup (map fst m) -> NoDup (map fst (set key d m)).
Proof.
  induction m as [|[k0 d0] m IH]; simpl; intros Hnd.
  - constructor; [intros []|constructor].
  - inversion Hnd as [|? ? Hk0 Hm]; subst.
    destruct (String.eqb_spec k0 key) as [->|Hk]; simpl.
    + constructor; assumption.
    + constructor; [|apply IH; exact Hm].
      rewrite keys_set. intros [Heq|Hin]; [congruence|contradiction].
Qed.

Lemma get_absent (key : string) (m : Requests) :
  ~ In key (map fst m) -> get key m = None.
Proof.
  induction m as [|[k d] m IH]; simpl; intros Hn; [reflexivity|].
  destruct (String.eqb_spec k key) as [->|Hk]; [tauto|]. apply IH. tauto.
Qed.

Lemma get_filter (p : Entry -> bool) (key : string) (m : Requests) :
  NoDup (map fst m) ->
  get key (filter (fun kd => p (snd kd)) m) =
  match get key m with
  | Some d => if p d then Some d else None
  | None => None
  end.
Proof.
  induction m as [|[k d] m IH]; simpl; intros Hnd; [reflexivity|].
  inversion Hnd as [|? ? Hk Hm]; subst.
  destruct (String.eqb_spec k key) as [->|Hne].
  - destruct (p d); simpl.
    + rewrite String.eqb_refl. reflexivity.
    + apply get_absent. intros Hin. apply Hk.
      apply in_map_iff in Hin. destruct Hin as (kd & Hfst & Hin).
      apply filter_In in Hin. apply in_map_iff. exists kd. tauto.
  - destruct (p d); simpl.
    + destruct (String.eqb_spec k key); [congruence|]. apply IH. exact Hm.
    + apply IH. exact Hm.
Qed.

(** The entry the middleware writes for the key of the request. *)
Lemma middleware_entry (cm cw : option Z) (rl : t) (req : Request) (now : Z) :
  let d0 :=
    match get (key_of req) (requests rl) with
    | Some d => if resetTime d <? now then mkEntry 0 (now + window_of cw rl)
                else d
    | None => mkEntry 0 (now + window_of cw rl)
    end in
  let d := mkEntry (count d0 + 1) (resetTime d0) in
  middleware cm cw rl req now =
    (mk (set (key_of req) d (requests rl)) (maxRequests rl) (timeWindow rl),
     if limit_of cm rl <? count d
     then TooManyRequests (Math_ceil (inject_Z (resetTime d - now) / 1000))
     else Next).
Proof.
  unfold middleware, limit_of, window_of.
  destruct (get (key_of req) (requests rl)) as [d|]; cbn zeta.
  - destruct (resetTime d <? now); cbn [count resetTime];
      destruct (_ <? _); reflexivity.
  - cbn [count resetTime].
    destruct (now + _ <? now); cbn [count resetTime];
      destruct (_ <? _); reflexivity.
Qed.


Lemma ceil_seconds_bounds (d s : Z) :
  0 <= d -> d <= 1000 * s ->
  0 <= Math_ceil (inject_Z d / 1000) <= s.
Proof.
  intros H0 Hs. unfold Math_ceil. split.
  - change 0 with (Qceiling (inject_Z 0)) at 1.
    apply Qceiling_resp_le. unfold Qle, Qdiv, Qmult, Qinv, inject_Z. simpl. lia.
  - apply Z.le_trans with (Qceiling (inject_Z s)); [|rewrite Qceiling_Z; lia].
    apply Qceiling_resp_le. unfold Qle, Qdiv, Qmult, Qinv, inject_Z. simpl. lia.
Qed.

Lemma serve_in_window (cm cw : option Z) (req : Request) (times : list Z) :
  forall (rl : t) (d : Entry),
    get (key_of req) (requests rl) = Some d ->
    (forall now, In now times -> now <= resetTime d) ->
    forall (i : nat) (o : Outcome),
      nth_error (snd (serve cm cw rl (map (pair req) times))) i = Some o ->
      (o = Next <-> count d + Z.of_nat i + 1 <= limit_of cm rl).
Proof.
  induction times as [|now times IH]; intros rl d Hget Hin i o Hnth.
  - destruct i; discriminate Hnth.
  - cbn [map serve] in Hnth.
    pose proof (middleware_entry cm cw rl req now) as Hm. cbv zeta in Hm.
    rewrite Hget in Hm.
    assert ((resetTime d <? now) = false) as Hfresh
      by (apply Z.ltb_ge, Hin; left; reflexivity).
    rewrite Hfresh in Hm. cbn [count resetTime] in Hm.
    rewrite Hm in Hnth. clear Hm.
    set (rl1 := mk _ _ _) in Hnth.
    destruct (serve cm cw rl1 (map (pair req) times)) as [rl2 os] eqn:Es.
    cbn [snd] in Hnth. destruct i as [|j]; cbn [nth_error] in Hnth.
    + injection Hnth as <-.
      destruct (Z.ltb_spec (limit_of cm rl) (count d + 1));
        split; intros H'; try discriminate; try reflexivity; lia.
    + assert (nth_error (snd (serve cm cw rl1 (map (pair req) times))) j
              = Some o) as Hj by (rewrite Es; exact Hnth).
      apply (IH rl1 (mkEntry (count d + 1) (resetTime d))) in Hj.
      * cbn [count] in Hj. change (limit_of cm rl1) with (limit_of cm rl) in Hj.
        rewrite Hj. lia.
      * apply get_set_same.
      * intros t Ht. apply Hin. right. exact Ht.
Qed.

(** A client without an entry sends requests on one path, all within one
    window of the first: the request number [i] (from 0) passes exactly
    when [i] is below the limit. *)
Theorem rate_limit_first_requests_pass
        (cm cw : option Z) (rl : t) (req : Request) (now : Z) (times : list Z) :
  get (key_of req) (requests rl) = None ->
  (forall t, In t times -> t <= now + window_of cw rl) ->
  forall (i : nat) (o : Outcome),
    nth_error (snd (serve cm cw rl (map (pair req) (now :: times)))) i = Some o ->
    (o = Next <-> Z.of_nat i < limit_of cm rl).
Proof.
  intros Hget Hin i o Hnth. cbn [map serve] in Hnth.
  pose proof (middleware_entry cm cw rl req now) as Hm. cbv zeta in Hm.
  rewrite Hget in Hm. cbn [count resetTime] in Hm.
  rewrite Hm in Hnth. clear Hm.
  set (rl1 := mk _ _ _) in Hnth.
  destruct (serve cm cw rl1 (map (pair req) times)) as [rl2 os] eqn:Es.
  cbn [snd] in Hnth. destruct i as [|j]; cbn [nth_error] in Hnth.
  - injection Hnth as <-.
    destruct (Z.ltb_spec (limit_of cm rl) 1);
      split; intros H'; try discriminate; try reflexivity; lia.
  - assert (nth_error (snd (serve cm cw rl1 (map (pair req) times))) j
            = Some o) as Hj by (rewrite Es; exact Hnth).
    apply (serve_in_window cm cw req times rl1
             (mkEntry (0 + 1) (now + window_of cw rl))) in Hj.
    + cbn [count] in Hj. change (limit_of cm rl1) with (limit_of cm rl) in Hj.
      rewrite Hj. lia.
    + apply get_set_same.
    + exact Hin.
Qed.

Lemma rate_limit_first_requests_pass_witness :
  snd (serve None None (new 2 60)
         (map (pair (mkReq (Some "10.0.0.1"%string) None "/api/topics"))
              [0; 100; 200; 59000]))
  = [Next; Next; TooManyRequests 60; TooManyRequests 1]
  /\ (TooManyRequests 60 = Next <-> Z.of_nat 2 < 2).
Proof.
  split; [vm_compute; reflexivity|].
  apply (rate_limit_first_requests_pass None None (new 2 60)
           (mkReq (Some "10.0.0.1"%string) None "/api/topics")
           0 [100; 200; 59000] eq_refl).
  - intros t Ht. cbn in Ht. change (window_of None (new 2 60)) with 60000.
    destruct Ht as [<-|[<-|[<-|[]]]]; lia.
  - reflexivity.
Defined.

(** A client whose entry is absent or has run out is let through (for a
    limit of at least 1) and starts a new window with count 1. *)
Theorem rate_limit_new_window
        (cm cw : option Z) (rl : t) (req : Request) (now : Z) :
  (forall d, get (key_of req) (requests rl) = Some d -> resetTime d < now) ->
  1 <= limit_of cm rl ->
  snd (middleware cm cw rl req now) = Next
  /\ get (key_of req) (requests (fst (middleware cm cw rl req now)))
     = Some (mkEntry 1 (now + window_of cw rl)).
Proof.
  intros Hold Hlimit.
  pose proof (middleware_entry cm cw rl req now) as Hm. cbv zeta in Hm.
  rewrite Hm. clear Hm. cbn [fst snd requests].
  rewrite get_set_same.
  destruct (get (key_of req) (requests rl)) as [d|].
  - rewrite (proj2 (Z.ltb_lt _ _) (Hold d eq_refl)). cbn [count resetTime].
    destruct (Z.ltb_spec (limit_of cm rl) (0 + 1)); [lia|]. split; reflexivity.
  - cbn [count resetTime].
    destruct (Z.ltb_spec (limit_of cm rl) (0 + 1)); [lia|]. split; reflexivity.
Qed.

Lemma rate_limit_new_window_witness :
  snd (middleware None None
         (mk [("::1:/api"%string, mkEntry 100 5000)] 100 60000)
         (mkReq (Some "::1"%string) None "/api") 5001) = Next.
Proof.
  apply (rate_limit_new_window None None
           (mk [("::1:/api"%string, mkEntry 100 5000)] 100 60000)
           (mkReq (Some "::1"%string) None "/api") 5001).
  - intros d Hd. vm_compute in Hd. injection Hd as <-. reflexivity.
  - vm_compute. discriminate.
Defined.

(** A request leaves the entries of every other key as they are. *)
Theorem rate_limit_other_keys_untouched
        (cm cw : option Z) (rl : t) (req : Request) (now : Z) (key : string) :
  key <> key_of req ->
  get key (requests (fst (middleware cm cw rl req now))) = get key (requests rl).
Proof.
  intros Hne.
  pose proof (middleware_entry cm cw rl req now) as Hm. cbv zeta in Hm.
  rewrite Hm. cbn [fst requests]. apply get_set_other. exact Hne.
Qed.

Lemma rate_limit_other_keys_untouched_witness :
  get "10.0.0.2:/api"%string
      (requests (fst (middleware None None
                        (mk [("10.0.0.2:/api"%string, mkEntry 7 5000)] 100 60000)
                        (mkReq (Some "10.0.0.1"%string) None "/api") 10)))
  = Some (mkEntry 7 5000).
Proof.
  rewrite (rate_limit_other_keys_untouched None None
             (mk [("10.0.0.2:/api"%string, mkEntry 7 5000)] 100 60000)
             (mkReq (Some "10.0.0.1"%string) None "/api") 10
             "10.0.0.2:/api"%string).
  - reflexivity.
  - vm_compute. discriminate.
Defined.

Lemma serve_retry_after (cm cw : option Z) (W s : Z) (arrivals : list (Request * Z)) :
  0 <= W -> W = 1000 * s ->
  forall (rl : t) (T : Z),
    window_of cw rl = W ->
    (forall key d, get key (requests rl) = Some d -> resetTime d <= T + W) ->
    (forall a, In a arrivals -> T <= snd a) ->
    StronglySorted Z.le (map snd arrivals) ->
    forall r, In (TooManyRequests r) (snd (serve cm cw rl arrivals)) ->
              0 <= r <= s.
Proof.
  intros HW Hs. induction arrivals as [|[req now] arrivals IH];
    intros rl T Hwin Hinv Hafter Hsorted r Hin.
  - destruct Hin.
  - cbn [serve] in Hin.
    pose proof (middleware_entry cm cw rl req now) as Hm. cbv zeta in Hm.
    rewrite Hwin in Hm.
    assert (T <= now) as HT by (apply (Hafter (req, now)); left; reflexivity).
    set (d0 := match get (key_of req) (requests rl) with
               | Some d => if resetTime d <? now then mkEntry 0 (now + W) else d
               | None => mkEntry 0 (now + W)
               end) in Hm.
    assert (now <= resetTime d0 <= now + W) as Hd0.
    { subst d0. destruct (get (key_of req) (requests rl)) as [d|] eqn:Eg.
      - specialize (Hinv _ _ Eg).
        destruct (Z.ltb_spec (resetTime d) now); cbn [resetTime]; lia.
      - cbn [resetTime]. lia. }
    rewrite Hm in Hin. clear Hm.
    set (rl1 := mk _ _ _) in Hin.
    destruct (serve cm cw rl1 arrivals) as [rl2 os] eqn:Es.
    cbn [snd] in Hin. destruct Hin as [Hhd|Htl].
    + destruct (_ <? _); [|discriminate]. injection Hhd as <-.
      cbn [resetTime]. apply ceil_seconds_bounds; lia.
    + apply (IH rl1 now).
      * exact Hwin.
      * intros key d Hget. subst rl1. cbn [requests] in Hget.
        destruct (String.eqb_spec key (key_of req)) as [->|Hne].
        -- rewrite get_set_same in Hget. injection Hget as <-.
           cbn [resetTime]. lia.
        -- rewrite get_set_other in Hget by exact Hne.
           specialize (Hinv _ _ Hget). lia.
      * cbn [map snd] in Hsorted. apply StronglySorted_inv in Hsorted.
        destruct Hsorted as [_ Hall]. rewrite Forall_forall in Hall.
        intros a Ha. apply Hall. apply in_map. exact Ha.
      * cbn [map] in Hsorted. apply StronglySorted_inv in Hsorted.
        apply Hsorted.
      * rewrite Es. exact Htl.
Qed.

(** A new limiter with a window of [secs] seconds serves requests of any
    clients in the order of their arrival times: every refusal announces a
    [Retry-After] between 0 and [secs] seconds. *)
Theorem rate_limit_retry_after_bounds
        (maxRequests_ secs : Z) (arrivals : list (Request * Z)) :
  0 <= secs ->
  StronglySorted Z.le (map snd arrivals) ->
  forall r,
    In (TooManyRequests r)
       (snd (serve None None (new maxRequests_ secs) arrivals)) ->
    0 <= r <= secs.
Proof.
  intros Hsecs Hsorted r Hin.
  destruct arrivals as [|[req now] arrivals]; [destruct Hin|].
  apply (serve_retry_after None None (secs * 1000) secs
           ((req, now) :: arrivals)) with (rl := new maxRequests_ secs) (T := now)
           (r := r); try lia; try assumption.
  - reflexivity.
  - intros key d Hget. discriminate Hget.
  - intros a [<-|Ha]; [cbn; lia|].
    cbn [map snd] in Hsorted. apply StronglySorted_inv in Hsorted.
    destruct Hsorted as [_ Hall]. rewrite Forall_forall in Hall.
    apply Hall. apply in_map. exact Ha.
Qed.

Lemma rate_limit_retry_after_bounds_witness :
  In (TooManyRequests 60)
     (snd (serve None None (new 2 60)
             (map (pair (mkReq (Some "10.0.0.1"%string) None "/api/topics"))
                  [0; 100; 200; 59000])))
  /\ 0 <= 60 <= 60.
Proof.
  assert (In (TooManyRequests 60)
             (snd (serve None None (new 2 60)
                     (map (pair (mkReq (Some "10.0.0.1"%string) None
                                       "/api/topics"))
                          [0; 100; 200; 59000])))) as Hin
    by (vm_compute; right; right; left; reflexivity).
  split; [exact Hin|].
  apply (rate_limit_retry_after_bounds 2 60
           (map (pair (mkReq (Some "10.0.0.1"%string) None "/api/topics"))
                [0; 100; 200; 59000])).
  - lia.
  - cbn. repeat constructor; lia.
  - exact Hin.
Defined.

(** [cleanup] does not show: run at a time not after a request, it
    changes neither the answer to the request nor the entry the request
    leaves for its key, and it keeps every entry whose window is still
    open. *)
Theorem rate_limit_cleanup_transparent
        (cm cw : option Z) (rl : t) (req : Request) (cleaned now : Z) :
  NoDup (map fst (requests rl)) ->
  cleaned <= now ->
  snd (middleware cm cw (cleanup cleaned rl) req now)
    = snd (middleware cm cw rl req now)
  /\ get (key_of req)
         (requests (fst (middleware cm cw (cleanup cleaned rl) req now)))
     = get (key_of req) (requests (fst (middleware cm cw rl req now)))
  /\ (forall key d, get key (requests rl) = Some d -> cleaned <= resetTime d ->
                    get key (requests (cleanup cleaned rl)) = Some d).
Proof.
  intros Hnd Hle.
  assert (forall key,
            get key (requests (cleanup cleaned rl)) =
            match get key (requests rl) with
            | Some d => if negb (resetTime d <? cleaned) then Some d else None
            | None => None
            end) as Hget.
  { intros key. unfold cleanup. cbn [requests].
    apply (get_filter (fun d => negb (resetTime d <? cleaned))). exact Hnd. }
  pose proof (middleware_entry cm cw rl req now) as Hm. cbv zeta in Hm.
  pose proof (middleware_entry cm cw (cleanup cleaned rl) req now) as Hc.
  cbv zeta in Hc. rewrite Hget in Hc.
  change (window_of cw (cleanup cleaned rl)) with (window_of cw rl) in Hc.
  change (limit_of cm (cleanup cleaned rl)) with (limit_of cm rl) in Hc.
  assert (match
            match get (key_of req) (requests rl) with
            | Some d => if negb (resetTime d <? cleaned) then Some d else None
            | None => None
            end
          with
          | Some d => if resetTime d <? now
                      then mkEntry 0 (now + window_of cw rl) else d
          | None => mkEntry 0 (now + window_of cw rl)
          end
          = match get (key_of req) (requests rl) with
            | Some d => if resetTime d <? now
                        then mkEntry 0 (now + window_of cw rl) else d
            | None => mkEntry 0 (now + window_of cw rl)
            end) as Hsame.
  { destruct (get (key_of req) (requests rl)) as [d|]; [|reflexivity].
    destruct (Z.ltb_spec (resetTime d) cleaned); cbn [negb]; [|reflexivity].
    destruct (Z.ltb_spec (resetTime d) now); [reflexivity|lia]. }
  rewrite Hsame in Hc. rewrite Hc, Hm. cbn [fst snd requests].
  split; [reflexivity|]. split; [rewrite !get_set_same; reflexivity|].
  intros key d Hd Hopen. rewrite Hget, Hd.
  destruct (Z.ltb_spec (resetTime d) cleaned); [lia|reflexivity].
Qed.

Lemma rate_limit_cleanup_transparent_witness :
  snd (middleware None None
         (cleanup 6000 (mk [("::1:/api"%string, mkEntry 100 5000)] 100 60000))
         (mkReq (Some "::1"%string) None "/api") 7000)
  = snd (middleware None None
           (mk [("::1:/api"%string, mkEntry 100 5000)] 100 60000)
           (mkReq (Some "::1"%string) None "/api") 7000).
Proof.
  apply (rate_limit_cleanup_transparent None None
           (mk [("::1:/api"%string, mkEntry 100 5000)] 100 60000)
           (mkReq (Some "::1"%string) None "/api") 6000 7000).
  - cbn. repeat constructor. intros [].
  - lia.
Defined.

End RateLimiterFacts.

(** ** More on the version routes *)

(** [GET /:articleId/versions] answers 404 for an article that does not
    exist; for one that does, it lists the versions of that article and no
    other, each once, the highest number first. The database is not
    written. *)
Theorem get_versions_lists_history (req : Versions.Request) (db : DB) :
  let a := Versions.articleId req in
  match find (fun x => Article.id x =? a) (rows (articles db)) with
  | None =>
      run (Versions.get_versions req) db
      = (db, inr (Versions.mkRes 404 (Versions.Message "Article not found")))
  | Some _ =>
      exists versions,
        run (Versions.get_versions req) db
        = (db, inr (Versions.mkRes 200 (Versions.VersionList versions)))
        /\ Permutation versions (versionsOf db a)
        /\ (forall v, In v versions <->
                      In v (rows (articleVersions db))
                      /\ ArticleVersion.articleId v = a)
        /\ StronglySorted
             (fun x y => ArticleVersion.versionNumber y
                         <= ArticleVersion.versionNumber x) versions
  end.
Proof.
  intros a. unfold Versions.get_versions. rewrite run_try_catch.
  storage_call. fold a.
  destruct (find _ (rows (articles db))); [|reflexivity].
  storage_call.
  change (filter _ (rows (articleVersions db))) with (versionsOf db a).
  eexists. split; [reflexivity|].
  split; [apply orderBy_perm|]. split; [|apply orderBy_desc_sorted].
  intros v. split.
  - intros Hin. apply (Permutation_in _ (orderBy_perm _ _)) in Hin.
    apply filter_In in Hin. destruct Hin as [Hin Ha].
    split; [exact Hin|apply Z.eqb_eq; exact Ha].
  - intros [Hin Ha].
    apply (Permutation_in _ (Permutation_sym (orderBy_perm _ _))).
    apply filter_In. split; [exact Hin|apply Z.eqb_eq; exact Ha].
Qed.

(** [POST /:articleId/versions] refuses without writing: 404 when the
    article does not exist (whatever the body), 400 when the article
    exists and the body does not pass the schema. *)
Theorem post_versions_refusals (now : Z) (req : Versions.Request) (db : DB) :
  let a := Versions.articleId req in
  (find (fun x => Article.id x =? a) (rows (articles db)) = None ->
   run (Versions.post_versions now req) db
   = (db, inr (Versions.mkRes 404 (Versions.Message "Article not found"))))
  /\ (find (fun x => Article.id x =? a) (rows (articles db)) <> None ->
      body_valid (Versions.body req) = false ->
      run (Versions.post_versions now req) db
      = (db, inr (Versions.mkRes 400
                    (Versions.Invalid "Invalid version data")))).
Proof.
  intros a. split.
  - intros Hnone. unfold Versions.post_versions. rewrite run_try_catch.
    storage_call. fold a. rewrite Hnone. reflexivity.
  - intros Hsome Hbad. unfold Versions.post_versions. rewrite run_try_catch.
    storage_call. fold a.
    destruct (find _ (rows (articles db))); [|congruence].
    storage_call.
    unfold body_valid, Versions.parse in *.
    destruct (Versions.body_title (Versions.body req)),
      (Versions.body_content (Versions.body req)); try reflexivity.
    destruct (Versions.body_description (Versions.body req));
      try reflexivity; discriminate.
Qed.

Lemma post_versions_refusals_witness :
  run (Versions.post_versions 50 (Sample.request 9 0)) Sample.versionedDB
  = (Sample.versionedDB,
     inr (Versions.mkRes 404 (Versions.Message "Article not found")))
  /\ run (Versions.post_versions 50
            (Versions.mkReq 1 0
               (Versions.mkBody (JS.Str "t") JS.Undefined (JS.Num 3)) None))
         Sample.versionedDB
     = (Sample.versionedDB,
        inr (Versions.mkRes 400 (Versions.Invalid "Invalid version data"))).
Proof.
  split.
  - apply (proj1 (post_versions_refusals 50 (Sample.request 9 0)
                    Sample.versionedDB)). reflexivity.
  - apply (proj2 (post_versions_refusals 50
                    (Versions.mkReq 1 0
                       (Versions.mkBody (JS.Str "t") JS.Undefined (JS.Num 3))
                       None)
                    Sample.versionedDB)); [discriminate|reflexivity].
Defined.

(** The version history only grows at its end: whatever version creations
    and restores run, one after the other, the rows that were there stay,
    unchanged and in place, so a version once fetched by its id is fetched
    the same ever after. *)
Theorem version_history_append_only (ops : list VersionOp) (db : DB) :
  (exists added,
     rows (articleVersions (apply_ops ops db))
     = rows (articleVersions db) ++ added)
  /\ (forall (id : Z) (v : ArticleVersion.t),
        find (fun x => ArticleVersion.id x =? id) (rows (articleVersions db))
        = Some v ->
        find (fun x => ArticleVersion.id x =? id)
             (rows (articleVersions (apply_ops ops db))) = Some v).
Proof.
  assert (exists added,
            rows (articleVersions (apply_ops ops db))
            = rows (articleVersions db) ++ added) as Hgrow.
  { unfold apply_ops. revert db.
    induction ops as [|op ops IH]; intros db; simpl.
    - exists []. rewrite app_nil_r. reflexivity.
    - destruct (IH (fst (run (version_call op) db))) as [added Hadd].
      destruct (version_call_effect op db) as [Hsame|(v & Hrows & _)].
      + exists added. rewrite Hadd, Hsame. reflexivity.
      + exists (v :: added). rewrite Hadd, Hrows, <- app_assoc. reflexivity. }
  split; [exact Hgrow|].
  intros id v Hfind. destruct Hgrow as [added ->].
  apply find_app_some. exact Hfind.
Qed.

Lemma version_history_append_only_witness :
  find (fun x => ArticleVersion.id x =? 1)
       (rows (articleVersions
                (apply_ops [CreateVersion 50 (Sample.request 1 0);
                            RestoreVersion 60 (Sample.request 1 1)]
                           Sample.versionedDB)))
  = Some (Sample.version 1 1 1 "one").
Proof.
  apply (proj2 (version_history_append_only
                  [CreateVersion 50 (Sample.request 1 0);
                   RestoreVersion 60 (Sample.request 1 1)]
                  Sample.versionedDB)).
  reflexivity.
Defined.

Lemma orderBy_desc_snoc_max {A} (key : A -> Z) (l : list A) (v : A) :
  (forall x, In x l -> key x < key v) ->
  orderBy (desc key) (l ++ [v]) = v :: orderBy (desc key) l.
Proof.
  induction l as [|x l IH]; intros Hlt; [reflexivity|].
  cbn [app orderBy fold_right].
  change (fold_right (insert_by (desc key)) [] (l ++ [v]))
    with (orderBy (desc key) (l ++ [v])).
  rewrite IH by (intros y Hy; apply Hlt; right; exact Hy).
  cbn [insert_by]. unfold desc at 1.
  specialize (Hlt x (or_introl eq_refl)).
  destruct (Z.leb_spec (key v) (key x)); [lia|reflexivity].
Qed.

Lemma version_numbers_below_next (db : DB) (a : Z) (x : ArticleVersion.t) :
  In x (versionsOf db a) ->
  ArticleVersion.versionNumber x < nextVersionNumber db a.
Proof.
  intros Hx. unfold nextVersionNumber.
  pose proof (highest_spec
                (map ArticleVersion.versionNumber (versionsOf db a))) as Hh.
  apply (in_map ArticleVersion.versionNumber) in Hx.
  destruct (highest _) as [h|].
  - destruct Hh as [_ Hmax]. specialize (Hmax _ Hx). lia.
  - rewrite Hh in Hx. contradiction.
Qed.

(** What a successful [POST /:articleId/versions] leaves behind. *)
Lemma post_versions_run
      (now : Z) (req : Versions.Request) (db : DB) (art : Article.t) :
  let a := Versions.articleId req in
  find (fun x => Article.id x =? a) (rows (articles db)) = Some art ->
  body_valid (Versions.body req) = true ->
  exists title description content,
    let v := ArticleVersion.mk (nextId (articleVersions db)) a title
               description content (nextVersionNumber db a)
               (Versions.user req) now in
    run (Versions.post_versions now req) db
    = (set_articleVersions db
         (mkTable (rows (articleVersions db) ++ [v])
                  (nextId (articleVersions db) + 1)),
       inr (Versions.mkRes 201 (Versions.Version v))).
Proof.
  intros a Hart Hbody.
  unfold Versions.post_versions. rewrite run_try_catch.
  storage_call. fold a. rewrite Hart.
  storage_call.
  change (filter _ (rows (articleVersions db))) with (versionsOf db a).
  rewrite latestVersion_next.
  destruct (parse_valid (Versions.body req) a (nextVersionNumber db a)
              (Versions.user req) Hbody)
    as (vd & -> & Ha & Hn & Hu).
  storage_call. rewrite Ha.
  unfold article_exists. rewrite (find_existsb _ _ _ Hart).
  cbn. rewrite ?Ha, ?Hn, ?Hu. eexists _, _, _. reflexivity.
Qed.

(** Create, then fetch. On a version table whose ids are below the next
    serial id, the version a successful [POST /:articleId/versions]
    answers with is what [GET /:articleId/versions/:versionId] then returns
    for its id, and it heads the list of [GET /:articleId/versions]. *)
Theorem post_versions_then_fetch
        (now : Z) (req : Versions.Request) (db : DB) (art : Article.t) :
  let a := Versions.articleId req in
  find (fun x => Article.id x =? a) (rows (articles db)) = Some art ->
  body_valid (Versions.body req) = true ->
  (forall x, In x (rows (articleVersions db)) ->
             ArticleVersion.id x < nextId (articleVersions db)) ->
  exists db' v,
    run (Versions.post_versions now req) db
    = (db', inr (Versions.mkRes 201 (Versions.Version v)))
    /\ run (Versions.get_version
              (Versions.mkReq a (ArticleVersion.id v) (Versions.body req)
                              (Versions.user req))) db'
       = (db', inr (Versions.mkRes 200 (Versions.Version v)))
    /\ run (Versions.get_versions req) db'
       = (db', inr (Versions.mkRes 200
                      (Versions.VersionList
                         (v :: orderBy (desc ArticleVersion.versionNumber)
                                       (versionsOf db a))))).
Proof.
  intros a Hart Hbody Hids.
  destruct (post_versions_run now req db art Hart Hbody)
    as (title & description & content & Hrun). cbv zeta in Hrun.
  fold a in Hrun. rewrite Hrun.
  eexists _, _. split; [reflexivity|]. split.
  - unfold Versions.get_version. rewrite run_try_catch.
    storage_call. cbn [Versions.articleId articles set_articleVersions].
    rewrite Hart. storage_call.
    cbn [Versions.versionId ArticleVersion.id articleVersions
         set_articleVersions rows].
    rewrite find_snoc.
    + cbn [ArticleVersion.id ArticleVersion.articleId].
      rewrite !Z.eqb_refl. reflexivity.
    + destruct (find _ (rows (articleVersions db))) as [x|] eqn:Ex;
        [|reflexivity].
      apply find_some in Ex. destruct Ex as [Hin Heq].
      apply Z.eqb_eq in Heq. specialize (Hids x Hin). lia.
  - unfold Versions.get_versions. rewrite run_try_catch.
    storage_call. cbn [articles set_articleVersions]. fold a. rewrite Hart.
    storage_call.
    cbn [articleVersions set_articleVersions rows].
    rewrite filter_app. cbn [filter ArticleVersion.articleId].
    rewrite Z.eqb_refl.
    change (filter _ (rows (articleVersions db))) with (versionsOf db a).
    rewrite orderBy_desc_snoc_max; [reflexivity|].
    intros x Hx. cbn [ArticleVersion.versionNumber].
    apply version_numbers_below_next. exact Hx.
Qed.

Lemma post_versions_then_fetch_witness :
  exists v,
    snd (run (Versions.post_versions 50 (Sample.request 1 0))
             Sample.versionedDB)
    = inr (Versions.mkRes 201 (Versions.Version v))
    /\ snd (run (Versions.get_version
                   (Versions.mkReq 1 (ArticleVersion.id v)
                                   Sample.versionBody (Some 7)))
                (fst (run (Versions.post_versions 50 (Sample.request 1 0))
                          Sample.versionedDB)))
       = inr (Versions.mkRes 200 (Versions.Version v)).
Proof.
  destruct (post_versions_then_fetch 50 (Sample.request 1 0)
              Sample.versionedDB (Sample.article 1 "A" "published" 0)
              eq_refl eq_refl) as (db' & v & Hrun & Hget & _).
  - intros x Hx. cbn in Hx. destruct Hx as [<-|[<-|[]]]; cbn; lia.
  - exists v. rewrite Hrun. cbn [fst snd].
    cbn [Versions.articleId Sample.request Versions.body Versions.user] in Hget.
    rewrite Hget. split; reflexivity.
Defined.

Lemma find_update_rows {A} (p : A -> bool) (f : A -> A) (t : Table A) (s : A) :
  (forall r, p (f r) = p r) ->
  find p (rows t) = Some s ->
  find p (rows (update_rows p f t)) = Some (f s).
Proof.
  intros Hp Hs. unfold update_rows. cbn [rows].
  apply find_map_update; [exact Hp|exact Hs|].
  apply find_some in Hs. apply Hs.
Qed.

(** What a restore that goes through leaves behind. *)
Lemma post_restore_run
      (now : Z) (req : Versions.Request) (db : DB)
      (art : Article.t) (target : ArticleVersion.t) :
  let a := Versions.articleId req in
  let restored x :=
    Article.mk (Article.id x) (ArticleVersion.title target) (Article.slug x)
               (ArticleVersion.description target)
               (ArticleVersion.content target)
               (Article.topicId x) (Article.authorId x) (Article.status x)
               (Article.publishedAt x) (Article.createdAt x) now in
  let new :=
    ArticleVersion.mk (nextId (articleVersions db)) a
                      (ArticleVersion.title target)
                      (ArticleVersion.description target)
                      (ArticleVersion.content target)
                      (nextVersionNumber db a) (Versions.user req) now in
  find (fun x => Article.id x =? a) (rows (articles db)) = Some art ->
  find (fun v => ArticleVersion.id v =? Versions.versionId req)
       (rows (articleVersions db)) = Some target ->
  ArticleVersion.articleId target = a ->
  run (Versions.post_restore now req) db
  = (set_articleVersions
       (set_articles db
          (update_rows (fun x => Article.id x =? a) restored (articles db)))
       (mkTable (rows (articleVersions db) ++ [new])
                (nextId (articleVersions db) + 1)),
     inr (Versions.mkRes 200
            (Versions.Restored (Some (restored art))
                               (ArticleVersion.versionNumber target)))).
Proof.
  intros a restored new Hart Htarget Hown.
  assert ((ArticleVersion.articleId target =? a) = true) as Hb
    by (apply Z.eqb_eq; exact Hown).
  unfold Versions.post_restore. rewrite run_try_catch.
  storage_call. fold a. rewrite Hart. storage_call. rewrite Htarget, Hb.
  cbn [negb]. storage_call. storage_call.
  change (filter _ (rows (articleVersions (set_articles db _))))
    with (versionsOf db a).
  rewrite latestVersion_next.
  storage_call. cbn [InsertArticleVersion.articleId].
  unfold article_exists. cbn [articles set_articles update_rows rows].
  rewrite existsb_map_stable
    by (intros r; destruct (Article.id r =? a) eqn:E; cbn; rewrite ?E;
        reflexivity).
  rewrite (find_existsb _ _ _ Hart). cbn [insert_row].
  cbn.
  pose proof (find_map_update (fun x => Article.id x =? a)
                (fun x => Article.id x =? a) restored
                (rows (articles db)) (s := art) (fun _ => eq_refl) Hart
                (proj2 (find_some _ _ Hart))) as Hfound.
  unfold restored in Hfound. cbn beta in Hfound. rewrite Hfound.
  reflexivity.
Qed.

(** After a restore that goes through, the live article and the newest
    version of its history say the same: the first version that
    [getArticleVersions] returns carries the title, description and
    content the article now has. *)
Theorem restore_article_matches_latest
        (now : Z) (req : Versions.Request) (db : DB)
        (art : Article.t) (target : ArticleVersion.t) :
  let a := Versions.articleId req in
  let db' := fst (run (Versions.post_restore now req) db) in
  find (fun x => Article.id x =? a) (rows (articles db)) = Some art ->
  find (fun v => ArticleVersion.id v =? Versions.versionId req)
       (rows (articleVersions db)) = Some target ->
  ArticleVersion.articleId target = a ->
  exists live latest older,
    run (Storage.getArticle a) db' = (db', inr (Some live))
    /\ run (Storage.getArticleVersions a) db' = (db', inr (latest :: older))
    /\ Article.title live = ArticleVersion.title latest
    /\ Article.description live = ArticleVersion.description latest
    /\ Article.content live = ArticleVersion.content latest
    /\ Permutation older (versionsOf db a).
Proof.
  intros a db' Hart Htarget Hown. subst db'.
  rewrite (post_restore_run now req db art target Hart Htarget Hown).
  fold a. cbn [fst].
  eexists _, _, _. split; [|split].
  - unfold Storage.getArticle. unfold await. cbn [run].
    cbn [articles set_articleVersions set_articles].
    erewrite find_update_rows; [reflexivity| |exact Hart].
    intros r. reflexivity.
  - unfold Storage.getArticleVersions. unfold await. cbn [run].
    cbn [articleVersions set_articleVersions rows].
    rewrite filter_app. cbn [filter ArticleVersion.articleId].
    rewrite Z.eqb_refl.
    change (filter _ (rows (articleVersions db))) with (versionsOf db a).
    rewrite orderBy_desc_snoc_max; [reflexivity|].
    intros x Hx. cbn [ArticleVersion.versionNumber].
    apply version_numbers_below_next. exact Hx.
  - cbn. repeat split. apply orderBy_perm.
Qed.

Lemma restore_article_matches_latest_witness :
  exists live latest older,
    run (Storage.getArticle 1)
        (fst (run (Versions.post_restore 50 (Sample.request 1 1))
                  Sample.versionedDB))
    = (fst (run (Versions.post_restore 50 (Sample.request 1 1))
                Sample.versionedDB), inr (Some live))
    /\ run (Storage.getArticleVersions 1)
           (fst (run (Versions.post_restore 50 (Sample.request 1 1))
                     Sample.versionedDB))
       = (fst (run (Versions.post_restore 50 (Sample.request 1 1))
                   Sample.versionedDB), inr (latest :: older))
    /\ Article.content live = ArticleVersion.content latest.
Proof.
  destruct (restore_article_matches_latest 50 (Sample.request 1 1)
              Sample.versionedDB (Sample.article 1 "A" "published" 0)
              (Sample.version 1 1 1 "one") eq_refl eq_refl eq_refl)
    as (live & latest & older & H1 & H2 & _ & _ & H3 & _).
  exists live, latest, older. split; [exact H1|]. split; [exact H2|exact H3].
Defined.

(** What any restore can change. *)
Lemma post_restore_effect (now : Z) (req : Versions.Request) (db : DB) :
  let db' := fst (run (Versions.post_restore now req) db) in
  db' = db
  \/ exists title description content versions,
       db' = set_articleVersions
               (set_articles db
                  (update_rows
                     (fun x => Article.id x =? Versions.articleId req)
                     (fun x =>
                        Article.mk (Article.id x) title (Article.slug x)
                          description content
                          (Article.topicId x) (Article.authorId x)
                          (Article.status x) (Article.publishedAt x)
                          (Article.createdAt x) now)
                     (articles db)))
               versions.
Proof.
  unfold Versions.post_restore. rewrite run_try_catch. storage_call.
  destruct (find _ (rows (articles db))); [|left; reflexivity].
  storage_call.
  destruct (find _ (rows (articleVersions db))) as [target|];
    [|left; reflexivity].
  destruct (negb _); [left; reflexivity|].
  storage_call. storage_call. storage_call.
  right. exists (ArticleVersion.title target),
    (ArticleVersion.description target), (ArticleVersion.content target).
  destruct (article_exists _ _); cbn; eexists; reflexivity.
Qed.

(** A restore writes the title, the description, the content and
    [updatedAt] of the articles with the given id, and the version table;
    nothing else: the other tables are as they were, no article is added
    or removed, every article keeps its id, slug, topic, author, status and
    dates of publication and creation, and an article with another id is
    left as it is. *)
Theorem post_restore_frame (now : Z) (req : Versions.Request) (db : DB) :
  let db' := fst (run (Versions.post_restore now req) db) in
  let kept x :=
    (Article.id x, Article.slug x, Article.topicId x, Article.authorId x,
     Article.status x, Article.publishedAt x, Article.createdAt x) in
  topics db' = topics db
  /\ references db' = references db
  /\ articleViews db' = articleViews db
  /\ articleBounces db' = articleBounces db
  /\ socialShares db' = socialShares db
  /\ dailyArticleStats db' = dailyArticleStats db
  /\ nextId (articles db') = nextId (articles db)
  /\ map kept (rows (articles db')) = map kept (rows (articles db))
  /\ (forall x, In x (rows (articles db)) ->
                Article.id x <> Versions.articleId req ->
                In x (rows (articles db'))).
Proof.
  intros db' kept.
  destruct (post_restore_effect now req db)
    as [Hsame|(title & description & content & versions & Heff)];
    fold db' in Hsame || fold db' in Heff.
  - rewrite Hsame. repeat split. intros x Hx _. exact Hx.
  - rewrite Heff. cbn. repeat split.
    + rewrite map_map. apply map_ext. intros x.
      destruct (Article.id x =? Versions.articleId req); reflexivity.
    + intros x Hx Hne. apply in_map_iff. exists x. split; [|exact Hx].
      destruct (Z.eqb_spec (Article.id x) (Versions.articleId req));
        [contradiction|reflexivity].
Qed.

Lemma post_restore_frame_witness :
  In (Sample.article 2 "B" "draft" 0)
     (rows (articles (fst (run (Versions.post_restore 50 (Sample.request 1 1))
                               Sample.versionedDB)))).
Proof.
  apply (proj2 (proj2 (proj2 (proj2 (proj2 (proj2 (proj2 (proj2
           (post_restore_frame 50 (Sample.request 1 1) Sample.versionedDB)
         )))))))).
  - right. left. reflexivity.
  - cbn. discriminate.
Defined.

(** ** The daily aggregate and the logs *)

Lemma count_snoc {A} (p : A -> bool) (l : list A) (x : A) :
  Z.of_nat (List.length (filter p (l ++ [x])))
  = Z.of_nat (List.length (filter p l)) + (if p x then 1 else 0).
Proof.
  rewrite filter_app, length_app. cbn [filter].
  destruct (p x); cbn [List.length]; lia.
Qed.

Lemma NoDup_map_injective {A B} (f : A -> B) (l : list A) (x y : A) :
  NoDup (map f l) -> In x l -> In y l -> f x = f y -> x = y.
Proof.
  induction l as [|a l IH]; simpl; intros Hnd Hx Hy Hf; [contradiction|].
  inversion Hnd as [|? ? Hna Hl]; subst.
  destruct Hx as [->|Hx], Hy as [->|Hy].
  - reflexivity.
  - exfalso. apply Hna. rewrite Hf. apply in_map. exact Hy.
  - exfalso. apply Hna. rewrite <- Hf. apply in_map. exact Hx.
  - apply IH; assumption.
Qed.

Lemma statsFor_find (db : DB) (a d : Z) :
  Storage.find_stat a d db = hd_error (statsFor db a d).
Proof. apply find_hd_filter. Qed.

(** Logging and counting one event keeps the daily rows in agreement with
    the logs. *)
Lemma recorded_consistent (u : Z * Z * Z) (a0 d0 : Z) (db db' : DB) :
  aggregate_consistent db ->
  recorded u a0 d0 db db' ->
  aggregate_consistent db'.
Proof.
  intros (Hnd & Hids & Hkeys) (Hlog & Hstat).
  pose proof (Hkeys a0 d0) as H0.
  rewrite statsFor_find in Hstat.
  destruct (statsFor db a0 d0) as [|s0 [|s1 rest]] eqn:E0; [| |contradiction];
    cbn [hd_error] in Hstat.
  - destruct Hstat as (r & Hrows & Hnext & Hid & Ha & Hd & Hu).
    split; [|split].
    + rewrite Hrows, map_app. cbn [map].
      apply NoDup_app; [exact Hnd|constructor; [intros []|constructor]|].
      intros x Hx [<-|[]].
      apply in_map_iff in Hx. destruct Hx as (s & Hs & Hin).
      specialize (Hids s Hin). lia.
    + intros s Hs. rewrite Hrows in Hs. rewrite Hnext.
      apply in_app_or in Hs. destruct Hs as [Hs|[<-|[]]].
      * specialize (Hids s Hs). lia.
      * lia.
    + intros a d. rewrite Hlog. unfold statsFor in *. rewrite Hrows, filter_app.
      cbn [filter]. rewrite Ha, Hd, (Z.eqb_sym a0 a), (Z.eqb_sym d0 d).
      destruct ((a =? a0) && (d =? d0)) eqn:Ek.
      * apply andb_prop in Ek. destruct Ek as [Ea Ed].
        apply Z.eqb_eq in Ea, Ed. subst a d.
        rewrite E0. cbn [app]. rewrite H0, Hu.
        unfold add3. destruct u as [[? ?] ?]. reflexivity.
      * rewrite app_nil_r. specialize (Hkeys a d).
        destruct (filter _ (rows (dailyArticleStats db))) as [|s [|? ?]];
          [| |contradiction];
          rewrite Hkeys; unfold add3;
          destruct (logged db a d) as [[? ?] ?]; cbn; f_equal; [f_equal|..]; lia.
  - destruct Hstat as (Hnext & upd & Hrows & Hupd & Hu).
    assert (In s0 (rows (dailyArticleStats db))
            /\ DailyArticleStat.articleId s0 = a0
            /\ DailyArticleStat.date s0 = d0) as (Hin0 & Ha0 & Hd0).
    { assert (In s0 (statsFor db a0 d0)) as Hin by (rewrite E0; left; reflexivity).
      apply filter_In in Hin. destruct Hin as [Hin Hk].
      apply andb_prop in Hk. destruct Hk as [Ha Hd].
      apply Z.eqb_eq in Ha, Hd. auto. }
    split; [|split].
    + rewrite Hrows, map_map.
      erewrite map_ext; [exact Hnd|].
      intros r. cbn beta.
      destruct (DailyArticleStat.id r =? DailyArticleStat.id s0);
        [apply Hupd|reflexivity].
    + intros s Hs. rewrite Hrows in Hs. rewrite Hnext.
      apply in_map_iff in Hs. destruct Hs as (r & <- & Hr).
      specialize (Hids r Hr).
      destruct (DailyArticleStat.id r =? DailyArticleStat.id s0);
        [rewrite (proj1 (Hupd r))|]; exact Hids.
    + intros a d. rewrite Hlog. unfold statsFor in *. rewrite Hrows.
      rewrite filter_map_stable.
      2: { intros r.
           destruct (DailyArticleStat.id r =? DailyArticleStat.id s0);
             [|reflexivity].
           destruct (Hupd r) as (_ & -> & ->). reflexivity. }
      destruct ((a =? a0) && (d =? d0)) eqn:Ek.
      * apply andb_prop in Ek. destruct Ek as [Ea Ed].
        apply Z.eqb_eq in Ea, Ed. subst a d.
        rewrite E0. cbn [map]. rewrite Z.eqb_refl, Hu, H0. reflexivity.
      * specialize (Hkeys a d).
        destruct (filter _ (rows (dailyArticleStats db))) as [|s [|? ?]] eqn:Ef;
          [| |contradiction]; cbn [map].
        -- rewrite Hkeys. reflexivity.
        -- assert (In s (rows (dailyArticleStats db))
                   /\ ((DailyArticleStat.articleId s =? a)
                       && (DailyArticleStat.date s =? d)) = true) as [Hin Hk].
           { pose proof (in_eq s []) as Hf. rewrite <- Ef in Hf.
             apply filter_In in Hf. exact Hf. }
           destruct (Z.eqb_spec (DailyArticleStat.id s) (DailyArticleStat.id s0))
             as [Heq|Hne].
           ++ exfalso.
              assert (s = s0) as -> by
               (apply (NoDup_map_injective DailyArticleStat.id
                         (rows (dailyArticleStats db))); assumption).
              rewrite Ha0, Hd0, (Z.eqb_sym a0 a), (Z.eqb_sym d0 d) in Hk.
              congruence.
           ++ rewrite Hkeys. unfold add3.
              destruct (logged db a d) as [[? ?] ?]; cbn; f_equal; [f_equal|..]; lia.
Qed.

Ltac logged_step Hday :=
  let a := fresh "a" in
  let d := fresh "d" in
  intros a d; unfold logged;
  cbn [articleViews socialShares articleBounces set_articleViews
       set_socialShares set_articleBounces set_dailyArticleStats rows];
  rewrite count_snoc;
  cbn [ArticleView.articleId ArticleView.viewedAt SocialShare.articleId
       SocialShare.sharedAt ArticleBounce.articleId ArticleBounce.bouncedAt];
  rewrite Hday;
  match goal with
  | |- context [(?a0 =? a) && (?d0 =? d)] =>
      rewrite (Z.eqb_sym a0 a), (Z.eqb_sym d0 d);
      destruct ((a =? a0) && (d =? d0))
  end;
  unfold add3; cbn [fst snd]; rewrite ?Z.add_0_r; reflexivity.

(** A call for an article that does not exist stops at the insert of the
    log row, which draws a serial id and writes nothing. *)
Lemma recordArticleView_unknown
      (clock : Clock) (v : InsertArticleView.t) (db : DB) :
  article_exists db (InsertArticleView.articleId v) = false ->
  run (Storage.recordArticleView clock v) db
  = (set_articleViews db (skip_id (articleViews db)), inl ForeignKeyViolation).
Proof.
  intros H. unfold Storage.recordArticleView. rewrite run_await, H. reflexivity.
Qed.

Lemma recordArticleBounce_unknown
      (clock : Clock) (b : InsertArticleBounce.t) (db : DB) :
  article_exists db (InsertArticleBounce.articleId b) = false ->
  run (Storage.recordArticleBounce clock b) db
  = (set_articleBounces db (skip_id (articleBounces db)),
     inl ForeignKeyViolation).
Proof.
  intros H. unfold Storage.recordArticleBounce. rewrite run_await, H.
  reflexivity.
Qed.

Lemma recordSocialShare_unknown
      (clock : Clock) (s : InsertSocialShare.t) (db : DB) :
  article_exists db (InsertSocialShare.articleId s) = false ->
  run (Storage.recordSocialShare clock s) db
  = (set_socialShares db (skip_id (socialShares db)), inl ForeignKeyViolation).
Proof.
  intros H. unfold Storage.recordSocialShare. rewrite run_await, H. reflexivity.
Qed.

Lemma recordArticleView_recorded
      (clock : Clock) (v : InsertArticleView.t) (db : DB) :
  article_exists db (InsertArticleView.articleId v) = true ->
  one_day clock ->
  recorded (1, 0, 0) (InsertArticleView.articleId v)
           (Storage.startOfDay (atToday clock))
           db (fst (run (Storage.recordArticleView clock v) db)).
Proof.
  intros Hex Hday. unfold Storage.recordArticleView. rewrite run_await, Hex.
  cbn [insert_row]. rewrite run_await.
  change (Storage.find_stat ?a ?d (set_articleViews db _))
    with (Storage.find_stat a d db).
  unfold recorded.
  destruct (Storage.find_stat _ _ db) as [s0|] eqn:Hs; rewrite run_await.
  - cbn [Storage.update_stat run fst]. split; [logged_step Hday|].
    split; [reflexivity|].
    eexists. split; [reflexivity|]. split; [intros r; repeat split|].
    unfold counters, add3. cbn. rewrite ?Z.add_0_r. reflexivity.
  - unfold Storage.insert_stat.
    change (article_exists (set_articleViews db _) ?a)
      with (article_exists db a).
    rewrite Hex. cbn [insert_row run fst]. split; [logged_step Hday|].
    eexists. repeat split.
Qed.

Lemma recordSocialShare_recorded
      (clock : Clock) (s : InsertSocialShare.t) (db : DB) :
  article_exists db (InsertSocialShare.articleId s) = true ->
  one_day clock ->
  recorded (0, 1, 0) (InsertSocialShare.articleId s)
           (Storage.startOfDay (atToday clock))
           db (fst (run (Storage.recordSocialShare clock s) db)).
Proof.
  intros Hex Hday. unfold Storage.recordSocialShare. rewrite run_await, Hex.
  cbn [insert_row]. rewrite run_await.
  change (Storage.find_stat ?a ?d (set_socialShares db _))
    with (Storage.find_stat a d db).
  unfold recorded.
  destruct (Storage.find_stat _ _ db) as [s0|] eqn:Hs; rewrite run_await.
  - cbn [Storage.update_stat run fst]. split; [logged_step Hday|].
    split; [reflexivity|].
    eexists. split; [reflexivity|]. split; [intros r; repeat split|].
    unfold counters, add3. cbn. rewrite ?Z.add_0_r. reflexivity.
  - unfold Storage.insert_stat.
    change (article_exists (set_socialShares db _) ?a)
      with (article_exists db a).
    rewrite Hex. cbn [insert_row run fst]. split; [logged_step Hday|].
    eexists. repeat split.
Qed.

Lemma recordArticleBounce_recorded
      (clock : Clock) (b : InsertArticleBounce.t) (db : DB) :
  article_exists db (InsertArticleBounce.articleId b) = true ->
  one_day clock ->
  (forall s0,
     Storage.find_stat (InsertArticleBounce.articleId b)
                       (Storage.startOfDay (atToday clock)) db = Some s0 ->
     DailyArticleStat.bounces s0 + 1 <> 0) ->
  recorded (0, 0, 1) (InsertArticleBounce.articleId b)
           (Storage.startOfDay (atToday clock))
           db (fst (run (Storage.recordArticleBounce clock b) db)).
Proof.
  intros Hex Hday Hnz.
  unfold Storage.recordArticleBounce. rewrite run_await, Hex.
  cbn [insert_row]. rewrite run_await.
  change (Storage.find_stat ?a ?d (set_articleBounces db _))
    with (Storage.find_stat a d db).
  unfold recorded.
  destruct (Storage.find_stat _ _ db) as [s0|] eqn:Hs.
  - specialize (Hnz s0 eq_refl).
    assert (exists avg,
      (if JS.truthy (InsertArticleBounce.timeOnPage b)
       then Storage.round_div
              (DailyArticleStat.averageTimeOnPage s0
               * DailyArticleStat.bounces s0
               + JS.or_num (InsertArticleBounce.timeOnPage b) 0)
              (DailyArticleStat.bounces s0 + 1)
       else Some (DailyArticleStat.averageTimeOnPage s0)) = Some avg)
      as (avg & ->).
    { destruct (JS.truthy _); [|eauto].
      rewrite round_div_defined by exact Hnz. eauto. }
    rewrite run_await. cbn [Storage.update_stat run fst].
    split; [logged_step Hday|]. split; [reflexivity|].
    eexists. split; [reflexivity|]. split; [intros r; repeat split|].
    unfold counters, add3. cbn. rewrite ?Z.add_0_r. reflexivity.
  - rewrite run_await. unfold Storage.insert_stat.
    change (article_exists (set_articleBounces db _) ?a)
      with (article_exists db a).
    rewrite Hex. cbn [insert_row run fst]. split; [logged_step Hday|].
    eexists. repeat split.
Qed.

Lemma round_between (lo hi : Z) (x : Q) :
  (inject_Z lo <= x)%Q -> (x <= inject_Z hi)%Q ->
  lo <= JS.Math_round x <= hi.
Proof.
  intros Hlo Hhi. unfold JS.Math_round. split.
  - rewrite <- (Qfloor_Z lo). apply Qfloor_resp_le.
    apply Qle_trans with x; [exact Hlo|].
    rewrite <- (Qplus_0_r x) at 1. apply Qplus_le_r. discriminate.
  - apply Z.le_trans with (Qfloor (inject_Z hi + (1 # 2))).
    + apply Qfloor_resp_le. apply Qplus_le_l. exact Hhi.
    + unfold Qfloor, Qplus, inject_Z. cbn.
      apply Z.lt_succ_r. apply Z.div_lt_upper_bound; lia.
Qed.

Lemma quotient_between (avg b n : Z) :
  0 <= b ->
  (inject_Z (Z.min avg n) <= inject_Z (avg * b + n) / inject_Z (b + 1))%Q
  /\ (inject_Z (avg * b + n) / inject_Z (b + 1) <= inject_Z (Z.max avg n))%Q.
Proof.
  intros Hb. destruct (b + 1) as [|p|p] eqn:Ep; try lia.
  unfold Qle, Qdiv, Qmult, Qinv, inject_Z. cbn.
  rewrite !Z.mul_1_r. split; nia.
Qed.

(** Drawing a serial id of a log leaves the agreement as it is. *)
Lemma consistent_same_rows (db db' : DB) :
  dailyArticleStats db' = dailyArticleStats db ->
  rows (articleViews db') = rows (articleViews db) ->
  rows (socialShares db') = rows (socialShares db) ->
  rows (articleBounces db') = rows (articleBounces db) ->
  aggregate_consistent db -> aggregate_consistent db'.
Proof.
  intros Hs Hv Hh Hb. unfold aggregate_consistent, statsFor, logged.
  rewrite Hs, Hv, Hh, Hb. exact (fun H => H).
Qed.

(** One recording call draws at most one id of each serial and adds at
    most one row to each log. *)
Lemma record_event_room (n : Z) (e : Event) (db : DB) :
  room (n + 1) db -> room n (record_event db e).
Proof.
  unfold room. intros (V & B & S & D & LV & LB & LS).
  destruct e as [clock v|clock b|clock s]; cbn [record_event].
  - unfold Storage.recordArticleView. rewrite run_await.
    destruct (article_exists db _) eqn:Hex; [|cbn; lia].
    cbn [insert_row]. rewrite run_await.
    destruct (Storage.find_stat _ _ _); rewrite run_await.
    + cbn. rewrite length_app. cbn. lia.
    + unfold Storage.insert_stat.
      change (article_exists (set_articleViews db _) ?a)
        with (article_exists db a).
      rewrite Hex. cbn. rewrite length_app. cbn. lia.
  - unfold Storage.recordArticleBounce. rewrite run_await.
    destruct (article_exists db _) eqn:Hex; [|cbn; lia].
    cbn [insert_row]. rewrite run_await.
    destruct (Storage.find_stat _ _ _).
    + destruct (if JS.truthy _ then _ else _); rewrite run_await;
        cbn; rewrite length_app; cbn; lia.
    + rewrite run_await. unfold Storage.insert_stat.
      change (article_exists (set_articleBounces db _) ?a)
        with (article_exists db a).
      rewrite Hex. cbn. rewrite length_app. cbn. lia.
  - unfold Storage.recordSocialShare. rewrite run_await.
    destruct (article_exists db _) eqn:Hex; [|cbn; lia].
    cbn [insert_row]. rewrite run_await.
    destruct (Storage.find_stat _ _ _); rewrite run_await.
    + cbn. rewrite length_app. cbn. lia.
    + unfold Storage.insert_stat.
      change (article_exists (set_socialShares db _) ?a)
        with (article_exists db a).
      rewrite Hex. cbn. rewrite length_app. cbn. lia.
Qed.

Lemma count_le_length {A} (p : A -> bool) (l : list A) :
  0 <= Z.of_nat (List.length (filter p l)) <= Z.of_nat (List.length l).
Proof.
  split; [lia|]. apply inj_le.
  induction l as [|a l IH]; simpl; [lia|].
  destruct (p a); simpl; lia.
Qed.

(** In a database whose daily rows agree with the logs, a counter is the
    size of a part of a log. *)
Lemma consistent_counters (db : DB) (s : DailyArticleStat.t) :
  aggregate_consistent db -> room 0 db ->
  In s (rows (dailyArticleStats db)) ->
  int4 (DailyArticleStat.views s) /\ int4 (DailyArticleStat.shares s)
  /\ int4 (DailyArticleStat.bounces s).
Proof.
  intros (_ & _ & Hkeys) (_ & _ & _ & _ & LV & LS & LB) Hin.
  specialize (Hkeys (DailyArticleStat.articleId s) (DailyArticleStat.date s)).
  assert (In s (statsFor db (DailyArticleStat.articleId s)
                        (DailyArticleStat.date s))) as Hs.
  { apply filter_In. split; [exact Hin|]. rewrite !Z.eqb_refl. reflexivity. }
  destruct (statsFor db _ _) as [|s1 [|? ?]]; [destruct Hs| |contradiction].
  destruct Hs as [->|[]].
  unfold counters, logged in Hkeys. injection Hkeys as Hv Hh Hb.
  rewrite Hv, Hh, Hb. unfold int4.
  pose proof (count_le_length
    (fun v => (ArticleView.articleId v =? DailyArticleStat.articleId s)
              && (Storage.startOfDay (ArticleView.viewedAt v)
                  =? DailyArticleStat.date s))
    (rows (articleViews db))).
  pose proof (count_le_length
    (fun v => (SocialShare.articleId v =? DailyArticleStat.articleId s)
              && (Storage.startOfDay (SocialShare.sharedAt v)
                  =? DailyArticleStat.date s))
    (rows (socialShares db))).
  pose proof (count_le_length
    (fun v => (ArticleBounce.articleId v =? DailyArticleStat.articleId s)
              && (Storage.startOfDay (ArticleBounce.bouncedAt v)
                  =? DailyArticleStat.date s))
    (rows (articleBounces db))).
  lia.
Qed.

Lemma in_updated {A} (p : A -> bool) (f : A -> A) (l : list A)
      (P : A -> Prop) :
  (forall r, In r l -> P r) ->
  (forall r, In r l -> p r = true -> P (f r)) ->
  forall s, In s (map (fun r => if p r then f r else r) l) -> P s.
Proof.
  intros Hold Hnew s Hs. apply in_map_iff in Hs.
  destruct Hs as (r & <- & Hr).
  destruct (p r) eqn:Ep; [apply Hnew; assumption|apply Hold; exact Hr].
Qed.

Lemma in_appended {A} (l : list A) (x : A) (P : A -> Prop) :
  (forall r, In r l -> P r) -> P x ->
  forall s, In s (l ++ [x]) -> P s.
Proof.
  intros Hold Hx s Hs. apply in_app_or in Hs.
  destruct Hs as [Hs|[<-|[]]]; [apply Hold; exact Hs|exact Hx].
Qed.

(** The averages stay in the range of an [integer]: a new average lies
    between the old one and the sample. *)
Lemma record_event_averages (e : Event) (db : DB) :
  aggregate_consistent db ->
  (forall s, In s (rows (dailyArticleStats db)) ->
             int4 (DailyArticleStat.averageTimeOnPage s)) ->
  sample_in_range e ->
  forall s, In s (rows (dailyArticleStats (record_event db e))) ->
            int4 (DailyArticleStat.averageTimeOnPage s).
Proof.
  intros Hc Havg Hsample.
  assert (int4 0) as H0 by (unfold int4; lia).
  destruct e as [clock v|clock b|clock sh];
    cbn [record_event sample_in_range] in *.
  - unfold Storage.recordArticleView. rewrite run_await.
    destruct (article_exists db _) eqn:Hex; [|exact Havg].
    cbn [insert_row]. rewrite run_await.
    destruct (Storage.find_stat _ _ _); rewrite run_await.
    + cbn. apply in_updated; [exact Havg|].
      intros r Hr _. cbn. apply Havg. exact Hr.
    + unfold Storage.insert_stat.
      change (article_exists (set_articleViews db _) ?a)
        with (article_exists db a).
      rewrite Hex. cbn. apply in_appended; [exact Havg|exact H0].
  - unfold Storage.recordArticleBounce. rewrite run_await.
    destruct (article_exists db _) eqn:Hex; [|exact Havg].
    cbn [insert_row]. rewrite run_await.
    change (Storage.find_stat ?a ?d (set_articleBounces db _))
      with (Storage.find_stat a d db).
    assert (int4 (JS.or_num (InsertArticleBounce.timeOnPage b) 0)) as Hs4.
    { destruct (InsertArticleBounce.timeOnPage b) as [n|]; [|exact H0].
      cbn. destruct (n =? 0); [exact H0|]. apply Hsample. reflexivity. }
    destruct (Storage.find_stat _ _ db) as [s0|] eqn:Hs0.
    + assert (In s0 (rows (dailyArticleStats db))) as Hin0
        by (apply find_some in Hs0; exact (proj1 Hs0)).
      assert (0 <= DailyArticleStat.bounces s0) as Hb0.
      { destruct Hc as (_ & _ & Hkeys).
        specialize (Hkeys (InsertArticleBounce.articleId b)
                          (Storage.startOfDay (atToday clock))).
        rewrite statsFor_find in Hs0.
        destruct (statsFor db _ _) as [|s [|? ?]];
          [discriminate| |contradiction].
        injection Hs0 as ->. unfold counters, logged in Hkeys.
        injection Hkeys as _ _ Hb. rewrite Hb. lia. }
      destruct (if JS.truthy _ then _ else _) as [avg|] eqn:Eavg;
        rewrite run_await; [|exact Havg].
      assert (int4 avg) as Havg'.
      { specialize (Havg s0 Hin0).
        destruct (JS.truthy _); [|injection Eavg as <-; exact Havg].
        rewrite round_div_defined in Eavg by lia. injection Eavg as <-.
        destruct (quotient_between (DailyArticleStat.averageTimeOnPage s0)
                    (DailyArticleStat.bounces s0)
                    (JS.or_num (InsertArticleBounce.timeOnPage b) 0) Hb0)
          as [Hlo Hhi].
        pose proof (round_between _ _ _ Hlo Hhi) as Hbetween.
        unfold int4 in *. lia. }
      cbn. apply in_updated; [exact Havg|].
      intros r Hr _. cbn. exact Havg'.
    + rewrite run_await. unfold Storage.insert_stat.
      change (article_exists (set_articleBounces db _) ?a)
        with (article_exists db a).
      rewrite Hex. cbn. apply in_appended; [exact Havg|exact Hs4].
  - unfold Storage.recordSocialShare. rewrite run_await.
    destruct (article_exists db _) eqn:Hex; [|exact Havg].
    cbn [insert_row]. rewrite run_await.
    destruct (Storage.find_stat _ _ _); rewrite run_await.
    + cbn. apply in_updated; [exact Havg|].
      intros r Hr _. cbn. apply Havg. exact Hr.
    + unfold Storage.insert_stat.
      change (article_exists (set_socialShares db _) ?a)
        with (article_exists db a).
      rewrite Hex. cbn. apply in_appended; [exact Havg|exact H0].
Qed.

Lemma record_event_consistent (e : Event) (db : DB) :
  aggregate_consistent db -> one_day (clock_of e) ->
  aggregate_consistent (record_event db e).
Proof.
  intros Hc Hday.
  destruct e as [clock v|clock b|clock s]; cbn [record_event clock_of] in *.
  - destruct (article_exists db (InsertArticleView.articleId v)) eqn:Hex.
    + exact (recorded_consistent _ _ _ _ _ Hc
               (recordArticleView_recorded clock v db Hex Hday)).
    + rewrite recordArticleView_unknown by exact Hex.
      revert Hc. apply consistent_same_rows; reflexivity.
  - destruct (article_exists db (InsertArticleBounce.articleId b)) eqn:Hex.
    + refine (recorded_consistent _ _ _ _ _ Hc
                (recordArticleBounce_recorded clock b db Hex Hday _)).
      intros s0 Hs0. destruct Hc as (_ & _ & Hkeys).
      specialize (Hkeys (InsertArticleBounce.articleId b)
                        (Storage.startOfDay (atToday clock))).
      rewrite statsFor_find in Hs0.
      destruct (statsFor db _ _) as [|s [|? ?]]; [discriminate| |contradiction].
      injection Hs0 as ->. unfold counters, logged in Hkeys.
      injection Hkeys as _ _ Hb. rewrite Hb. lia.
    + rewrite recordArticleBounce_unknown by exact Hex.
      revert Hc. apply consistent_same_rows; reflexivity.
  - destruct (article_exists db (InsertSocialShare.articleId s)) eqn:Hex.
    + exact (recorded_consistent _ _ _ _ _ Hc
               (recordSocialShare_recorded clock s db Hex Hday)).
    + rewrite recordSocialShare_unknown by exact Hex.
      revert Hc. apply consistent_same_rows; reflexivity.
Qed.

(** The daily rows stay in agreement with the three logs whatever views,
    bounces and shares are recorded, for any articles (existing or not) at
    any times, as long as each recording call completes before the next
    starts, the database stamps each log row on the day the server takes
    for [today], and the range of an [integer] holds the samples and has
    room for the events: every article-day keeps at most one row, the
    views, shares and bounces of that row are the numbers of log rows of
    that article and day, and no serial id, no counter and no average
    leaves the range. *)
Theorem aggregate_matches_log (es : list Event) (db : DB) :
  aggregate_consistent db ->
  (forall e, In e es -> one_day (clock_of e) /\ sample_in_range e) ->
  room (Z.of_nat (List.length es)) db ->
  (forall s, In s (rows (dailyArticleStats db)) ->
             int4 (DailyArticleStat.averageTimeOnPage s)) ->
  aggregate_consistent (record_events es db)
  /\ room 0 (record_events es db)
  /\ (forall s, In s (rows (dailyArticleStats (record_events es db))) ->
                int4 (DailyArticleStat.views s)
                /\ int4 (DailyArticleStat.shares s)
                /\ int4 (DailyArticleStat.bounces s)
                /\ int4 (DailyArticleStat.averageTimeOnPage s)).
Proof.
  intros Hc Hes Hroom Havg.
  assert (aggregate_consistent (record_events es db)
          /\ room 0 (record_events es db)
          /\ forall s, In s (rows (dailyArticleStats (record_events es db))) ->
                       int4 (DailyArticleStat.averageTimeOnPage s))
    as (Hc' & Hroom' & Havg').
  { unfold record_events. revert db Hc Hroom Havg.
    induction es as [|e es IH]; intros db Hc Hroom Havg;
      [split; [exact Hc|split; [exact Hroom|exact Havg]]|].
    destruct (Hes e (or_introl eq_refl)) as [Hday Hsample].
    cbn [fold_left]. apply IH.
    - intros e' He'. apply Hes. right. exact He'.
    - apply record_event_consistent; assumption.
    - apply record_event_room.
      replace (Z.of_nat (List.length es) + 1)
        with (Z.of_nat (List.length (e :: es)))
        by (cbn [List.length]; lia).
      exact Hroom.
    - apply record_event_averages; assumption. }
  split; [exact Hc'|]. split; [exact Hroom'|].
  intros s Hs.
  destruct (consistent_counters _ s Hc' Hroom' Hs) as (Hv & Hh & Hb).
  split; [exact Hv|]. split; [exact Hh|]. split; [exact Hb|].
  exact (Havg' s Hs).
Qed.

Lemma aggregate_matches_log_witness :
  aggregate_consistent
    (record_events [ViewEvent (mkClock 1000 1005 1010) (Sample.view 1);
                    BounceEvent 2000 (Sample.bounce 1 (Some 30));
                    ShareEvent 3000 (InsertSocialShare.mk 1 None "twitter");
                    ViewEvent 4000 (Sample.view 9);
                    ViewEvent (mkClock 90000000 90000007 90000009)
                              (Sample.view 1)]
                   Sample.oneArticle)
  /\ map counters
         (rows (dailyArticleStats
                  (record_events
                     [ViewEvent (mkClock 1000 1005 1010) (Sample.view 1);
                      BounceEvent 2000 (Sample.bounce 1 (Some 30));
                      ShareEvent 3000 (InsertSocialShare.mk 1 None "twitter");
                      ViewEvent 4000 (Sample.view 9);
                      ViewEvent (mkClock 90000000 90000007 90000009)
                                (Sample.view 1)]
                     Sample.oneArticle)))
     = [(1, 1, 1); (1, 0, 0)].
Proof.
  split; [|vm_compute; reflexivity].
  apply aggregate_matches_log.
  - split; [constructor|]. split; [intros s []|]. intros a d. reflexivity.
  - intros e He. simpl in He.
    destruct He as [<-|[<-|[<-|[<-|[<-|[]]]]]];
      (split; [reflexivity|]); cbn; try exact I.
    intros n Hn. injection Hn as <-. unfold int4. lia.
  - unfold room. simpl. lia.
  - intros s [].
Defined.

(** What one completed [recordSocialShare] returns and logs. *)
Lemma recordSocialShare_run
      (clock : Clock) (shareData : InsertSocialShare.t) (db : DB) :
  let a := InsertSocialShare.articleId shareData in
  article_exists db a = true ->
  exists db' share,
    run (Storage.recordSocialShare clock shareData) db = (db', inr share)
    /\ rows (socialShares db') = rows (socialShares db) ++ [share]
    /\ share = SocialShare.mk (nextId (socialShares db)) a
                 (InsertSocialShare.userId shareData)
                 (InsertSocialShare.platform shareData) (atInsert clock).
Proof.
  intros a Hex.
  unfold Storage.recordSocialShare. rewrite run_await.
  fold a. rewrite Hex. cbn [insert_row].
  rewrite run_await.
  change (Storage.find_stat ?x ?d (set_socialShares db _))
    with (Storage.find_stat x d db).
  destruct (Storage.find_stat _ _ db) as [s|].
  - rewrite run_await. cbn [Storage.update_stat run].
    eexists _, _. repeat split.
  - rewrite run_await. unfold Storage.insert_stat.
    change (article_exists (set_socialShares db _) a)
      with (article_exists db a).
    rewrite Hex. cbn [insert_row run].
    eexists _, _. repeat split.
Qed.

(** [recordSocialShare], for an article that exists: without a daily row
    for today one is inserted with shares 1 and views, bounces and average
    time 0; with one, that row gets its shares raised by one and a new
    [updatedAt], and keeps its views, bounces and average time. The share
    itself goes last into the share log. *)
Theorem recordSocialShare_daily_row
        (now : Z) (shareData : InsertSocialShare.t) (db : DB) :
  let a := InsertSocialShare.articleId shareData in
  let today := Storage.startOfDay now in
  article_exists db a = true ->
  exists db' share,
    run (Storage.recordSocialShare now shareData) db = (db', inr share)
    /\ rows (socialShares db') = rows (socialShares db) ++ [share]
    /\ share = SocialShare.mk (nextId (socialShares db)) a
                 (InsertSocialShare.userId shareData)
                 (InsertSocialShare.platform shareData) now
    /\ match Storage.find_stat a today db with
       | None =>
           Storage.find_stat a today db' =
             Some (DailyArticleStat.mk (nextId (dailyArticleStats db)) a today
                                       0 1 0 0 now)
       | Some s =>
           Storage.find_stat a today db' =
             Some (DailyArticleStat.mk
                     (DailyArticleStat.id s) (DailyArticleStat.articleId s)
                     (DailyArticleStat.date s) (DailyArticleStat.views s)
                     (DailyArticleStat.shares s + 1)
                     (DailyArticleStat.bounces s)
                     (DailyArticleStat.averageTimeOnPage s) now)
       end.
Proof.
  intros a today Hex.
  unfold Storage.recordSocialShare. cbn [instant atInsert atToday atWrite].
  rewrite run_await.
  fold a. rewrite Hex. cbn [insert_row]. fold today.
  rewrite run_await.
  change (Storage.find_stat a today (set_socialShares db _))
    with (Storage.find_stat a today db).
  destruct (Storage.find_stat a today db) as [s|] eqn:Hs.
  - rewrite run_await. cbn [Storage.update_stat run].
    eexists _, _. split; [reflexivity|]. split; [reflexivity|].
    split; [reflexivity|].
    unfold Storage.find_stat in *. cbn.
    apply (find_map_update _
             (fun r => DailyArticleStat.id r =? DailyArticleStat.id s)
             (fun r => DailyArticleStat.mk _ _ _ _ _ _ _ _) _ (s := s)).
    + reflexivity.
    + exact Hs.
    + apply Z.eqb_refl.
  - rewrite run_await. unfold Storage.insert_stat.
    change (article_exists (set_socialShares db _) a)
      with (article_exists db a).
    rewrite Hex. cbn [insert_row run].
    eexists _, _. split; [reflexivity|]. split; [reflexivity|].
    split; [reflexivity|].
    apply (find_stat_inserted (set_socialShares db _));
      [exact Hs| reflexivity ..].
Qed.

Lemma recordSocialShare_daily_row_witness :
  exists db',
    fst (run (Storage.recordSocialShare 1000
                (InsertSocialShare.mk 1 None "twitter")) Sample.oneArticle)
    = db'
    /\ Storage.find_stat 1 0 db'
       = Some (DailyArticleStat.mk 1 1 0 0 1 0 0 1000).
Proof.
  destruct (recordSocialShare_daily_row 1000
              (InsertSocialShare.mk 1 None "twitter") Sample.oneArticle
              eq_refl) as (db' & share & Hrun & _ & _ & Hrow).
  exists db'. rewrite Hrun. split; [reflexivity|exact Hrow].
Defined.

(** ** The recording routes *)

(** A bookmark is a share: [POST /bookmark] with a numeric [articleId] of
    an article that exists answers 201 with a share on the platform
    "bookmark" by the requesting user, puts it last into the share log, and
    counts it as one more share of the article today; views and bounces
    of every article-day are as before. *)
Theorem post_bookmark_counts_as_share
        (now : Z) (req : Analytics.Request) (db : DB) (a : Z) :
  Analytics.body_articleId req = JS.Num a ->
  article_exists db a = true ->
  exists db' share,
    run (Analytics.post_bookmark now req) db
    = (db', inr (Analytics.mkRes 201 (Analytics.Share share)))
    /\ share = SocialShare.mk (nextId (socialShares db)) a
                 (Analytics.user req) "bookmark" now
    /\ rows (socialShares db') = rows (socialShares db) ++ [share]
    /\ (forall a' d,
          logged db' a' d
          = add3 (logged db a' d)
                 (if (a' =? a) && (d =? Storage.startOfDay now)
                  then (0, 1, 0) else (0, 0, 0))).
Proof.
  intros Hbody Hex.
  unfold Analytics.post_bookmark, Analytics.parse_share.
  rewrite Hbody, run_try_catch, run_bind.
  destruct (recordSocialShare_run now
              (InsertSocialShare.mk a (Analytics.user req) "bookmark")
              db Hex) as (db' & share & Hrun & Hrows & Hshare).
  pose proof (recordSocialShare_recorded now
                (InsertSocialShare.mk a (Analytics.user req) "bookmark")
                db Hex eq_refl) as [Hlog _].
  rewrite Hrun in *. cbn [fst run] in *.
  exists db', share. repeat split; assumption.
Qed.

Lemma post_bookmark_counts_as_share_witness :
  exists db' share,
    run (Analytics.post_bookmark 1000
           (Analytics.mkReq (JS.Num 1) JS.Undefined JS.Undefined
                            (Some 7) None None None)) Sample.oneArticle
    = (db', inr (Analytics.mkRes 201 (Analytics.Share share)))
    /\ share = SocialShare.mk 1 1 (Some 7) "bookmark" 1000.
Proof.
  destruct (post_bookmark_counts_as_share 1000
              (Analytics.mkReq (JS.Num 1) JS.Undefined JS.Undefined
                               (Some 7) None None None)
              Sample.oneArticle 1 eq_refl eq_refl)
    as (db' & share & Hrun & Hshare & _).
  exists db', share. split; [exact Hrun|exact Hshare].
Defined.

(** The recording routes refuse without writing a row. For a body that
    parses, with its numbers in the range of an [integer], but names an
    article that does not exist, each of [POST /view], [/bounce], [/share]
    and [/bookmark] answers 500; no log row and no daily row is written,
    and the one trace is the serial id that the refused insert of the log
    row has drawn. For a body whose [articleId] is no number (or whose
    [timeOnPage] or [platform] has the wrong type), each answers 400 and
    the database is as before. *)
Theorem record_routes_refuse_without_writing
        (clock : Clock) (req : Analytics.Request) (db : DB) :
  (forall v, Analytics.parse_view req = inr v ->
             int4 (InsertArticleView.articleId v) ->
             article_exists db (InsertArticleView.articleId v) = false ->
             run (Analytics.post_view clock req) db
             = (set_articleViews db (skip_id (articleViews db)),
                inr (Analytics.mkRes 500
                       (Analytics.Message "Failed to record view"))))
  /\ (forall b, Analytics.parse_bounce req = inr b ->
                int4 (InsertArticleBounce.articleId b) ->
                (forall n, InsertArticleBounce.timeOnPage b = Some n ->
                           int4 n) ->
                article_exists db (InsertArticleBounce.articleId b) = false ->
                run (Analytics.post_bounce clock req) db
                = (set_articleBounces db (skip_id (articleBounces db)),
                   inr (Analytics.mkRes 500
                          (Analytics.Message "Failed to record bounce"))))
  /\ (forall s, Analytics.parse_share (Analytics.body_articleId req)
                  (Analytics.body_platform req) (Analytics.user req) = inr s ->
                int4 (InsertSocialShare.articleId s) ->
                article_exists db (InsertSocialShare.articleId s) = false ->
                run (Analytics.post_share clock req) db
                = (set_socialShares db (skip_id (socialShares db)),
                   inr (Analytics.mkRes 500
                          (Analytics.Message "Failed to record share"))))
  /\ (forall s, Analytics.parse_share (Analytics.body_articleId req)
                  (JS.Str "bookmark") (Analytics.user req) = inr s ->
                int4 (InsertSocialShare.articleId s) ->
                article_exists db (InsertSocialShare.articleId s) = false ->
                run (Analytics.post_bookmark clock req) db
                = (set_socialShares db (skip_id (socialShares db)),
                   inr (Analytics.mkRes 500
                          (Analytics.Message "Failed to record bookmark"))))
  /\ (forall e, Analytics.parse_view req = inl e ->
                run (Analytics.post_view clock req) db
                = (db, inr (Analytics.mkRes 400
                              (Analytics.Invalid "Invalid view data"))))
  /\ (forall e, Analytics.parse_bounce req = inl e ->
                run (Analytics.post_bounce clock req) db
                = (db, inr (Analytics.mkRes 400
                              (Analytics.Invalid "Invalid bounce data"))))
  /\ (forall e, Analytics.parse_share (Analytics.body_articleId req)
                  (Analytics.body_platform req) (Analytics.user req) = inl e ->
                run (Analytics.post_share clock req) db
                = (db, inr (Analytics.mkRes 400
                              (Analytics.Invalid "Invalid share data"))))
  /\ (forall e, Analytics.parse_share (Analytics.body_articleId req)
                  (JS.Str "bookmark") (Analytics.user req) = inl e ->
                run (Analytics.post_bookmark clock req) db
                = (db, inr (Analytics.mkRes 400
                              (Analytics.Invalid "Invalid bookmark data")))).
Proof.
  repeat split.
  - intros v Hp _ Hex. unfold Analytics.post_view.
    rewrite Hp, run_try_catch, run_bind, recordArticleView_unknown by exact Hex.
    reflexivity.
  - intros b Hp _ _ Hex. unfold Analytics.post_bounce.
    rewrite Hp, run_try_catch, run_bind, recordArticleBounce_unknown
      by exact Hex.
    reflexivity.
  - intros s Hp _ Hex. unfold Analytics.post_share.
    rewrite Hp, run_try_catch, run_bind, recordSocialShare_unknown by exact Hex.
    reflexivity.
  - intros s Hp _ Hex. unfold Analytics.post_bookmark.
    rewrite Hp, run_try_catch, run_bind, recordSocialShare_unknown by exact Hex.
    reflexivity.
  - intros e Hp. unfold Analytics.post_view. rewrite Hp.
    unfold Analytics.parse_view in Hp.
    destruct (Analytics.body_articleId req); try discriminate;
      injection Hp as <-; reflexivity.
  - intros e Hp. unfold Analytics.post_bounce. rewrite Hp.
    unfold Analytics.parse_bounce in Hp.
    destruct (Analytics.body_articleId req); try discriminate;
      try (injection Hp as <-; reflexivity).
    destruct (Analytics.body_timeOnPage req); try discriminate;
      injection Hp as <-; reflexivity.
  - intros e Hp. unfold Analytics.post_share. rewrite Hp.
    unfold Analytics.parse_share in Hp.
    destruct (Analytics.body_articleId req), (Analytics.body_platform req);
      try discriminate; injection Hp as <-; reflexivity.
  - intros e Hp. unfold Analytics.post_bookmark. rewrite Hp.
    unfold Analytics.parse_share in Hp.
    destruct (Analytics.body_articleId req);
      try discriminate; injection Hp as <-; reflexivity.
Qed.

Lemma record_routes_refuse_without_writing_witness :
  (exists db',
     run (Analytics.post_view 1000
            (Analytics.mkReq (JS.Num 9) JS.Undefined JS.Undefined
                             None None None None)) Sample.oneArticle
     = (db',
        inr (Analytics.mkRes 500 (Analytics.Message "Failed to record view")))
     /\ rows (articleViews db') = []
     /\ rows (dailyArticleStats db') = []
     /\ nextId (articleViews db') = 2)
  /\ run (Analytics.post_bounce 1000
            (Analytics.mkReq (JS.Num 1) (JS.Str "soon") JS.Undefined
                             None None None None)) Sample.oneArticle
     = (Sample.oneArticle,
        inr (Analytics.mkRes 400 (Analytics.Invalid "Invalid bounce data"))).
Proof.
  split.
  - eexists. split.
    + apply (proj1 (record_routes_refuse_without_writing 1000
                      (Analytics.mkReq (JS.Num 9) JS.Undefined JS.Undefined
                                       None None None None) Sample.oneArticle)
               (Sample.view 9)).
      * reflexivity.
      * unfold int4. simpl. lia.
      * reflexivity.
    + repeat split.
  - apply (proj1 (proj2 (proj2 (proj2 (proj2 (proj2
             (record_routes_refuse_without_writing 1000
                (Analytics.mkReq (JS.Num 1) (JS.Str "soon") JS.Undefined
                                 None None None None) Sample.oneArticle))))))
             ZodError).
    reflexivity.
Defined.

(** ** Deleting *)

Lemma filter_filter_negb {A} (p : A -> bool) (l : list A) :
  filter p (filter (fun r => negb (p r)) l) = [].
Proof.
  induction l as [|a l IH]; simpl; [reflexivity|].
  destruct (p a) eqn:E; simpl; rewrite ?E; exact IH.
Qed.

Lemma filter_filter_other {A} (p q : A -> bool) (l : list A) :
  (forall r, p r = true -> q r = false) ->
  filter p (filter (fun r => negb (q r)) l) = filter p l.
Proof.
  intros Hpq. induction l as [|a l IH]; simpl; [reflexivity|].
  destruct (q a) eqn:Eq; simpl.
  - destruct (p a) eqn:Ep; [rewrite (Hpq a Ep) in Eq; discriminate|exact IH].
  - destruct (p a); [f_equal|]; exact IH.
Qed.

Lemma find_filter_negb {A} (p : A -> bool) (l : list A) :
  find p (filter (fun r => negb (p r)) l) = None.
Proof.
  rewrite find_hd_filter, filter_filter_negb. reflexivity.
Qed.

Lemma find_filter_other {A} (p q : A -> bool) (l : list A) :
  (forall r, p r = true -> q r = false) ->
  find p (filter (fun r => negb (q r)) l) = find p l.
Proof.
  intros Hpq. rewrite !find_hd_filter, filter_filter_other by exact Hpq.
  reflexivity.
Qed.

Lemma eqb_other (x a id : Z) : a <> id -> (x =? a) = true -> (x =? id) = false.
Proof. intros Hne Hx. apply Z.eqb_eq in Hx. apply Z.eqb_neq. lia. Qed.

Lemma filter_key_gone {A} (key time : A -> Z) (id d : Z) (l : list A) :
  filter (fun r => (key r =? id) && (time r =? d))
         (filter (fun r => negb (key r =? id)) l) = [].
Proof.
  induction l as [|r l IH]; [reflexivity|].
  cbn [filter]. destruct (key r =? id) eqn:E; cbn [negb]; [exact IH|].
  cbn [filter]. rewrite E. exact IH.
Qed.

Lemma filter_key_kept {A} (key time : A -> Z) (a id d : Z) (l : list A) :
  a <> id ->
  filter (fun r => (key r =? a) && (time r =? d))
         (filter (fun r => negb (key r =? id)) l)
  = filter (fun r => (key r =? a) && (time r =? d)) l.
Proof.
  intros Hne. apply filter_filter_other. intros r Hr.
  apply andb_prop in Hr. apply (eqb_other _ a id Hne), Hr.
Qed.

(** Deleting an article takes everything of the article with it: after
    [deleteArticle] of an article that exists, the article is not found,
    its version history, its references and its daily rows are empty, no
    view, bounce or share of it is left, and the version route answers 404;
    what belongs to any other article is as before. *)
Theorem deleteArticle_cascades (id : Z) (db : DB) :
  let db' := fst (run (Storage.deleteArticle id) db) in
  article_exists db id = true ->
  (run (Storage.getArticle id) db' = (db', inr None)
   /\ run (Storage.getArticleVersions id) db' = (db', inr [])
   /\ run (Storage.getReferences id) db' = (db', inr [])
   /\ (forall d, statsFor db' id d = [])
   /\ (forall d, logged db' id d = (0, 0, 0))
   /\ (forall req, Versions.articleId req = id ->
         run (Versions.get_versions req) db'
         = (db', inr (Versions.mkRes 404
                        (Versions.Message "Article not found")))))
  /\ (forall a, a <> id ->
        run (Storage.getArticle a) db' = (db', snd (run (Storage.getArticle a) db))
        /\ versionsOf db' a = versionsOf db a
        /\ run (Storage.getReferences a) db'
           = (db', snd (run (Storage.getReferences a) db))
        /\ (forall d, statsFor db' a d = statsFor db a d)
        /\ (forall d, logged db' a d = logged db a d))
  /\ topics db' = topics db.
Proof.
  intros db' Hex. subst db'.
  unfold Storage.deleteArticle. rewrite run_await, Hex. cbn [run fst].
  assert (forall x a, a <> id -> (x =? a) = true -> (x =? id) = false) as Ho
    by (intros x a; apply eqb_other).
  split; [|split; [|reflexivity]].
  - repeat split.
    + unfold Storage.getArticle, await. cbn. rewrite find_filter_negb.
      reflexivity.
    + unfold Storage.getArticleVersions, await. cbn.
      rewrite filter_filter_negb. reflexivity.
    + unfold Storage.getReferences, await. cbn.
      rewrite filter_filter_negb. reflexivity.
    + intros d. unfold statsFor. cbn.
      apply (filter_key_gone DailyArticleStat.articleId DailyArticleStat.date).
    + intros d. unfold logged. cbn.
      rewrite (filter_key_gone ArticleView.articleId
                 (fun v => Storage.startOfDay (ArticleView.viewedAt v))),
        (filter_key_gone SocialShare.articleId
           (fun v => Storage.startOfDay (SocialShare.sharedAt v))),
        (filter_key_gone ArticleBounce.articleId
           (fun v => Storage.startOfDay (ArticleBounce.bouncedAt v))).
      reflexivity.
    + intros req Hreq. unfold Versions.get_versions.
      rewrite run_try_catch. storage_call.
      rewrite Hreq. cbn. rewrite find_filter_negb. reflexivity.
  - intros a Hne.
    assert (forall {A} (key : A -> Z) (l : list A),
              filter (fun r => key r =? a)
                     (filter (fun r => negb (key r =? id)) l)
              = filter (fun r => key r =? a) l) as Hf.
    { intros A key l. apply filter_filter_other. intros r. apply Ho. exact Hne. }
    repeat split.
    + unfold Storage.getArticle, await. cbn.
      rewrite find_filter_other; [reflexivity|]. intros r. apply Ho. exact Hne.
    + unfold versionsOf. cbn. apply Hf.
    + unfold Storage.getReferences, await. cbn. rewrite Hf. reflexivity.
    + intros d. unfold statsFor. cbn.
      apply (filter_key_kept DailyArticleStat.articleId DailyArticleStat.date).
      exact Hne.
    + intros d. unfold logged. cbn.
      rewrite (filter_key_kept ArticleView.articleId
                 (fun v => Storage.startOfDay (ArticleView.viewedAt v))),
        (filter_key_kept SocialShare.articleId
           (fun v => Storage.startOfDay (SocialShare.sharedAt v))),
        (filter_key_kept ArticleBounce.articleId
           (fun v => Storage.startOfDay (ArticleBounce.bouncedAt v)))
        by exact Hne.
      reflexivity.
Qed.

Lemma deleteArticle_cascades_witness :
  run (Storage.getArticleVersions 1)
      (fst (run (Storage.deleteArticle 1) Sample.versionedDB))
  = (fst (run (Storage.deleteArticle 1) Sample.versionedDB), inr [])
  /\ versionsOf (fst (run (Storage.deleteArticle 1) Sample.versionedDB)) 2
     = [Sample.version 2 2 1 "other"].
Proof.
  destruct (deleteArticle_cascades 1 Sample.versionedDB eq_refl)
    as ((_ & Hv & _) & Hother & _).
  split; [exact Hv|].
  destruct (Hother 2) as (_ & Hv2 & _); [discriminate|].
  rewrite Hv2. reflexivity.
Defined.

(** [DELETE /topics/:id]: 404 and nothing written for a topic that does
    not exist. For one that does: 200, the topic is gone (a second delete
    and a fetch get 404), the other topics stay, no article is deleted, the articles of
    the topic have their topic cleared and keep everything else, and the
    other articles are as before. *)
Theorem delete_topic_route (id : Z) (db : DB) :
  (find (fun t => Topic.id t =? id) (rows (topics db)) = None ->
   run (Topics.delete_topic id) db
   = (db, inr (Topics.mkRes 404 (Topics.Message "Topic not found"))))
  /\ (find (fun t => Topic.id t =? id) (rows (topics db)) <> None ->
      exists db',
        run (Topics.delete_topic id) db
        = (db', inr (Topics.mkRes 200
                       (Topics.Message "Topic deleted successfully")))
        /\ run (Topics.delete_topic id) db'
           = (db', inr (Topics.mkRes 404 (Topics.Message "Topic not found")))
        /\ run (Topics.get_topic id) db'
           = (db', inr (Topics.mkRes 404 (Topics.Message "Topic not found")))
        /\ (forall t, In t (rows (topics db)) -> Topic.id t <> id ->
                      In t (rows (topics db')))
        /\ map (fun x => (Article.id x, Article.title x, Article.slug x,
                          Article.description x, Article.content x,
                          Article.authorId x, Article.status x,
                          Article.publishedAt x, Article.createdAt x,
                          Article.updatedAt x))
               (rows (articles db'))
           = map (fun x => (Article.id x, Article.title x, Article.slug x,
                            Article.description x, Article.content x,
                            Article.authorId x, Article.status x,
                            Article.publishedAt x, Article.createdAt x,
                            Article.updatedAt x))
                 (rows (articles db))
        /\ map Article.topicId (rows (articles db'))
           = map (fun x => if Storage.eq_opt (Article.topicId x) id
                           then None else Article.topicId x)
                 (rows (articles db))
        /\ articleVersions db' = articleVersions db
        /\ references db' = references db
        /\ dailyArticleStats db' = dailyArticleStats db).
Proof.
  split.
  - intros Hnone. unfold Topics.delete_topic. rewrite run_try_catch.
    unfold Storage.getTopic. rewrite run_await. cbn beta iota.
    rewrite Hnone. reflexivity.
  - intros Hsome. unfold Topics.delete_topic. rewrite !run_try_catch.
    unfold Storage.getTopic. rewrite !run_await. cbn beta iota.
    destruct (find _ (rows (topics db))) as [t|] eqn:Ht; [|congruence].
    unfold Storage.deleteTopic. rewrite run_bind, run_await.
    rewrite (find_existsb _ _ _ Ht). cbn [run].
    eexists. split; [reflexivity|].
    split; [|split; [|split; [|split; [|split; [|repeat split]]]]].
    + rewrite run_try_catch, run_await. cbn.
      rewrite find_filter_negb. reflexivity.
    + unfold Topics.get_topic, Storage.getTopic.
      rewrite run_try_catch, run_await. cbn.
      rewrite find_filter_negb. reflexivity.
    + intros t' Hin Hne. cbn. apply filter_In. split; [exact Hin|].
      apply negb_true_iff, Z.eqb_neq. exact Hne.
    + cbn. rewrite map_map. apply map_ext. intros x.
      destruct (Storage.eq_opt (Article.topicId x) id); reflexivity.
    + cbn. rewrite map_map. apply map_ext. intros x.
      destruct (Storage.eq_opt (Article.topicId x) id); reflexivity.
Qed.

Lemma delete_topic_route_witness :
  run (Topics.delete_topic 9) Sample.topicDB
  = (Sample.topicDB,
     inr (Topics.mkRes 404 (Topics.Message "Topic not found")))
  /\ exists db',
       run (Topics.delete_topic 4) Sample.topicDB
       = (db', inr (Topics.mkRes 200
                      (Topics.Message "Topic deleted successfully")))
       /\ map Article.topicId (rows (articles db')) = [None; None].
Proof.
  split.
  - apply (proj1 (delete_topic_route 9 Sample.topicDB)). reflexivity.
  - destruct (proj2 (delete_topic_route 4 Sample.topicDB))
      as (db' & Hrun & _ & _ & _ & _ & Htopic & _); [discriminate|].
    exists db'. split; [exact Hrun|]. rewrite Htopic. reflexivity.
Defined.

(** ** References *)

Lemma map_update_none {A} (p : A -> bool) (f : A -> A) (l : list A) :
  existsb p l = false -> map (fun r => if p r then f r else r) l = l.
Proof.
  induction l as [|a l IH]; simpl; [reflexivity|].
  destruct (p a); simpl; [discriminate|]. intros H. rewrite IH by exact H.
  reflexivity.
Qed.

Lemma update_rows_none {A} (p : A -> bool) (f : A -> A) (t : Table A) :
  existsb p (rows t) = false -> update_rows p f t = t.
Proof.
  intros H. destruct t as [l n]. unfold update_rows. cbn [rows nextId] in *.
  rewrite map_update_none by exact H. reflexivity.
Qed.

Lemma existsb_false_find {A} (p : A -> bool) (l : list A) :
  existsb p l = false -> find p l = None.
Proof.
  induction l as [|a l IH]; simpl; [reflexivity|].
  destruct (p a); [discriminate|exact IH].
Qed.

Lemma set_references_same (db : DB) : set_references db (references db) = db.
Proof. destruct db. reflexivity. Qed.

(** Create, list, delete. On a reference table whose ids are below the
    next serial id, [createReference] for an article that exists returns a
    reference that [getReferences] of the article then lists, and
    [deleteReference] of its id puts the rows of the table and the listing
    back to what they were. For an article that does not exist
    [createReference] fails and writes no row; the refused insert has
    drawn a serial id, which is the one change. *)
Theorem reference_create_list_delete
        (now : Z) (referenceData : InsertReference.t) (db : DB) :
  let a := InsertReference.articleId referenceData in
  (article_exists db a = false ->
   run (Storage.createReference now referenceData) db
   = (set_references db (skip_id (references db)), inl ForeignKeyViolation))
  /\ (article_exists db a = true ->
      (forall r, In r (rows (references db)) ->
                 Reference.id r < nextId (references db)) ->
      exists db1 reference listed,
        run (Storage.createReference now referenceData) db
        = (db1, inr reference)
        /\ Reference.articleId reference = a
        /\ run (Storage.getReferences a) db1 = (db1, inr listed)
        /\ In reference listed
        /\ rows (references
                   (fst (run (Storage.deleteReference (Reference.id reference))
                             db1)))
           = rows (references db)
        /\ snd (run (Storage.getReferences a)
                    (fst (run (Storage.deleteReference
                                 (Reference.id reference)) db1)))
           = snd (run (Storage.getReferences a) db)).
Proof.
  intros a. split.
  - intros Hex. unfold Storage.createReference, await. cbn [run].
    fold a. rewrite Hex. reflexivity.
  - intros Hex Hids. unfold Storage.createReference, await. cbn [run].
    fold a. rewrite Hex. cbn [insert_row].
    eexists _, _, _. split; [reflexivity|]. split; [reflexivity|].
    assert (filter (fun r => negb (Reference.id r =? nextId (references db)))
                   (rows (references db)) = rows (references db)) as Hback.
    { apply filter_none. apply not_true_is_false. intros Hsome.
      apply existsb_exists in Hsome. destruct Hsome as (r & Hr & Heq).
      apply Z.eqb_eq in Heq. specialize (Hids r Hr). lia. }
    split; [reflexivity|]. split; [|split].
    + apply (Permutation_in _ (Permutation_sym (orderBy_perm _ _))).
      cbn. rewrite filter_app. apply in_or_app. right. cbn.
      rewrite Z.eqb_refl. left. reflexivity.
    + cbn. rewrite filter_app. cbn. rewrite Z.eqb_refl. cbn.
      rewrite app_nil_r. exact Hback.
    + cbn. rewrite filter_app. cbn. rewrite Z.eqb_refl. cbn.
      rewrite app_nil_r, Hback. reflexivity.
Qed.

Lemma reference_create_list_delete_witness :
  (exists db1 reference,
     run (Storage.createReference 1000
            (InsertReference.mk 1 "Quran 29:45" None None)) Sample.oneArticle
     = (db1, inr reference)
     /\ rows (references
                (fst (run (Storage.deleteReference (Reference.id reference))
                          db1))) = [])
  /\ (exists db1,
        run (Storage.createReference 1000
               (InsertReference.mk 9 "Quran 29:45" None None))
            Sample.oneArticle
        = (db1, inl ForeignKeyViolation)
        /\ rows (references db1) = []
        /\ nextId (references db1) = 2).
Proof.
  split.
  - destruct (proj2 (reference_create_list_delete 1000
                       (InsertReference.mk 1 "Quran 29:45" None None)
                       Sample.oneArticle) eq_refl)
      as (db1 & reference & listed & Hrun & _ & _ & _ & Hrows & _).
    + intros r [].
    + exists db1, reference. split; [exact Hrun|exact Hrows].
  - eexists. split.
    + exact (proj1 (reference_create_list_delete 1000
                      (InsertReference.mk 9 "Quran 29:45" None None)
                      Sample.oneArticle) eq_refl).
    + split; reflexivity.
Defined.

(** [updateReference] writes only references with the given id, and of
    those never the id or the creation date; for an id that no reference
    has it returns [undefined] and the database is as before. *)
Theorem updateReference_scope
        (now id : Z) (referenceData : ReferencePatch.t) (db : DB) :
  let db' := fst (run (Storage.updateReference now id referenceData) db) in
  map Reference.id (rows (references db'))
  = map Reference.id (rows (references db))
  /\ map Reference.createdAt (rows (references db'))
     = map Reference.createdAt (rows (references db))
  /\ (forall r, In r (rows (references db)) -> Reference.id r <> id ->
                In r (rows (references db')))
  /\ articles db' = articles db
  /\ (existsb (fun r => Reference.id r =? id) (rows (references db)) = false ->
      run (Storage.updateReference now id referenceData) db = (db, inr None)).
Proof.
  intros db'. subst db'. unfold Storage.updateReference, await. cbn [run].
  destruct (existsb (fun r => Reference.id r =? id) (rows (references db)))
    eqn:Hhit.
  - destruct (negb _); cbn [andb fst].
    + repeat split; try discriminate. intros r Hr _. exact Hr.
    + cbn. repeat split; try discriminate.
      * rewrite map_map. apply map_ext. intros r.
        destruct (Reference.id r =? id); reflexivity.
      * rewrite map_map. apply map_ext. intros r.
        destruct (Reference.id r =? id); reflexivity.
      * intros r Hr Hne. apply in_map_iff. exists r. split; [|exact Hr].
        destruct (Z.eqb_spec (Reference.id r) id); [contradiction|reflexivity].
  - cbn [andb].
    rewrite (update_rows_none _ _ (references db) Hhit), set_references_same,
      (existsb_false_find _ _ Hhit).
    cbn [fst]. repeat split. intros r Hr _. exact Hr.
Qed.

Lemma updateReference_scope_witness :
  run (Storage.updateReference 1000 5
         (ReferencePatch.mk None (Some "t"%string) None None)) Sample.oneArticle
  = (Sample.oneArticle, inr None).
Proof.
  apply (proj2 (proj2 (proj2 (proj2
           (updateReference_scope 1000 5
              (ReferencePatch.mk None (Some "t"%string) None None)
              Sample.oneArticle))))).
  reflexivity.
Defined.

(** ** Pages of [getArticles] *)

Lemma firstn_add {A} (n m : nat) (l : list A) :
  firstn (n + m) l = firstn n l ++ firstn m (skipn n l).
Proof.
  revert l. induction n as [|n IH]; intros l; [reflexivity|].
  destruct l as [|x l]; cbn [Nat.add firstn skipn app].
  - destruct m; reflexivity.
  - rewrite IH. reflexivity.
Qed.

Lemma skipn_add {A} (n m : nat) (l : list A) :
  skipn (n + m) l = skipn m (skipn n l).
Proof.
  revert l. induction n as [|n IH]; intros l; [reflexivity|].
  destruct l as [|x l]; cbn [Nat.add skipn].
  - destruct m; reflexivity.
  - apply IH.
Qed.

Lemma firstn_In {A} (n : nat) (l : list A) (x : A) :
  In x (firstn n l) -> In x l.
Proof.
  intros H. rewrite <- (firstn_skipn n l). apply in_or_app. left. exact H.
Qed.

Lemma skipn_In {A} (n : nat) (l : list A) (x : A) :
  In x (skipn n l) -> In x l.
Proof.
  intros H. rewrite <- (firstn_skipn n l). apply in_or_app. right. exact H.
Qed.

(** What [getArticles] returns. *)
Lemma getArticles_run (o : Storage.ArticlesOptions) (db : DB) :
  run (Storage.getArticles o) db
  = (db,
     inr (Storage.mkPage
            (firstn (match Storage.limit o with Some n => n | None => 10%nat end)
               (skipn (match Storage.offset o with Some n => n | None => 0%nat end)
                  (orderBy (desc Article.updatedAt)
                     (filter (matches o) (rows (articles db))))))
            (Z.of_nat (List.length (filter (matches o) (rows (articles db))))))).
Proof.
  unfold Storage.getArticles. rewrite !run_await.
  rewrite !select_where_matches, or_num_self. reflexivity.
Qed.

(** Rows with distinct keys have one descending order. *)
Lemma sorted_strict {A} (key : A -> Z) (l : list A) :
  NoDup (map key l) ->
  StronglySorted (fun x y => key y <= key x) l ->
  StronglySorted (fun x y => key y < key x) l.
Proof.
  intros Hnd Hs. induction Hs as [|x l Hl IH Hx]; [constructor|].
  cbn [map] in Hnd. inversion Hnd as [|? ? Hnotin Hnd']; subst.
  constructor; [apply IH; exact Hnd'|].
  rewrite Forall_forall in *. intros y Hy.
  specialize (Hx y Hy).
  assert (key y <> key x) as Hne.
  { intros Heq. apply Hnotin. rewrite <- Heq. apply in_map. exact Hy. }
  lia.
Qed.

Lemma sorted_perm_unique {A} (key : A -> Z) (l1 l2 : list A) :
  StronglySorted (fun x y => key y < key x) l1 ->
  StronglySorted (fun x y => key y < key x) l2 ->
  Permutation l1 l2 -> l1 = l2.
Proof.
  intros H1. revert l2. induction H1 as [|x l1 Hl1 IH Hx]; intros l2 H2 Hp.
  - apply Permutation_nil in Hp. subst. reflexivity.
  - destruct H2 as [|y l2 Hl2 Hy].
    + apply Permutation_sym, Permutation_nil in Hp. discriminate.
    + rewrite Forall_forall in Hx, Hy.
      assert (x = y) as ->.
      { assert (In x (y :: l2)) as Hin
          by (apply (Permutation_in _ Hp); left; reflexivity).
        assert (In y (x :: l1)) as Hin'
          by (apply (Permutation_in _ (Permutation_sym Hp)); left; reflexivity).
        destruct Hin as [->|Hin]; [reflexivity|].
        destruct Hin' as [->|Hin']; [reflexivity|].
        specialize (Hx y Hin'). specialize (Hy x Hin). lia. }
      f_equal. apply IH; [exact Hl2|].
      apply Permutation_cons_inv in Hp. exact Hp.
Qed.

(** Pages tile the result, for text in ASCII and for matching articles
    that differ in [updatedAt], the one column of the [ORDER BY]. With the
    filters fixed, the page at an offset with limit [n] followed by the page
    at that offset plus [n] with limit [m] is the page at the offset with
    limit [n + m]; all pages report the same total; a page has at most
    [limit] articles, all of which pass the filters, and never more than
    the total; at an offset of the total or beyond the page is empty. The
    page is cut from the one list that holds the matching articles latest
    first, so it does not depend on how the database sorts. *)
Theorem getArticles_pages_tile
        (o : Storage.ArticlesOptions) (db : DB) (offset n m : nat) :
  let at_ off lim :=
    Storage.mkOptions (Storage.topicId o) (Storage.status o)
                      (Storage.authorId o) (Storage.search o)
                      (Some lim) (Some off) in
  let found := filter (matches o) (rows (articles db)) in
  searchable o db ->
  NoDup (map Article.updatedAt found) ->
  exists p1 p2 p12,
    run (Storage.getArticles (at_ offset n)) db = (db, inr p1)
    /\ run (Storage.getArticles (at_ (offset + n)%nat m)) db = (db, inr p2)
    /\ run (Storage.getArticles (at_ offset (n + m)%nat)) db = (db, inr p12)
    /\ Storage.page_articles p12
       = Storage.page_articles p1 ++ Storage.page_articles p2
    /\ Storage.total p1 = Storage.total p12
    /\ Storage.total p2 = Storage.total p12
    /\ (List.length (Storage.page_articles p1) <= n)%nat
    /\ Z.of_nat (List.length (Storage.page_articles p1)) <= Storage.total p1
    /\ (forall a, In a (Storage.page_articles p1) ->
                  In a (rows (articles db)) /\ matches o a = true)
    /\ (Storage.total p1 <= Z.of_nat offset -> Storage.page_articles p1 = [])
    /\ (forall sorted,
          Permutation sorted found ->
          StronglySorted
            (fun x y => Article.updatedAt y <= Article.updatedAt x) sorted ->
          Storage.page_articles p1 = firstn n (skipn offset sorted)
          /\ Storage.page_articles p2 = firstn m (skipn (offset + n) sorted)).
Proof.
  intros at_ found _ Hnd.
  eexists _, _, _.
  split; [apply getArticles_run|]. split; [apply getArticles_run|].
  split; [apply getArticles_run|].
  cbn [Storage.page_articles Storage.total Storage.limit Storage.offset at_].
  change (matches (at_ offset n)) with (matches o).
  change (matches (at_ (offset + n)%nat m)) with (matches o).
  change (matches (at_ offset (n + m)%nat)) with (matches o).
  fold found.
  set (sorted := orderBy (desc Article.updatedAt) found).
  assert (List.length sorted = List.length found) as Hlen
    by (apply Permutation_length, orderBy_perm).
  split; [rewrite firstn_add, skipn_add; reflexivity|].
  split; [reflexivity|]. split; [reflexivity|].
  split; [apply firstn_le_length|].
  split; [rewrite length_firstn, length_skipn; lia|].
  split; [|split].
  - intros a Ha. apply firstn_In, skipn_In in Ha.
    apply (Permutation_in _ (orderBy_perm _ _)) in Ha.
    apply filter_In in Ha. exact Ha.
  - intros Htotal. rewrite skipn_all2; [destruct n; reflexivity|]. lia.
  - intros sorted' Hperm Hsorted.
    assert (sorted' = sorted) as ->; [|split; reflexivity].
    apply (sorted_perm_unique Article.updatedAt).
    + apply sorted_strict; [|exact Hsorted].
      apply (Permutation_NoDup (l := map Article.updatedAt found));
        [|exact Hnd].
      apply Permutation_map, Permutation_sym. exact Hperm.
    + apply sorted_strict; [|apply orderBy_desc_sorted].
      apply (Permutation_NoDup (l := map Article.updatedAt found));
        [|exact Hnd].
      apply Permutation_map, Permutation_sym, orderBy_perm.
    + apply (Permutation_trans Hperm).
      apply Permutation_sym, orderBy_perm.
Qed.

Lemma getArticles_pages_tile_witness :
  exists p1 p2 p12,
    run (Storage.getArticles
           (Storage.mkOptions None (Some "published"%string) None
                              (Some "salah"%string) (Some 1%nat) (Some 0%nat)))
        Sample.searchDB = (Sample.searchDB, inr p1)
    /\ run (Storage.getArticles
              (Storage.mkOptions None (Some "published"%string) None
                                 (Some "salah"%string) (Some 1%nat) (Some 1%nat)))
           Sample.searchDB = (Sample.searchDB, inr p2)
    /\ run (Storage.getArticles
              (Storage.mkOptions None (Some "published"%string) None
                                 (Some "salah"%string) (Some 2%nat) (Some 0%nat)))
           Sample.searchDB = (Sample.searchDB, inr p12)
    /\ Storage.page_articles p12
       = Storage.page_articles p1 ++ Storage.page_articles p2
    /\ Storage.page_articles p1
       = [Sample.article 3 "Salah History" "published" 300].
Proof.
  destruct (getArticles_pages_tile (Sample.searchOptions "salah" "published")
              Sample.searchDB 0 1 1)
    as (p1 & p2 & p12 & H1 & H2 & H12 & Happ & _ & _ & _ & _ & _ & _ & Hany).
  - split; reflexivity.
  - vm_compute. repeat constructor; intros H;
      repeat (destruct H as [H|H]; [discriminate H|]); exact H.
  - exists p1, p2, p12. repeat split; try assumption.
    apply (Hany [Sample.article 3 "Salah History" "published" 300;
                 Sample.article 1 "Salah Importance" "published" 100]).
    + vm_compute. apply perm_swap.
    + repeat constructor; cbn; lia.
Defined.

(** ** The ranking of [getOverviewStats] *)

Lemma StronglySorted_firstn {A} (R : A -> A -> Prop) (n : nat) (l : list A) :
  StronglySorted R l -> StronglySorted R (firstn n l).
Proof.
  intros Hs. revert n. induction Hs as [|x l Hl IH Hx]; intros n.
  - destruct n; constructor.
  - destruct n; cbn [firstn]; constructor; [apply IH|].
    rewrite Forall_forall in *. intros y Hy. apply Hx.
    apply firstn_In in Hy. exact Hy.
Qed.

Lemma StronglySorted_split {A} (R : A -> A -> Prop) (n : nat) (l : list A) :
  StronglySorted R l ->
  forall x y, In x (firstn n l) -> In y (skipn n l) -> R x y.
Proof.
  intros Hs. revert n. induction Hs as [|z l Hl IH Hz]; intros n x y Hx Hy.
  - destruct n; destruct Hx.
  - destruct n; [destruct Hx|]. cbn [firstn skipn] in *.
    destruct Hx as [<-|Hx].
    + rewrite Forall_forall in Hz. apply Hz. apply skipn_In in Hy. exact Hy.
    + apply (IH n); assumption.
Qed.

(** The number of views the log holds for an article. *)
Lemma topArticles_of_groups (db : DB) (t : Storage.TopArticle) :
  let views a :=
    Z.of_nat (List.length
                (filter (fun v => ArticleView.articleId v =? Article.id a)
                        (rows (articleViews db)))) in
  In t (flat_map
          (fun a => if 0 <? views a
                    then [Storage.mkTop (Article.id a) (Article.title a)
                                        (views a)]
                    else [])
          (rows (articles db)))
  <-> exists a, In a (rows (articles db))
                /\ 1 <= views a
                /\ t = Storage.mkTop (Article.id a) (Article.title a) (views a).
Proof.
  intros views. rewrite in_flat_map. split.
  - intros (a & Ha & Ht). exists a. split; [exact Ha|].
    destruct (Z.ltb_spec 0 (views a)); [|destruct Ht].
    destruct Ht as [<-|[]]. split; [lia|reflexivity].
  - intros (a & Ha & Hv & ->). exists a. split; [exact Ha|].
    destruct (Z.ltb_spec 0 (views a)); [left; reflexivity|lia].
Qed.

(** [topArticles] of [getOverviewStats], whatever the dates: at most five
    entries, the most viewed first; each entry is an article that exists,
    with its title and the number of its views in the log, at least 1; and
    an article with views that is not listed has no more views than any
    listed one, the list then being full. The database is not written. *)
Theorem overview_topArticles_ranked (startDate endDate : option Z) (db : DB) :
  let views a :=
    Z.of_nat (List.length
                (filter (fun v => ArticleView.articleId v =? Article.id a)
                        (rows (articleViews db)))) in
  exists o,
    run (Storage.getOverviewStats startDate endDate) db = (db, inr o)
    /\ (List.length (Storage.topArticles o) <= 5)%nat
    /\ StronglySorted (fun x y => Storage.top_views y <= Storage.top_views x)
                      (Storage.topArticles o)
    /\ (forall t, In t (Storage.topArticles o) ->
                  exists a, In a (rows (articles db))
                            /\ 1 <= views a
                            /\ t = Storage.mkTop (Article.id a)
                                                 (Article.title a) (views a))
    /\ (forall a, In a (rows (articles db)) -> 1 <= views a ->
                  In (Storage.mkTop (Article.id a) (Article.title a) (views a))
                     (Storage.topArticles o)
                  \/ (List.length (Storage.topArticles o) = 5%nat
                      /\ forall t, In t (Storage.topArticles o) ->
                                   views a <= Storage.top_views t)).
Proof.
  intros views.
  destruct (getOverviewStats_topArticles startDate endDate db)
    as (o & Hrun & Htop).
  exists o. split; [exact Hrun|]. rewrite Htop.
  unfold Storage.topArticlesQuery.
  set (groups := flat_map _ (rows (articles db))).
  set (sorted := orderBy (desc Storage.top_views) groups).
  assert (forall t, In t sorted <-> In t groups) as Hin.
  { intros t. split; intros H.
    - apply (Permutation_in _ (orderBy_perm (desc Storage.top_views) groups)).
      exact H.
    - apply (Permutation_in _
               (Permutation_sym (orderBy_perm (desc Storage.top_views) groups))).
      exact H. }
  pose proof (orderBy_desc_sorted Storage.top_views groups) as Hsorted.
  fold sorted in Hsorted.
  split; [apply firstn_le_length|].
  split; [apply StronglySorted_firstn; exact Hsorted|].
  split.
  - intros t Ht. apply firstn_In in Ht. apply Hin in Ht.
    apply (topArticles_of_groups db t). exact Ht.
  - intros a Ha Hv.
    assert (In (Storage.mkTop (Article.id a) (Article.title a) (views a)) sorted)
      as Hs.
    { apply Hin. apply (topArticles_of_groups db). exists a. auto. }
    rewrite <- (firstn_skipn 5 sorted) in Hs. apply in_app_or in Hs.
    destruct Hs as [Hs|Hs]; [left; exact Hs|right].
    split.
    + apply firstn_length_le.
      destruct (Nat.le_gt_cases 5 (List.length sorted)) as [H5|H5]; [exact H5|].
      rewrite skipn_all2 in Hs by lia. destruct Hs.
    + intros t Ht.
      apply (StronglySorted_split _ 5 sorted Hsorted t _ Ht Hs).
Qed.

Lemma overview_topArticles_ranked_witness :
  exists o,
    run (Storage.getOverviewStats None None) Sample.viewedDB
    = (Sample.viewedDB, inr o)
    /\ (List.length (Storage.topArticles o) <= 5)%nat
    /\ exists a, In a (rows (articles Sample.viewedDB))
                 /\ hd_error (Storage.topArticles o)
                    = Some (Storage.mkTop (Article.id a) (Article.title a) 2).
Proof.
  destruct (overview_topArticles_ranked None None Sample.viewedDB)
    as (o & Hrun & Hlen & _ & _ & _).
  exists o. split; [exact Hrun|]. split; [exact Hlen|].
  exists (Sample.article 1 "A" "published" 0). split; [left; reflexivity|].
  assert (snd (run (Storage.getOverviewStats None None) Sample.viewedDB)
          = inr o) as Ho by (rewrite Hrun; reflexivity).
  vm_compute in Ho. injection Ho as <-. reflexivity.
Defined.

(** ** The running average *)

(** What one completed [recordArticleBounce] does to a daily row that is
    there. *)
Lemma recordArticleBounce_run
      (clock : Clock) (bounceData : InsertArticleBounce.t) (db : DB)
      (s : DailyArticleStat.t) :
  let a := InsertArticleBounce.articleId bounceData in
  let today := Storage.startOfDay (atToday clock) in
  let sample := InsertArticleBounce.timeOnPage bounceData in
  article_exists db a = true ->
  Storage.find_stat a today db = Some s ->
  DailyArticleStat.bounces s + 1 <> 0 ->
  exists db' bounce,
    run (Storage.recordArticleBounce clock bounceData) db = (db', inr bounce)
    /\ Storage.find_stat a today db' =
         Some (DailyArticleStat.mk
                 (DailyArticleStat.id s) (DailyArticleStat.articleId s)
                 (DailyArticleStat.date s) (DailyArticleStat.views s)
                 (DailyArticleStat.shares s)
                 (DailyArticleStat.bounces s + 1)
                 (if JS.truthy sample
                  then JS.Math_round
                         (inject_Z
                            (DailyArticleStat.averageTimeOnPage s
                             * DailyArticleStat.bounces s + JS.or_num sample 0)
                          / inject_Z (DailyArticleStat.bounces s + 1))
                  else DailyArticleStat.averageTimeOnPage s)
                 (atWrite clock)).
Proof.
  intros a today sample Hex Hs Hnz.
  unfold Storage.recordArticleBounce. rewrite run_await.
  fold a. rewrite Hex. cbn [insert_row]. fold today.
  rewrite run_await.
  change (Storage.find_stat a today (set_articleBounces db _))
    with (Storage.find_stat a today db).
  rewrite Hs. fold sample.
  assert ((if JS.truthy sample
           then Storage.round_div
                  (DailyArticleStat.averageTimeOnPage s
                   * DailyArticleStat.bounces s + JS.or_num sample 0)
                  (DailyArticleStat.bounces s + 1)
           else Some (DailyArticleStat.averageTimeOnPage s))
          = Some (if JS.truthy sample
                  then JS.Math_round
                         (inject_Z
                            (DailyArticleStat.averageTimeOnPage s
                             * DailyArticleStat.bounces s + JS.or_num sample 0)
                          / inject_Z (DailyArticleStat.bounces s + 1))
                  else DailyArticleStat.averageTimeOnPage s)) as ->.
  { destruct (JS.truthy sample); [|reflexivity].
    apply round_div_defined. exact Hnz. }
  rewrite run_await. cbn [Storage.update_stat run].
  eexists _, _. split; [reflexivity|].
  unfold Storage.find_stat in *. cbn.
  apply (find_map_update _
           (fun r => DailyArticleStat.id r =? DailyArticleStat.id s)
           (fun r => DailyArticleStat.mk _ _ _ _ _ _ _ _) _ (s := s)).
  - reflexivity.
  - exact Hs.
  - apply Z.eqb_refl.
Qed.

(** A bounce moves the average of a daily row towards its sample and
    never past it: on a row with a bounce count of 0 or more, the new
    average lies between the old average and the sample (0 for a call
    without sample), both included. *)
Theorem bounce_average_between
        (now : Z) (bounceData : InsertArticleBounce.t) (db : DB)
        (s : DailyArticleStat.t) :
  let a := InsertArticleBounce.articleId bounceData in
  let today := Storage.startOfDay now in
  let sample := JS.or_num (InsertArticleBounce.timeOnPage bounceData) 0 in
  article_exists db a = true ->
  Storage.find_stat a today db = Some s ->
  0 <= DailyArticleStat.bounces s ->
  exists s',
    Storage.find_stat a today
      (fst (run (Storage.recordArticleBounce now bounceData) db)) = Some s'
    /\ Z.min (DailyArticleStat.averageTimeOnPage s) sample
       <= DailyArticleStat.averageTimeOnPage s'
       <= Z.max (DailyArticleStat.averageTimeOnPage s) sample.
Proof.
  intros a today sample Hex Hs Hb.
  destruct (recordArticleBounce_run now bounceData db s Hex Hs)
    as (db' & bounce & Hrun & Hrow); [lia|].
  rewrite Hrun. cbn [fst]. eexists. split; [exact Hrow|].
  cbn [DailyArticleStat.averageTimeOnPage]. fold sample.
  destruct (JS.truthy _); [|lia].
  destruct (quotient_between (DailyArticleStat.averageTimeOnPage s)
              (DailyArticleStat.bounces s) sample Hb) as [Hlo Hhi].
  apply round_between; assumption.
Qed.

Lemma bounce_average_between_witness :
  exists s',
    Storage.find_stat 1 0
      (fst (run (Storage.recordArticleBounce 2000 (Sample.bounce 1 (Some 25)))
                (record_bounces [(1000, Sample.bounce 1 (Some 10))]
                                Sample.oneArticle))) = Some s'
    /\ 10 <= DailyArticleStat.averageTimeOnPage s' <= 25.
Proof.
  apply (bounce_average_between 2000 (Sample.bounce 1 (Some 25))
           (record_bounces [(1000, Sample.bounce 1 (Some 10))] Sample.oneArticle)
           (DailyArticleStat.mk 1 1 0 0 0 1 10 1000)).
  - reflexivity.
  - reflexivity.
  - cbn. lia.
Defined.

(** ** Version numbers without gaps *)

Lemma version_numbers_append (db db' : DB) (a : Z) (v : ArticleVersion.t) :
  rows (articleVersions db') = rows (articleVersions db) ++ [v] ->
  ArticleVersion.versionNumber v
    = nextVersionNumber db (ArticleVersion.articleId v) ->
  versionNumbers db' a
  = versionNumbers db a
    ++ (if ArticleVersion.articleId v =? a
        then [nextVersionNumber db a] else []).
Proof.
  intros Hrows Hn.
  unfold versionNumbers, versionsOf. rewrite Hrows, filter_app. cbn [filter].
  destruct (Z.eqb_spec (ArticleVersion.articleId v) a) as [Ha|Ha].
  - rewrite orderBy_snoc.
    + rewrite map_app. cbn [map]. rewrite Hn, Ha. reflexivity.
    + intros x Hx. unfold asc. rewrite Ha in Hn.
      pose proof (version_numbers_below_next db a x Hx). lia.
  - rewrite !app_nil_r. reflexivity.
Qed.

Lemma seq_snoc_Z (n : nat) :
  map Z.of_nat (seq 1 (S n)) = map Z.of_nat (seq 1 n) ++ [Z.of_nat n + 1].
Proof.
  rewrite seq_S, map_app. cbn [map]. f_equal. f_equal. lia.
Qed.

Lemma next_of_consecutive (db : DB) (a : Z) :
  consecutive (versionNumbers db a) ->
  nextVersionNumber db a = Z.of_nat (List.length (versionNumbers db a)) + 1.
Proof.
  intros Hc. unfold nextVersionNumber.
  pose proof (highest_spec
                (map ArticleVersion.versionNumber (versionsOf db a))) as Hh.
  assert (Permutation (versionNumbers db a)
                      (map ArticleVersion.versionNumber (versionsOf db a)))
    as Hp by (apply Permutation_map, orderBy_perm).
  set (n := List.length (versionNumbers db a)) in *.
  assert (forall x, In x (map ArticleVersion.versionNumber (versionsOf db a))
                    <-> 1 <= x <= Z.of_nat n) as Hrange.
  { intros x. split.
    - intros Hx. apply (Permutation_in _ (Permutation_sym Hp)) in Hx.
      rewrite Hc in Hx. apply in_map_iff in Hx.
      destruct Hx as (k & <- & Hk). apply in_seq in Hk. lia.
    - intros Hx. apply (Permutation_in _ Hp). rewrite Hc.
      apply in_map_iff. exists (Z.to_nat x). split; [lia|].
      apply in_seq. fold n. lia. }
  destruct (highest _) as [h|].
  - destruct Hh as [Hin Hmax]. apply Hrange in Hin.
    destruct (Nat.eq_dec n 0) as [H0|H0]; [lia|].
    assert (Z.of_nat n <= h) by (apply Hmax, Hrange; lia). lia.
  - apply Permutation_length in Hp. fold n in Hp. rewrite Hh in Hp.
    cbn in Hp. rewrite Hp. reflexivity.
Qed.

(** Operations that do not overlap leave no gaps: if the version numbers
    of an article are 1, 2, ..., n, they are 1, 2, ..., n' with n' at
    least n after any version creations and restores that run one after
    the other. *)
Theorem sequential_versions_without_gaps
        (ops : list VersionOp) (db : DB) (a : Z) :
  consecutive (versionNumbers db a) ->
  consecutive (versionNumbers (apply_ops ops db) a)
  /\ (List.length (versionNumbers db a)
      <= List.length (versionNumbers (apply_ops ops db) a))%nat.
Proof.
  unfold apply_ops. revert db.
  induction ops as [|op ops IH]; intros db Hc; simpl; [split; [exact Hc|lia]|].
  assert (consecutive (versionNumbers (fst (run (version_call op) db)) a)
          /\ (List.length (versionNumbers db a)
              <= List.length
                   (versionNumbers (fst (run (version_call op) db)) a))%nat)
    as [Hc1 Hl1].
  { destruct (version_call_effect op db) as [Hsame|(v & Hrows & Hn)].
    - unfold versionNumbers, versionsOf in *. rewrite Hsame.
      split; [exact Hc|lia].
    - rewrite (version_numbers_append db _ a v Hrows Hn).
      destruct (ArticleVersion.articleId v =? a).
      + rewrite (next_of_consecutive db a Hc). unfold consecutive in *.
        rewrite length_app. cbn [List.length]. rewrite Nat.add_1_r, seq_snoc_Z.
        rewrite <- Hc. split; [reflexivity|lia].
      + rewrite app_nil_r. split; [exact Hc|lia]. }
  destruct (IH _ Hc1) as [Hc2 Hl2]. split; [exact Hc2|lia].
Qed.

Lemma sequential_versions_without_gaps_witness :
  consecutive
    (versionNumbers
       (apply_ops [CreateVersion 50 (Sample.request 1 0);
                   RestoreVersion 60 (Sample.request 1 1);
                   CreateVersion 70 (Sample.request 2 0)]
                  Sample.versionedDB) 1).
Proof.
  apply (sequential_versions_without_gaps
           [CreateVersion 50 (Sample.request 1 0);
            RestoreVersion 60 (Sample.request 1 1);
            CreateVersion 70 (Sample.request 2 0)] Sample.versionedDB 1).
  reflexivity.
Defined.

Lemma get_versions_lists_history_witness :
  exists versions,
    run (Versions.get_versions (Sample.request 1 0)) Sample.versionedDB
    = (Sample.versionedDB,
       inr (Versions.mkRes 200 (Versions.VersionList versions)))
    /\ Permutation versions (versionsOf Sample.versionedDB 1).
Proof.
  destruct (get_versions_lists_history (Sample.request 1 0) Sample.versionedDB)
    as (versions & Hrun & Hperm & _).
  exists versions. split; [exact Hrun|exact Hperm].
Defined.
